(** * NutriUni: the daily-log store and the quick-access index

    A shallow embedding of the [NutritionTrackerService] (the daily log
    store with its date rollover) and of the [FastAccessService] (the
    bounded quick-access list), with the properties of the written
    specification stated and settled against it, followed by further
    properties of the same code and of its callers: the functions of
    the [useNutritionTracker] hook, the press handler of the
    quick-access section and the toggle of the history views.  The
    midnight timer and the app-state listener only decide when
    [checkForDateChange] and [checkForDateChangeFromBackground] run;
    they are not modelled, the checks are called with the clock of the
    moment.

    Conventions.
    - JavaScript numbers are kept abstract: the development is parametric
      in a type [num] with the few operations the services use
      ([Number]).  No algebraic law of addition is assumed, so every
      statement about totals holds for IEEE doubles as it holds for the
      integers used in the examples.
    - [AsyncStorage] is a finite map from keys to stored values; every
      call may throw, as decided by the environment of the call.
    - An [async] method is a function from the environment of the call
      (clock, random source, storage faults) and the application state
      to an outcome and a new state.  Calls are run to completion one
      after the other; interleavings of pending promises are out of the
      model. *)

From Stdlib Require Import ZArith Lia Ascii String.
From stdpp Require Import base tactics option list strings pretty gmap sorting.

Local Open Scope string_scope.
Local Open Scope Z_scope.

(** ** Numbers *)

Class Number (num : Type) : Type := {
  zero : num;
  (** [a + b] *)
  plus : num → num → num;
  (** JavaScript truthiness: [false] for [0], [-0] and [NaN] only *)
  truthy : num → bool;
  (** the global [parseInt] on a string ([NaN] is a [num]) *)
  parseInt : string → num;
}.

(** [x || 0] *)
Definition orZero `{Number num} (x : num) : num :=
  if truthy x then x else zero.

(** ** Data model *)

Section DataModel.
Context {num : Type}.

Record DailyNutrition : Type := {
  dn_calories : num;
  dn_protein : num;
  dn_carbs : num;
  dn_fat : num;
  dn_fiber : num;
  dn_sugar : num;
  dn_sodium : num;
}.

Record TrackedItem : Type := {
  ti_id : string;
  ti_name : string;
  ti_restaurant : string;
  ti_calories : num;
  ti_protein : num;
  ti_carbs : num;
  ti_fat : num;
  ti_fiber : num;
  ti_sugar : num;
  ti_sodium : num;
  ti_serving_size : string;
  ti_timestamp : Z;
}.

Record DailyLog : Type := {
  date : string;
  items : list TrackedItem;
  totals : DailyNutrition;
}.

Inductive ItemType : Type := custom | restaurant.

#[global] Instance ItemType_eq_dec : EqDecision ItemType.
Proof. solve_decision. Defined.

Record FastAccessItem : Type := {
  fa_id : string;
  fa_name : string;
  fa_restaurant : string;
  fa_calories : num;
  fa_protein : num;
  fa_carbs : num;
  fa_fat : num;
  fa_fiber : num;
  fa_sugar : num;
  fa_sodium : num;
  fa_serving_size : string;
  fa_type : ItemType;
  lastUsed : Z;
  useCount : Z;
}.

(** One entry of [nutrition_facts]. *)
Record Nutrient : Type := {
  amount : num;
  unit_ : string;
  daily_value_percent : option num;
}.

(** [nutrition.calories] is declared a string, and read defensively as
    either a string or a number. *)
Inductive CaloriesField : Type :=
| CalString (s : string)
| CalNumber (n : num).

Record MenuItem : Type := {
  mi_name : string;
  is_halal : bool;
  mi_serving_size : string;
  mi_calories : CaloriesField;
  nutrition_facts : gmap string Nutrient;
}.

(** The argument of [addCustomMeal]. *)
Record CustomMeal : Type := {
  cm_name : string;
  cm_calories : num;
  cm_protein : num;
  cm_carbs : num;
  cm_fat : num;
  cm_fiber : num;
  cm_sugar : num;
  cm_sodium : num;
  cm_serving_size : string;
}.

(** What a key of [AsyncStorage] holds.  [JSON.stringify] of a log or
    of the quick-access array is kept structured; anything else is
    text that does not parse as either. *)
Inductive Stored : Type :=
| JLog (l : DailyLog)
| JFast (l : list FastAccessItem)
| JText (s : string).

End DataModel.

Arguments DailyNutrition : clear implicits.
Arguments TrackedItem : clear implicits.
Arguments DailyLog : clear implicits.
Arguments FastAccessItem : clear implicits.
Arguments Nutrient : clear implicits.
Arguments CaloriesField : clear implicits.
Arguments MenuItem : clear implicits.
Arguments CustomMeal : clear implicits.
Arguments Stored : clear implicits.

(** ** Dates *)

(** The fields of a [Date] object read in local time. *)
Record LocalDate : Type := {
  getFullYear : Z;
  getMonth : Z;      (* 0 .. 11 *)
  getDate : Z;       (* 1 .. 31 *)
}.

(** [String(n).padStart(2, '0')] *)
Definition padStart2 (s : string) : string :=
  match s with
  | String c EmptyString => String "0"%char (String c EmptyString)
  | EmptyString => "00"
  | _ => s
  end.

(** [getTodayString] and [formatDateFromDate]: the local calendar day as
    [YYYY-MM-DD]. *)
Definition formatDateFromDate (d : LocalDate) : string :=
  pretty (getFullYear d) +:+ "-" +:+ padStart2 (pretty (getMonth d + 1))
    +:+ "-" +:+ padStart2 (pretty (getDate d)).

Definition digitValue (c : ascii) : option Z :=
  let n := Z.of_N (Ascii.N_of_ascii c) in
  if bool_decide (48 ≤ n ≤ 57) then Some (n - 48) else None.

(** Days since 1970-01-01 of a proleptic Gregorian date. *)
Definition daysFromCivil (y m d : Z) : Z :=
  let y' := if bool_decide (m ≤ 2) then y - 1 else y in
  let era := y' `div` 400 in
  let yoe := y' - era * 400 in
  let mp := (m + 9) `mod` 12 in
  let doy := (153 * mp + 2) `div` 5 + d - 1 in
  let doe := yoe * 365 + yoe `div` 4 - yoe `div` 100 + doy in
  era * 146097 + doe - 719468.

(** [new Date(s).getTime()] for the date strings the store handles:
    milliseconds of midnight of the day written [YYYY-MM-DD], [None] for
    an invalid date ([NaN]).  The store builds dates as
    [new Date(s + 'T00:00:00')] (local midnight) and as [new Date(s)]
    (UTC midnight); the constant offset between the two is left out, it
    does not change a comparison of two dates built the same way. *)
Definition dateTime (s : string) : option Z :=
  match s with
  | String y1 (String y2 (String y3 (String y4 (String "-"%char
      (String m1 (String m2 (String "-"%char
      (String d1 (String d2 EmptyString))))))))) =>
      a ← digitValue y1; b ← digitValue y2; c ← digitValue y3;
      e ← digitValue y4; f ← digitValue m1; g ← digitValue m2;
      h ← digitValue d1; i ← digitValue d2;
      let y := a * 1000 + b * 100 + c * 10 + e in
      let m := f * 10 + g in
      let d := h * 10 + i in
      if bool_decide (1 ≤ m ≤ 12 ∧ 1 ≤ d ≤ 31)
      then Some (daysFromCivil y m d * 86400000) else None
  | _ => None
  end.

(** [new Date(a + 'T00:00:00') < new Date(b + 'T00:00:00')]; a
    comparison with an invalid date is false. *)
Definition dateObjLt (a b : string) : bool :=
  match dateTime a, dateTime b with
  | Some x, Some y => bool_decide (x < y)
  | _, _ => false
  end.

(** *** Days of the calendar *)

Definition isLeapYear (y : Z) : bool :=
  bool_decide (y `mod` 4 = 0 ∧ (y `mod` 100 ≠ 0 ∨ y `mod` 400 = 0)).

(** The length of a month, counted from 0 as [getMonth] does. *)
Definition daysInMonth (y m : Z) : Z :=
  if bool_decide (m = 1) then (if isLeapYear y then 29 else 28)
  else if bool_decide (m = 3 ∨ m = 5 ∨ m = 8 ∨ m = 10) then 30
  else 31.

(** What a clock can read: a day of the calendar, in a year of four
    digits. *)
Definition isCalendarDay (d : LocalDate) : bool :=
  bool_decide (1000 ≤ getFullYear d ≤ 9999 ∧ 0 ≤ getMonth d ≤ 11 ∧
               1 ≤ getDate d ≤ daysInMonth (getFullYear d) (getMonth d)).

(** [a] is a day before [b]. *)
Definition earlier (a b : LocalDate) : Prop :=
  getFullYear a < getFullYear b ∨
  (getFullYear a = getFullYear b ∧
   (getMonth a < getMonth b ∨
    (getMonth a = getMonth b ∧ getDate a < getDate b))).

(** ** The environment of a call and the application state *)

Inductive StorageCall : Type :=
| GetItem (key : string)
| SetItem (key : string)
| RemoveItem (key : string)
| GetAllKeys.

#[global] Instance StorageCall_eq_dec : EqDecision StorageCall.
Proof. solve_decision. Defined.

(** What a call reads from outside the application: the clock, the
    random source, and which calls of [AsyncStorage] throw. *)
Record Env : Type := {
  clock : LocalDate;             (* [new Date()], local fields *)
  now : Z;                       (* [Date.now()] *)
  random : string;               (* [Math.random().toString(36).substr(2, 9)] *)
  faults : StorageCall → bool;
}.

Inductive Error : Type :=
| StorageError (c : StorageCall)
| SyntaxError
| CallbackError (id : nat).

Inductive Outcome (A : Type) : Type :=
| Resolved (a : A)
| Rejected (e : Error).
Arguments Resolved {A} a.
Arguments Rejected {A} e.

(** A date-change callback.  The callbacks registered in this repository
    ([loadData], [loadPastThreeDays]) start an asynchronous reload and
    return; they touch neither the callback list nor the store before
    the rollover check returns.  A callback is therefore an identity and
    whether it throws. *)
Record Callback : Type := {
  cb_id : nat;
  cb_throws : bool;
}.

(** What a call does besides changing the state, in the order it does
    it. *)
Inductive Effect : Type :=
| Invoked (id : nat)
| ConsoleError (msg : string).

Section State.
Context {num : Type}.

Record NutritionTrackerService : Type := {
  currentDate : string;
  dailyLog : option (DailyLog num);
  dateChangeCallbacks : list Callback;
}.

Record FastAccessService : Type := {
  fastAccessItems : list (FastAccessItem num);
}.

Record App : Type := {
  nutritionTracker : NutritionTrackerService;
  fastAccessService : FastAccessService;
  storage : gmap string (Stored num);       (* the contents of AsyncStorage *)
  effects : list Effect;
}.

(** An [async] method (and, with no awaited call in it, a synchronous
    one). *)
Definition Async (A : Type) : Type := Env → App → Outcome A * App.

Definition resolve {A} (a : A) : Async A := λ _ s, (Resolved a, s).
Definition throw {A} (e : Error) : Async A := λ _ s, (Rejected e, s).

Definition andThen {A B} (m : Async A) (k : A → Async B) : Async B :=
  λ env s,
    match m env s with
    | (Resolved a, s') => k a env s'
    | (Rejected e, s') => (Rejected e, s')
    end.

(** [try { m } catch (error) { h error }] *)
Definition tryCatch {A} (m : Async A) (h : Error → Async A) : Async A :=
  λ env s,
    match m env s with
    | (Resolved a, s') => (Resolved a, s')
    | (Rejected e, s') => h e env s'
    end.

Definition getEnv : Async Env := λ env s, (Resolved env, s).
Definition getApp : Async App := λ _ s, (Resolved s, s).
Definition modify (f : App → App) : Async unit := λ _ s, (Resolved (), f s).

Definition setTracker (f : NutritionTrackerService → NutritionTrackerService)
    : Async unit :=
  modify (λ s, {| nutritionTracker := f (nutritionTracker s);
                  fastAccessService := fastAccessService s;
                  storage := storage s;
                  effects := effects s |}).

Definition setCurrentDate (d : string) : Async unit :=
  setTracker (λ t, {| currentDate := d; dailyLog := dailyLog t;
                      dateChangeCallbacks := dateChangeCallbacks t |}).

Definition setDailyLog (l : option (DailyLog num)) : Async unit :=
  setTracker (λ t, {| currentDate := currentDate t; dailyLog := l;
                      dateChangeCallbacks := dateChangeCallbacks t |}).

Definition setCallbacks (c : list Callback) : Async unit :=
  setTracker (λ t, {| currentDate := currentDate t; dailyLog := dailyLog t;
                      dateChangeCallbacks := c |}).

Definition setFastAccessItems (l : list (FastAccessItem num)) : Async unit :=
  modify (λ s, {| nutritionTracker := nutritionTracker s;
                  fastAccessService := {| fastAccessItems := l |};
                  storage := storage s;
                  effects := effects s |}).

Definition setStorage (m : gmap string (Stored num)) : Async unit :=
  modify (λ s, {| nutritionTracker := nutritionTracker s;
                  fastAccessService := fastAccessService s;
                  storage := m;
                  effects := effects s |}).

Definition emit (e : Effect) : Async unit :=
  modify (λ s, {| nutritionTracker := nutritionTracker s;
                  fastAccessService := fastAccessService s;
                  storage := storage s;
                  effects := effects s ++ [e] |}).

(** [console.error(msg, error)] *)
Definition console_error (msg : string) : Async unit :=
  emit (ConsoleError msg).

End State.

Arguments NutritionTrackerService : clear implicits.
Arguments FastAccessService : clear implicits.
Arguments App : clear implicits.
Arguments Async : clear implicits.

Notation "'let*' x := m 'in' k" := (andThen m (λ x, k))
  (at level 10, x name, m at level 99, k at level 200,
   format "'[v' 'let*'  x  :=  m  'in' '/' k ']'").
Notation "m ;;; k" := (andThen m (λ _, k))
  (at level 100, k at level 200, right associativity,
   format "'[v' m  ;;; '/' k ']'").

(** ** AsyncStorage *)

Module AsyncStorage.
Section Storage.
Context {num : Type}.
Implicit Types (key : string) (v : Stored num).

(** Every call first consults the fault oracle of the environment. *)
Definition storageCall {A} (c : StorageCall) (m : Async num A) : Async num A :=
  let* env := getEnv in
  if faults env c then throw (StorageError c) else m.

Definition getItem key : Async num (option (Stored num)) :=
  storageCall (GetItem key)
    (let* s := getApp in resolve (storage s !! key)).

Definition setItem key v : Async num unit :=
  storageCall (SetItem key)
    (let* s := getApp in setStorage (<[key := v]> (storage s))).

Definition removeItem key : Async num unit :=
  storageCall (RemoveItem key)
    (let* s := getApp in setStorage (delete key (storage s))).

Definition getAllKeys : Async num (list string) :=
  storageCall GetAllKeys
    (let* s := getApp in resolve ((map_to_list (storage s)).*1)).

End Storage.
End AsyncStorage.

Section Json.
Context {num : Type}.
Implicit Types (v : Stored num).

(** A stored string is truthy unless it is empty. *)
Definition nonEmpty v : bool :=
  match v with
  | JText EmptyString => false
  | _ => true
  end.

(** [JSON.parse] where a daily log is expected. *)
Definition parseLog v : Async num (DailyLog num) :=
  match v with
  | JLog l => resolve l
  | _ => throw SyntaxError
  end.

(** [JSON.parse] where the quick-access array is expected. *)
Definition parseFastAccess v : Async num (list (FastAccessItem num)) :=
  match v with
  | JFast l => resolve l
  | _ => throw SyntaxError
  end.

End Json.

(** ** Array helpers *)

Section Arrays.
Context {A : Type}.

(** [Array.prototype.sort(cmp)]: a stable sort; [cmp a b < 0] puts [a]
    before [b].  [insertSorted x l] puts [x] in front of the first
    element it does not have to follow. *)
Fixpoint insertSorted (cmp : A → A → Z) (x : A) (l : list A) : list A :=
  match l with
  | [] => [x]
  | y :: l' =>
      if bool_decide (cmp x y ≤ 0) then x :: y :: l'
      else y :: insertSorted cmp x l'
  end.

Fixpoint sort (cmp : A → A → Z) (l : list A) : list A :=
  match l with
  | [] => []
  | x :: l' => insertSorted cmp x (sort cmp l')
  end.

(** [l.slice(0, count)]: a negative [count] counts from the end. *)
Definition slice0 (count : Z) (l : list A) : list A :=
  if bool_decide (count < 0)
  then take (Z.to_nat (Z.of_nat (length l) + count)) l
  else take (Z.to_nat count) l.

End Arrays.

(** ** FastAccessService *)

Section FastAccess.
Context `{Number num}.
Implicit Types (a b item : FastAccessItem num) (trackedItem : TrackedItem num).

Definition maxItems : nat := 10.

Definition fastAccessKey : string := "fast_access_items".

(** The comparator of both sorts: [lastUsed] descending, then
    [useCount] descending. *)
Definition byRecency a b : Z :=
  if bool_decide (lastUsed b ≠ lastUsed a)
  then lastUsed b - lastUsed a
  else useCount b - useCount a.

Definition loadFastAccessItems : Async num (list (FastAccessItem num)) :=
  tryCatch
    (let* stored := AsyncStorage.getItem fastAccessKey in
     match stored with
     | Some v =>
         if nonEmpty v then
           let* parsed := parseFastAccess v in
           setFastAccessItems (sort byRecency parsed)
         else resolve ()
     | None => resolve ()
     end ;;;
     let* s := getApp in
     resolve (fastAccessItems (fastAccessService s)))
    (λ _,
       console_error "Error loading fast access items:" ;;;
       resolve []).

(** The branch that refreshes an entry found by name and restaurant. *)
Definition refreshed item trackedItem (t : Z) : FastAccessItem num :=
  {| fa_id := fa_id item;
     fa_name := fa_name item;
     fa_restaurant := fa_restaurant item;
     fa_calories := ti_calories trackedItem;
     fa_protein := ti_protein trackedItem;
     fa_carbs := ti_carbs trackedItem;
     fa_fat := ti_fat trackedItem;
     fa_fiber := ti_fiber trackedItem;
     fa_sugar := ti_sugar trackedItem;
     fa_sodium := ti_sodium trackedItem;
     fa_serving_size := ti_serving_size trackedItem;
     fa_type := fa_type item;
     lastUsed := t;
     useCount := useCount item + 1 |}.

(** The branch that builds a new entry. *)
Definition fresh trackedItem (t : Z) : FastAccessItem num :=
  {| fa_id := ti_id trackedItem;
     fa_name := ti_name trackedItem;
     fa_restaurant := ti_restaurant trackedItem;
     fa_calories := ti_calories trackedItem;
     fa_protein := ti_protein trackedItem;
     fa_carbs := ti_carbs trackedItem;
     fa_fat := ti_fat trackedItem;
     fa_fiber := ti_fiber trackedItem;
     fa_sugar := ti_sugar trackedItem;
     fa_sodium := ti_sodium trackedItem;
     fa_serving_size := ti_serving_size trackedItem;
     fa_type := if bool_decide (ti_restaurant trackedItem = "Custom Meal")
                then custom else restaurant;
     lastUsed := t;
     useCount := 1 |}.

(** The predicate of [findIndex]. *)
Definition sameFood trackedItem item : Prop :=
  fa_name item = ti_name trackedItem ∧
  fa_restaurant item = ti_restaurant trackedItem.

#[global] Instance sameFood_dec trackedItem item :
  Decision (sameFood trackedItem item).
Proof. unfold sameFood. apply _. Defined.

(** The synchronous middle of [addOrUpdateFastAccessItem]: update or
    insert, cut to [maxItems], then sort. *)
Definition recordUse trackedItem (t : Z) (l : list (FastAccessItem num))
    : list (FastAccessItem num) :=
  let updated :=
    match list_find (sameFood trackedItem) l with
    | Some (existingIndex, item) =>
        <[existingIndex := refreshed item trackedItem t]> l
    | None => fresh trackedItem t :: l
    end in
  let kept :=
    if bool_decide (maxItems < length updated)%nat
    then take maxItems updated else updated in
  sort byRecency kept.

Definition addOrUpdateFastAccessItem trackedItem : Async num unit :=
  tryCatch
    (let* s := getApp in
     (if bool_decide (length (fastAccessItems (fastAccessService s)) = 0%nat)
      then let* _ := loadFastAccessItems in resolve ()
      else resolve ()) ;;;
     let* env := getEnv in
     let* s := getApp in
     let l := recordUse trackedItem (now env)
                (fastAccessItems (fastAccessService s)) in
     setFastAccessItems l ;;;
     AsyncStorage.setItem fastAccessKey (JFast l))
    (λ error,
       console_error "Error adding/updating fast access item:" ;;;
       throw error).

Definition getFastAccessItems : Async num (list (FastAccessItem num)) :=
  let* s := getApp in
  (if bool_decide (length (fastAccessItems (fastAccessService s)) = 0%nat)
   then let* _ := loadFastAccessItems in resolve ()
   else resolve ()) ;;;
  let* s := getApp in
  resolve (fastAccessItems (fastAccessService s)).

Definition getCustomMeals : Async num (list (FastAccessItem num)) :=
  let* l := getFastAccessItems in
  resolve (filter (λ item, fa_type item = custom) l).

Definition getRecentRestaurantItems : Async num (list (FastAccessItem num)) :=
  let* l := getFastAccessItems in
  resolve (filter (λ item, fa_type item = restaurant) l).

Definition removeFastAccessItem (itemId : string) : Async num unit :=
  tryCatch
    (let* s := getApp in
     let l := filter (λ item, fa_id item ≠ itemId)
                (fastAccessItems (fastAccessService s)) in
     setFastAccessItems l ;;;
     AsyncStorage.setItem fastAccessKey (JFast l))
    (λ error,
       console_error "Error removing fast access item:" ;;;
       throw error).

Definition clearAllFastAccessItems : Async num unit :=
  tryCatch
    (setFastAccessItems [] ;;;
     AsyncStorage.removeItem fastAccessKey)
    (λ error,
       console_error "Error clearing fast access items:" ;;;
       throw error).

End FastAccess.

(** ** NutritionTrackerService *)

Section Tracker.
Context `{Number num}.
Implicit Types (log : DailyLog num) (item : TrackedItem num).

Definition logKey (dateString : string) : string :=
  "nutrition_log_" +:+ dateString.

Definition getTodayString : Async num string :=
  let* env := getEnv in
  resolve (formatDateFromDate (clock env)).

Definition generateItemId : Async num string :=
  let* env := getEnv in
  resolve (pretty (now env) +:+ "_" +:+ random env).

Definition extractNutritionFromMenuItem (menuItem : MenuItem num)
    (restaurant : string) : Async num (TrackedItem num) :=
  let calories :=
    match mi_calories menuItem with
    | CalString s => orZero (parseInt s)
    | CalNumber n => orZero n
    end in
  let getNutrientAmount (key : string) : num :=
    match nutrition_facts menuItem !! key with
    | Some nutrient => orZero (amount nutrient)
    | None => zero
    end in
  let* id := generateItemId in
  let* env := getEnv in
  resolve
    {| ti_id := id;
       ti_name := mi_name menuItem;
       ti_restaurant := restaurant;
       ti_calories := calories;
       ti_protein := getNutrientAmount "Protein";
       ti_carbs := getNutrientAmount "Total Carbohydrate";
       ti_fat := getNutrientAmount "Total Fat";
       ti_fiber := getNutrientAmount "Dietary Fiber";
       ti_sugar := getNutrientAmount "Total Sugars";
       ti_sodium := getNutrientAmount "Sodium";
       ti_serving_size := mi_serving_size menuItem;
       ti_timestamp := now env |}.

Definition zeroTotals : DailyNutrition num :=
  {| dn_calories := zero; dn_protein := zero; dn_carbs := zero;
     dn_fat := zero; dn_fiber := zero; dn_sugar := zero;
     dn_sodium := zero |}.

(** [items.reduce((totals, item) => ..., zeroTotals)] *)
Definition calculateTotals (l : list (TrackedItem num)) : DailyNutrition num :=
  fold_left
    (λ totals item,
       {| dn_calories := plus (dn_calories totals) (ti_calories item);
          dn_protein := plus (dn_protein totals) (ti_protein item);
          dn_carbs := plus (dn_carbs totals) (ti_carbs item);
          dn_fat := plus (dn_fat totals) (ti_fat item);
          dn_fiber := plus (dn_fiber totals) (ti_fiber item);
          dn_sugar := plus (dn_sugar totals) (ti_sugar item);
          dn_sodium := plus (dn_sodium totals) (ti_sodium item) |})
    l zeroTotals.

Definition emptyLog (today : string) : DailyLog num :=
  {| date := today; items := []; totals := zeroTotals |}.

(** *** Date rollover *)

Definition saveCurrentDayToHistory (dateString : string) : Async num unit :=
  tryCatch
    (let* s := getApp in
     match dailyLog (nutritionTracker s) with
     | Some log =>
         if bool_decide (0 < length (items log))%nat then
           let finalLog :=
             {| date := dateString; items := items log;
                totals := totals log |} in
           AsyncStorage.setItem (logKey dateString) (JLog finalLog)
         else resolve ()
     | None => resolve ()
     end)
    (λ _, console_error "Error saving day to history:").

(** Calling one callback: the call is recorded, then the callback
    returns or throws. *)
Definition call (callback : Callback) : Async num unit :=
  emit (Invoked (cb_id callback)) ;;;
  if cb_throws callback then throw (CallbackError (cb_id callback))
  else resolve ().

(** [callbacks.forEach(callback => { try { callback() } catch ... })] *)
Fixpoint notifyAll (callbacks : list Callback) : Async num unit :=
  match callbacks with
  | [] => resolve ()
  | callback :: rest =>
      tryCatch (call callback)
        (λ _, console_error "Error in date change callback:") ;;;
      notifyAll rest
  end.

Definition checkForDateChange : Async num bool :=
  let* newDate := getTodayString in
  let* s := getApp in
  let current := currentDate (nutritionTracker s) in
  if bool_decide (current ≠ newDate) then
    if dateObjLt newDate current then
      setCurrentDate newDate ;;;
      resolve false
    else
      let oldDate := current in
      saveCurrentDayToHistory oldDate ;;;
      setCurrentDate newDate ;;;
      setDailyLog None ;;;
      let* s := getApp in
      notifyAll (dateChangeCallbacks (nutritionTracker s)) ;;;
      resolve true
  else resolve false.

Definition forceCheckDateChange : Async num bool := checkForDateChange.

(** [onDateChange(callback)]: the callback goes to the end of the
    list. *)
Definition onDateChange (callback : Callback) : Async num unit :=
  let* s := getApp in
  setCallbacks (dateChangeCallbacks (nutritionTracker s) ++ [callback]).

(** The function [onDateChange] returns: [indexOf] then [splice]. *)
Fixpoint removeFirst (id : nat) (l : list Callback) : list Callback :=
  match l with
  | [] => []
  | c :: l' => if bool_decide (cb_id c = id) then l' else c :: removeFirst id l'
  end.

Definition unsubscribe (callback : Callback) : Async num unit :=
  let* s := getApp in
  setCallbacks (removeFirst (cb_id callback)
                  (dateChangeCallbacks (nutritionTracker s))).

(** *** Today's log *)

Definition loadTodaysLog : Async num (DailyLog num) :=
  let* today := getTodayString in
  let* s := getApp in
  (if bool_decide (currentDate (nutritionTracker s) ≠ today) then
     setCurrentDate today ;;;
     setDailyLog None
   else resolve ()) ;;;
  let* s := getApp in
  let cached :=
    match dailyLog (nutritionTracker s) with
    | Some log => if bool_decide (date log = today) then Some log else None
    | None => None
    end in
  match cached with
  | Some log => resolve log
  | None =>
      let* found :=
        tryCatch
          (let* stored := AsyncStorage.getItem (logKey today) in
           match stored with
           | Some v =>
               if nonEmpty v then
                 let* log := parseLog v in
                 setDailyLog (Some log) ;;;
                 resolve (Some log)
               else resolve None
           | None => resolve None
           end)
          (λ _,
             console_error "Error loading daily log:" ;;;
             resolve None) in
      match found with
      | Some log => resolve log
      | None =>
          setDailyLog (Some (emptyLog today)) ;;;
          resolve (emptyLog today)
      end
  end.

(** [todaysLog.items.push(trackedItem)] and the assignment to
    [todaysLog.totals].  [todaysLog] is the object [loadTodaysLog]
    left in [this.dailyLog], so both change the cached log at once,
    before anything is written. *)
Definition pushItem log item : DailyLog num :=
  {| date := date log;
     items := items log ++ [item];
     totals := calculateTotals (items log ++ [item]) |}.

(** [todaysLog.items = todaysLog.items.filter(item => item.id !== itemId)]
    and the assignment to [todaysLog.totals], on the cached object
    likewise. *)
Definition dropItem log (itemId : string) : DailyLog num :=
  let kept := filter (λ item, ti_id item ≠ itemId) (items log) in
  {| date := date log; items := kept; totals := calculateTotals kept |}.

(** The [try] block the two add methods share. *)
Definition saveAndRecord log item : Async num unit :=
  tryCatch
    (let* s := getApp in
     AsyncStorage.setItem (logKey (currentDate (nutritionTracker s)))
       (JLog log) ;;;
     setDailyLog (Some log) ;;;
     addOrUpdateFastAccessItem item)
    (λ error,
       console_error "Error saving daily log:" ;;;
       throw error).

Definition addMenuItem (menuItem : MenuItem num) (restaurant : string)
    : Async num unit :=
  let* todaysLog := loadTodaysLog in
  let* trackedItem := extractNutritionFromMenuItem menuItem restaurant in
  let todaysLog := pushItem todaysLog trackedItem in
  setDailyLog (Some todaysLog) ;;;
  saveAndRecord todaysLog trackedItem.

Definition addCustomMeal (customMeal : CustomMeal num) : Async num unit :=
  let* todaysLog := loadTodaysLog in
  let* id := generateItemId in
  let* env := getEnv in
  let trackedItem :=
    {| ti_id := id;
       ti_name := cm_name customMeal;
       ti_restaurant := "Custom Meal";
       ti_calories := cm_calories customMeal;
       ti_protein := cm_protein customMeal;
       ti_carbs := cm_carbs customMeal;
       ti_fat := cm_fat customMeal;
       ti_fiber := cm_fiber customMeal;
       ti_sugar := cm_sugar customMeal;
       ti_sodium := cm_sodium customMeal;
       ti_serving_size := cm_serving_size customMeal;
       ti_timestamp := now env |} in
  let todaysLog := pushItem todaysLog trackedItem in
  setDailyLog (Some todaysLog) ;;;
  saveAndRecord todaysLog trackedItem.

Definition removeItem (itemId : string) : Async num unit :=
  let* todaysLog := loadTodaysLog in
  let todaysLog := dropItem todaysLog itemId in
  setDailyLog (Some todaysLog) ;;;
  tryCatch
    (let* s := getApp in
     AsyncStorage.setItem (logKey (currentDate (nutritionTracker s)))
       (JLog todaysLog) ;;;
     setDailyLog (Some todaysLog))
    (λ error,
       console_error "Error saving daily log:" ;;;
       throw error).

Definition getTodaysNutrition : Async num (DailyNutrition num) :=
  let* todaysLog := loadTodaysLog in
  resolve (totals todaysLog).

Definition getTodaysItems : Async num (list (TrackedItem num)) :=
  let* todaysLog := loadTodaysLog in
  resolve (items todaysLog).

Definition clearTodaysLog : Async num unit :=
  let* today := getTodayString in
  tryCatch
    (AsyncStorage.removeItem (logKey today) ;;;
     setDailyLog (Some (emptyLog today)))
    (λ error,
       console_error "Error clearing daily log:" ;;;
       throw error).

(** *** History *)


(** [key.startsWith('nutrition_log_')] *)
Definition isLogKey (key : string) : bool :=
  String.prefix "nutrition_log_" key.

(** The keys both history readers go through. *)
Definition historicalKeys (keys : list string) (today : string) : list string :=
  let nutritionLogKeys := filter (λ key, isLogKey key) keys in
  filter (λ key, key ≠ logKey today) nutritionLogKeys.

(** The loop over the keys: each key is read in its own [try], and a
    log is pushed when [keep] accepts it. *)
Fixpoint readLogs (keep : DailyLog num → bool) (keys : list string)
    (logs : list (DailyLog num)) : Async num (list (DailyLog num)) :=
  match keys with
  | [] => resolve logs
  | key :: rest =>
      let* logs :=
        tryCatch
          (let* stored := AsyncStorage.getItem key in
           match stored with
           | Some v =>
               if nonEmpty v then
                 let* log := parseLog v in
                 resolve (if keep log then (logs ++ [log])%list else logs)
               else resolve logs
           | None => resolve logs
           end)
          (λ _,
             console_error "Error loading log for key" ;;;
             resolve logs) in
      readLogs keep rest logs
  end.

(** [new Date(b.date).getTime() - new Date(a.date).getTime()]; a
    [NaN] result counts as 0 for [sort]. *)
Definition byDate (a b : DailyLog num) : Z :=
  match dateTime (date b), dateTime (date a) with
  | Some x, Some y => x - y
  | _, _ => 0
  end.

Definition getMostRecentLogs (count : Z) : Async num (list (DailyLog num)) :=
  tryCatch
    (let* keys := AsyncStorage.getAllKeys in
     let* today := getTodayString in
     let* logs :=
       readLogs (λ log, bool_decide (0 < length (items log))%nat)
         (historicalKeys keys today) [] in
     resolve (slice0 count (sort byDate logs)))
    (λ _,
       console_error "Error loading most recent logs:" ;;;
       resolve []).

Definition getAllHistoricalLogs : Async num (list (DailyLog num)) :=
  tryCatch
    (let* keys := AsyncStorage.getAllKeys in
     let* today := getTodayString in
     let* logs := readLogs (λ _, true) (historicalKeys keys today) [] in
     resolve (sort byDate logs))
    (λ _,
       console_error "Error loading historical logs:" ;;;
       resolve []).

(** *** Construction *)

(** [new NutritionTrackerService()] over the storage the device
    holds: [currentDate] is today, nothing is cached, nobody
    listens. *)
Definition start (env : Env) (stored : gmap string (Stored num)) : App num :=
  {| nutritionTracker :=
       {| currentDate := formatDateFromDate (clock env);
          dailyLog := None;
          dateChangeCallbacks := [] |};
     fastAccessService := {| fastAccessItems := [] |};
     storage := stored;
     effects := [] |}.

End Tracker.

(** ** Integers as numbers, for the examples *)

Module Examples.

(** The leading decimal digits of a string; with no digit [parseInt]
    is [NaN], which the integers do not have: it is read as 0, the
    value [parseInt(s) || 0] has in that case. *)
Fixpoint leadingDigits (s : string) (acc : Z) : Z :=
  match s with
  | String c s' =>
      match digitValue c with
      | Some d => leadingDigits s' (acc * 10 + d)
      | None => acc
      end
  | EmptyString => acc
  end.

#[export] Instance Z_Number : Number Z := {|
  zero := 0;
  plus := Z.add;
  truthy := λ x, bool_decide (x ≠ 0);
  parseInt := λ s, leadingDigits s 0;
|}.

Definition noFault : StorageCall → bool := λ _, false.

(** An environment whose clock reads the given local day and instant,
    with a working storage. *)
Definition envAt (y m d : Z) (t : Z) : Env :=
  {| clock := {| getFullYear := y; getMonth := m - 1; getDate := d |};
     now := t; random := "k3j9x0q1z"; faults := noFault |}.

Definition failing (c : StorageCall) (env : Env) : Env :=
  {| clock := clock env; now := now env; random := random env;
     faults := λ c', bool_decide (c' = c) |}.

Definition meal (name : string) (kcal : Z) : CustomMeal Z :=
  {| cm_name := name; cm_calories := kcal; cm_protein := 10;
     cm_carbs := 20; cm_fat := 5; cm_fiber := 2; cm_sugar := 3;
     cm_sodium := 100; cm_serving_size := "1 bowl" |}.

(** The state a call leaves. *)
Definition after {A} (m : Async Z A) (env : Env) (s : App Z) : App Z :=
  (m env s).2.

End Examples.

(** ** Sequences of operations on today's log *)

Section LogOps.
Context `{Number num}.

Inductive LogOp : Type :=
| OpAddMenuItem (menuItem : MenuItem num) (restaurant : string)
| OpAddCustomMeal (customMeal : CustomMeal num)
| OpRemoveItem (itemId : string).

Definition perform (op : LogOp) : Async num unit :=
  match op with
  | OpAddMenuItem menuItem place => addMenuItem menuItem place
  | OpAddCustomMeal customMeal => addCustomMeal customMeal
  | OpRemoveItem itemId => removeItem itemId
  end.

(** The states a sequence of operations goes through, one per
    operation, each run in the environment it comes with and whether
    it resolves or rejects. *)
Fixpoint runLog (ops : list (Env * LogOp)) (s : App num) : list (App num) :=
  match ops with
  | [] => []
  | (env, op) :: rest =>
      let s' := (perform op env s).2 in
      s' :: runLog rest s'
  end.

(** The four operations that change today's log. *)
Inductive Mutation : Type :=
| Log (op : LogOp)
| ClearToday.

Definition mutate (m : Mutation) : Async num unit :=
  match m with
  | Log op => perform op
  | ClearToday => clearTodaysLog
  end.

(** The call of the storage that makes the operation durable. *)
Definition writeOf (m : Mutation) (today : string) : StorageCall :=
  match m with
  | Log _ => SetItem (logKey today)
  | ClearToday => RemoveItem (logKey today)
  end.

(** The sum of one field over a list of items, taken from the left in
    the order of the list. *)
Definition sumOf (field : TrackedItem num → num) (l : list (TrackedItem num))
    : num :=
  fold_left (λ acc item, plus acc (field item)) l zero.

Definition totalsAreSums (log : DailyLog num) : Prop :=
  dn_calories (totals log) = sumOf ti_calories (items log) ∧
  dn_protein (totals log) = sumOf ti_protein (items log) ∧
  dn_carbs (totals log) = sumOf ti_carbs (items log) ∧
  dn_fat (totals log) = sumOf ti_fat (items log) ∧
  dn_fiber (totals log) = sumOf ti_fiber (items log) ∧
  dn_sugar (totals log) = sumOf ti_sugar (items log) ∧
  dn_sodium (totals log) = sumOf ti_sodium (items log).

(** The store holds a log for today whose totals are the sums of its
    items. *)
Definition totalsInvariant (s : App num) : Prop :=
  ∃ log, dailyLog (nutritionTracker s) = Some log ∧ totalsAreSums log.

End LogOps.

(** ** The keys of the stored logs *)

Section Keys.
Context `{Number num}.

(** Every log stored under a key of the daily-log namespace is stored
    under the key of its own date. *)
Definition keyedByDate (m : gmap string (Stored num)) : Prop :=
  ∀ key log,
    m !! key = Some (JLog log) → isLogKey key = true →
    key = logKey (date log).

End Keys.

(** ** The effects of a rollover *)

Section RolloverEffects.
Context `{Number num}.

(** What calling the callbacks leaves in the effects. *)
Definition notifications (callbacks : list Callback) : list Effect :=
  flat_map
    (λ callback,
       Invoked (cb_id callback) ::
       if cb_throws callback
       then [ConsoleError "Error in date change callback:"] else [])
    callbacks.

(** What archiving the day [old] does to the storage and to the
    effects. *)
Definition archive (old : string) (env : Env) (s : App num)
    : gmap string (Stored num) * list Effect :=
  match dailyLog (nutritionTracker s) with
  | Some log =>
      if bool_decide (0 < length (items log))%nat then
        if faults env (SetItem (logKey old))
        then (storage s, [ConsoleError "Error saving day to history:"])
        else (<[logKey old :=
                  JLog {| date := old; items := items log;
                          totals := totals log |}]> (storage s), [])
      else (storage s, [])
  | None => (storage s, [])
  end.

End RolloverEffects.

(** ** Observations on the effects of a call *)

(** The callbacks called, in the order of the calls. *)
Definition invocations (l : list Effect) : list nat :=
  omap (λ e, match e with Invoked id => Some id | ConsoleError _ => None end) l.

Section Subscriptions.
Context {num : Type}.

(** Registering callbacks one after the other. *)
Definition subscribeAll (callbacks : list Callback) (env : Env) (s : App num)
    : App num :=
  foldl (λ s callback, (onDateChange callback env s).2) s callbacks.

End Subscriptions.

(** ** Orders and sequences of uses of the quick-access list *)

Section RecencyDefs.
Context `{Number num}.

(** [a] may stand before [b]: used later, or at the same instant and
    at least as often. *)
Definition recencyOrder (a b : FastAccessItem num) : Prop :=
  lastUsed b < lastUsed a ∨
  (lastUsed b = lastUsed a ∧ useCount b ≤ useCount a).

(** The list before the sort. *)
Definition updatedList (t : TrackedItem num) (now : Z)
    (l : list (FastAccessItem num)) : list (FastAccessItem num) :=
  match list_find (sameFood t) l with
  | Some (existingIndex, item) => <[existingIndex := refreshed item t now]> l
  | None => fresh t now :: l
  end.

(** The pair an entry is found by. *)
Definition foodOf (item : TrackedItem num) : string * string :=
  (ti_name item, ti_restaurant item).

(** The pair of an entry. *)
Definition pairOf (item : FastAccessItem num) : string * string :=
  (fa_name item, fa_restaurant item).

(** Recording uses one after the other, each in its environment. *)
Definition recordAll (uses : list (Env * TrackedItem num)) (s : App num)
    : App num :=
  foldl (λ s use, (addOrUpdateFastAccessItem use.2 use.1 s).2) s uses.

(** The same on the list alone. *)
Definition recordUses (uses : list (Env * TrackedItem num))
    (l : list (FastAccessItem num)) : list (FastAccessItem num) :=
  foldl (λ l use, recordUse use.2 (now use.1) l) l uses.

(** Follows the written specification, for comparison with
    [recordUse]: on overflow the whole collection is sorted first and
    the first [maxItems] entries are kept. *)
Definition truncateAsSpecified (l : list (FastAccessItem num))
    : list (FastAccessItem num) :=
  if bool_decide (maxItems < length l)%nat
  then take maxItems (sort byRecency l) else sort byRecency l.

End RecencyDefs.

(** ** The foreground check *)

(** The characters [parseInt] skips in front of a number. *)
Definition isWhiteSpace (c : ascii) : bool :=
  let n := Z.of_N (Ascii.N_of_ascii c) in
  bool_decide (9 ≤ n ≤ 13 ∨ n = 32).

(** The value of a character as a digit of the given radix. *)
Definition digitIn (radix : Z) (c : ascii) : option Z :=
  let n := Z.of_N (Ascii.N_of_ascii c) in
  let v := if bool_decide (48 ≤ n ≤ 57) then n - 48
           else if bool_decide (97 ≤ n ≤ 122) then n - 87
           else if bool_decide (65 ≤ n ≤ 90) then n - 55
           else radix in
  if bool_decide (v < radix) then Some v else None.

(** The longest prefix of digits, read in the radix; [None] when there
    is no digit. *)
Fixpoint readDigits (radix : Z) (s : string) (acc : option Z) : option Z :=
  match s with
  | String c s' =>
      match digitIn radix c with
      | Some d => readDigits radix s' (Some (default 0 acc * radix + d))
      | None => acc
      end
  | EmptyString => acc
  end.

Fixpoint skipWhiteSpace (s : string) : string :=
  match s with
  | String c s' => if isWhiteSpace c then skipWhiteSpace s' else s
  | EmptyString => s
  end.

(** [parseInt(s)] with no radix given, on integers: white space is
    skipped, a sign is read, [0x] or [0X] selects radix 16, and the
    longest prefix of digits is the value; [None] is [NaN].  (The value
    is exact here; a double rounds it beyond 2^53.) *)
Definition parseIntZ (s : string) : option Z :=
  let s := skipWhiteSpace s in
  let '(sign, s) :=
    match s with
    | String "-"%char s' => (-1, s')
    | String "+"%char s' => (1, s')
    | _ => (1, s)
    end in
  let '(radix, s) :=
    match s with
    | String "0"%char (String "x"%char s') => (16, s')
    | String "0"%char (String "X"%char s') => (16, s')
    | _ => (10, s)
    end in
  (λ v, sign * v) <$> readDigits radix s None.

(** [new Date(t).toISOString().split('T')[0]], as far as the foreground
    check uses it: an instant out of the range of [Date] makes
    [toISOString] throw, and two valid instants give the same string
    exactly when they fall on the same UTC day, which is what is kept
    of the string. *)
Definition isoDay (t : Z) : option Z :=
  if bool_decide (-8640000000000000 ≤ t ≤ 8640000000000000)
  then Some (t `div` 86400000) else None.

Section Foreground.
Context `{Number num}.

Definition backgroundKey : string := "app_background_timestamp".

Definition saveBackgroundTimestamp : Async num unit :=
  tryCatch
    (let* env := getEnv in
     AsyncStorage.setItem backgroundKey (JText (pretty (now env))))
    (λ _, console_error "Error saving background timestamp:").

(** The text a stored value is read as. *)
Definition storedTimestamp (v : Stored num) : option Z :=
  match v with
  | JText s => parseIntZ s
  | _ => None
  end.

(** [toISOString] on the date built from a parsed number; the
    [RangeError] of an invalid date is carried by [SyntaxError], the
    handler does not look at the error it catches. *)
Definition toISODay (t : option Z) : Async num Z :=
  match t ≫= isoDay with
  | Some day => resolve day
  | None => throw SyntaxError
  end.

(** [checkForDateChangeFromBackground].  [setupMidnightTimer], called in
    the first branch, only schedules the next check and leaves no trace
    here. *)
Definition checkForDateChangeFromBackground : Async num unit :=
  tryCatch
    (let* backgroundTimestamp := AsyncStorage.getItem backgroundKey in
     match backgroundTimestamp with
     | Some v =>
         if nonEmpty v then
           let* env := getEnv in
           let* backgroundDate := toISODay (storedTimestamp v) in
           let* currentDate := toISODay (Some (now env)) in
           (if bool_decide (backgroundDate ≠ currentDate) then
              let* _ := checkForDateChange in resolve ()
            else
              let* _ := checkForDateChange in resolve ()) ;;;
           AsyncStorage.removeItem backgroundKey
         else
           let* _ := checkForDateChange in resolve ()
     | None =>
         let* _ := checkForDateChange in resolve ()
     end)
    (λ _,
       console_error "Error checking date change from background:" ;;;
       let* _ := checkForDateChange in resolve ()).

End Foreground.

Section SameButConsole.
Context {num : Type}.

(** Two states that differ in what was logged to the console only. *)
Definition sameButConsole (s s' : App num) : Prop :=
  nutritionTracker s' = nutritionTracker s ∧
  fastAccessService s' = fastAccessService s ∧
  storage s' = storage s ∧
  invocations (effects s') = invocations (effects s).

End SameButConsole.

(** ** From a quick-access entry back to the log *)

Section Relog.
Context `{Number num}.

(** [fastAccessItemToTrackedItem]: a new id and the time of the call,
    the rest of the entry as it is. *)
Definition fastAccessItemToTrackedItem (fastAccessItem : FastAccessItem num)
    : Async num (TrackedItem num) :=
  let* env := getEnv in
  resolve
    {| ti_id := pretty (now env) +:+ "_" +:+ random env;
       ti_name := fa_name fastAccessItem;
       ti_restaurant := fa_restaurant fastAccessItem;
       ti_calories := fa_calories fastAccessItem;
       ti_protein := fa_protein fastAccessItem;
       ti_carbs := fa_carbs fastAccessItem;
       ti_fat := fa_fat fastAccessItem;
       ti_fiber := fa_fiber fastAccessItem;
       ti_sugar := fa_sugar fastAccessItem;
       ti_sodium := fa_sodium fastAccessItem;
       ti_serving_size := fa_serving_size fastAccessItem;
       ti_timestamp := now env |}.

End Relog.

(** The functions the hook [useNutritionTracker] hands to the views, on
    the state of the services; the React state they refresh is not
    kept. *)
Module useNutritionTracker.
Section Hook.
Context `{Number num}.

(** [loadData]: both reads are started together and awaited; they are
    run one after the other here. *)
Definition loadData : Async num unit :=
  tryCatch
    (let* _ := getTodaysNutrition in
     let* _ := getTodaysItems in
     resolve ())
    (λ _, console_error "Error loading nutrition data:").

Definition addItem (menuItem : MenuItem num) (place : string) : Async num unit :=
  tryCatch
    (addMenuItem menuItem place ;;; loadData)
    (λ error, console_error "Error adding item:" ;;; throw error).

Definition addCustomMeal (customMeal : CustomMeal num) : Async num unit :=
  tryCatch
    (addCustomMeal customMeal ;;; loadData)
    (λ error, console_error "Error adding custom meal:" ;;; throw error).

Definition removeItem (itemId : string) : Async num unit :=
  tryCatch
    (removeItem itemId ;;; loadData)
    (λ error, console_error "Error removing item:" ;;; throw error).

Definition clearAll : Async num unit :=
  tryCatch
    (clearTodaysLog ;;; loadData)
    (λ error, console_error "Error clearing log:" ;;; throw error).

End Hook.
End useNutritionTracker.

Section FastAccessSection.
Context `{Number num}.

(** The menu item [handleFastAccessItemPress] builds from a restaurant
    entry: the six nutrients with their amounts only, the calories as a
    number. *)
Definition simulatedMenuItem (item : FastAccessItem num) : MenuItem num :=
  let nutrient (x : num) : Nutrient num :=
    {| amount := x; unit_ := EmptyString; daily_value_percent := None |} in
  {| mi_name := fa_name item;
     is_halal := false;
     mi_serving_size := fa_serving_size item;
     mi_calories := CalNumber (fa_calories item);
     nutrition_facts :=
       {[ "Protein" := nutrient (fa_protein item);
          "Total Carbohydrate" := nutrient (fa_carbs item);
          "Total Fat" := nutrient (fa_fat item);
          "Dietary Fiber" := nutrient (fa_fiber item);
          "Total Sugars" := nutrient (fa_sugar item);
          "Sodium" := nutrient (fa_sodium item) ]} |}.

(** [handleFastAccessItemPress]: the entry is logged again, as a custom
    meal or as a menu item of its restaurant; a failure ends in an
    alert and goes no further. *)
Definition handleFastAccessItemPress (item : FastAccessItem num)
    : Async num unit :=
  tryCatch
    (let* trackedItem := fastAccessItemToTrackedItem item in
     if bool_decide (fa_type item = custom) then
       useNutritionTracker.addCustomMeal
         {| cm_name := fa_name item;
            cm_calories := fa_calories item;
            cm_protein := fa_protein item;
            cm_carbs := fa_carbs item;
            cm_fat := fa_fat item;
            cm_fiber := fa_fiber item;
            cm_sugar := fa_sugar item;
            cm_sodium := fa_sodium item;
            cm_serving_size := fa_serving_size item |}
     else
       useNutritionTracker.addItem (simulatedMenuItem item) (fa_restaurant item))
    (λ _, resolve ()).

End FastAccessSection.

(** ** Order of the days in the history *)

Section HistoryOrder.
Context {num : Type}.

(** The date of [a] reads as a day, so does the date of [b], and the
    day of [b] is not after the day of [a]. *)
Definition notOlder (a b : DailyLog num) : Prop :=
  ∃ ta tb, dateTime (date a) = Some ta ∧ dateTime (date b) = Some tb ∧ tb ≤ ta.

(** A stored log whose date reads as a day (and anything that is not a
    log). *)
Definition hasValidDate (v : Stored num) : bool :=
  match v with
  | JLog log => bool_decide (is_Some (dateTime (date log)))
  | _ => true
  end.

End HistoryOrder.

(** ** The history views *)

Section HistoryDays.
Context {num : Type}.

Record HistoryDay : Type := {
  hd_date : string;
  displayDate : string;
  hd_log : DailyLog num;
  isExpanded : bool;
}.

(** The update [toggleDayExpansion] applies to the list of days. *)
Definition toggleDayExpansion (dateString : string) (prev : list HistoryDay)
    : list HistoryDay :=
  (λ day,
     if bool_decide (hd_date day = dateString)
     then {| hd_date := hd_date day; displayDate := displayDate day;
             hd_log := hd_log day; isExpanded := negb (isExpanded day) |}
     else day) <$> prev.

End HistoryDays.

Arguments HistoryDay : clear implicits.

(** ** What the quick-access list keeps *)

Section QuickAccessInvariant.
Context `{Number num}.

(** The type of an entry says whether its restaurant is the one custom
    meals are filed under. *)
Definition wellTyped (item : FastAccessItem num) : Prop :=
  fa_type item = custom ↔ fa_restaurant item = "Custom Meal".

(** No two entries for the same name and restaurant, every entry well
    typed, at most [maxItems] entries. *)
Definition tidy (l : list (FastAccessItem num)) : Prop :=
  NoDup (pairOf <$> l) ∧ Forall wellTyped l ∧ (length l ≤ maxItems)%nat.

#[global] Instance wellTyped_dec item : Decision (wellTyped item).
Proof. unfold wellTyped. apply _. Defined.

#[global] Instance tidy_dec l : Decision (tidy l).
Proof. unfold tidy. apply _. Defined.

(** Both the list in memory and the stored one are tidy. *)
Definition tidyState (s : App num) : Prop :=
  tidy (fastAccessItems (fastAccessService s)) ∧
  ∀ l, storage s !! fastAccessKey = Some (JFast l) → tidy l.


End QuickAccessInvariant.

(** ** Scenarios *)

Module Scenarios.
Import Examples.

(** What an outcome resolved to. *)
Definition resolved {A} (o : Outcome A) : option A :=
  match o with
  | Resolved a => Some a
  | Rejected _ => None
  end.

(** *** A day with two meals *)

(** A fresh install on 2024-03-10, then 300 and 200 calories logged. *)
Definition morning : App Z := start (envAt 2024 3 10 1000) ∅.
Definition oneMeal : App Z :=
  after (addCustomMeal (meal "Oats" 300)) (envAt 2024 3 10 1000) morning.
Definition twoMeals : App Z :=
  after (addCustomMeal (meal "Rice" 200)) (envAt 2024 3 10 2000) oneMeal.

Definition twoMealsLog : DailyLog Z :=
  default (emptyLog EmptyString) (dailyLog (nutritionTracker twoMeals)).

Definition mar09 : Env := envAt 2024 3 9 5000.
Definition mar11 : Env := envAt 2024 3 11 5000.
Definition mar12 : Env := envAt 2024 3 12 5000.

(** *** A clock set back, then forward again *)

(** A meal is logged on 2024-03-12; the clock is set back to
    2024-03-10, where another meal is logged; the clock then returns
    to 2024-03-12. *)
Definition onTheTwelfth : App Z :=
  after (addCustomMeal (meal "Oats" 300)) (envAt 2024 3 12 1000)
    (start (envAt 2024 3 12 1000) ∅).
Definition setBack : App Z :=
  after checkForDateChange (envAt 2024 3 10 2000) onTheTwelfth.
Definition loggedOnTheTenth : App Z :=
  after (addCustomMeal (meal "Rice" 200)) (envAt 2024 3 10 3000) setBack.
Definition backOnTheTwelfth : App Z :=
  after checkForDateChange (envAt 2024 3 12 4000) loggedOnTheTenth.

(** *** Callbacks *)

Definition reloadSummary : Callback := {| cb_id := 1; cb_throws := true |}.
Definition reloadHistory : Callback := {| cb_id := 2; cb_throws := false |}.

(** *** Quick access *)

Definition tracked (name : string) (kcal : Z) : TrackedItem Z :=
  {| ti_id := name +:+ "_id"; ti_name := name;
     ti_restaurant := "Custom Meal"; ti_calories := kcal;
     ti_protein := 10; ti_carbs := 20; ti_fat := 5; ti_fiber := 2;
     ti_sugar := 3; ti_sodium := 100; ti_serving_size := "1 bowl";
     ti_timestamp := 0 |}.

(** Rice at instant 3000, then oats at instant 5000. *)
Definition riceThenOats : App Z :=
  recordAll [(envAt 2024 3 10 3000, tracked "Rice" 200);
             (envAt 2024 3 10 5000, tracked "Oats" 300)] morning.

(** Eleven different meals, one per second. *)
Definition elevenMeals : list (Env * TrackedItem Z) :=
  imap (λ i name, (envAt 2024 3 10 (1000 * (Z.of_nat i + 1)), tracked name 100))
    ["m01"; "m02"; "m03"; "m04"; "m05"; "m06"; "m07"; "m08"; "m09"; "m10";
     "m11"].

(** Ten meals used at instants 1001 to 1010. *)
Definition tenMeals : App Z :=
  recordAll
    (imap (λ i name, (envAt 2024 3 10 (1001 + Z.of_nat i), tracked name 100))
       ["m01"; "m02"; "m03"; "m04"; "m05"; "m06"; "m07"; "m08"; "m09"; "m10"])
    morning.

(** An eleventh meal, used after the clock was set back. *)
Definition late : TrackedItem Z := tracked "late" 250.
Definition clockSetBack : Env := envAt 2024 3 10 500.

(** *** A write that fails *)

Definition brokenWrite : Env :=
  failing (SetItem "nutrition_log_2024-03-10") (envAt 2024 3 10 3000).
Definition soup : Mutation :=
  Log (OpAddCustomMeal (meal "Soup" 150)).

(** A device whose storage holds a quick-access list, before any
    call has loaded it. *)
Definition notLoaded : App Z :=
  start (envAt 2024 3 10 1000)
    {[ fastAccessKey := JFast [fresh (tracked "Rice" 200) 3000;
                               fresh (tracked "Oats" 300) 2000] ]}.

End Scenarios.

(** ** Further scenarios *)

Module MoreScenarios.
Import Examples Scenarios.

(** Later on 2024-03-10, twice. *)
Definition noon : Env := envAt 2024 3 10 9000.
Definition afternoon : Env := envAt 2024 3 10 9500.

(** A storage that refuses to write the quick-access list, and one that
    refuses to remove it. *)
Definition noQuickAccessWrite : Env := failing (SetItem fastAccessKey) noon.
Definition noQuickAccessRemoval : Env :=
  failing (RemoveItem fastAccessKey) noon.

(** A callback nobody registered. *)
Definition stranger : Callback := {| cb_id := 3; cb_throws := false |}.

Definition subscribed : App Z :=
  subscribeAll [reloadSummary; reloadHistory] mar09 twoMeals.

(** The app went to the background at noon with two meals logged. *)
Definition inBackground : App Z := after saveBackgroundTimestamp noon twoMeals.

(** A device whose stored background timestamp is not a number. *)
Definition garbled : App Z :=
  start noon {[ backgroundKey := JText "soon" ]}.

(** The entry of the quick-access list for the rice of [twoMeals]. *)
Definition riceEntry : FastAccessItem Z :=
  default (fresh (tracked "Rice" 200) 0)
    (head (fastAccessItems (fastAccessService twoMeals))).


Definition expandedDays : list (HistoryDay Z) :=
  [ {| hd_date := "2024-03-10"; displayDate := "Yesterday";
       hd_log := twoMealsLog; isExpanded := false |};
    {| hd_date := "2024-03-09"; displayDate := "Saturday";
       hd_log := emptyLog "2024-03-09"; isExpanded := true |} ].

End MoreScenarios.

(** * Properties *)

(** Unfolding of the combinators of [Async]. *)
Ltac run :=
  unfold AsyncStorage.getItem, AsyncStorage.setItem, AsyncStorage.removeItem,
    AsyncStorage.getAllKeys, AsyncStorage.storageCall, console_error, emit,
    setCurrentDate, setDailyLog, setCallbacks, setTracker, setFastAccessItems,
    setStorage, getTodayString, generateItemId, parseLog, parseFastAccess,
    andThen, tryCatch, modify, getEnv, getApp, resolve, throw in *;
  simpl in *.

Section LoadTodaysLog.
Context `{Number num}.
Implicit Types (s : App num) (env : Env).

(** [loadTodaysLog] always resolves, leaves its result in the cache
    under today's date, and touches neither the storage nor the
    quick-access list nor the callbacks. *)
Lemma loadTodaysLog_resolves env s :
  ∃ log s',
    loadTodaysLog env s = (Resolved log, s') ∧
    dailyLog (nutritionTracker s') = Some log ∧
    currentDate (nutritionTracker s') = formatDateFromDate (clock env) ∧
    dateChangeCallbacks (nutritionTracker s') =
      dateChangeCallbacks (nutritionTracker s) ∧
    storage s' = storage s ∧
    fastAccessService s' = fastAccessService s ∧
    (date log = formatDateFromDate (clock env) ∨
     storage s !! logKey (formatDateFromDate (clock env)) = Some (JLog log)).
Proof.
  unfold loadTodaysLog. run.
  repeat (case_match; simplify_eq/=); repeat case_bool_decide;
    simplify_eq/=; eexists _, _; split_and!; eauto.
Qed.
End LoadTodaysLog.


Section Totals.
Context `{Number num}.
Implicit Types (s : App num) (env : Env) (log : DailyLog num)
  (item : TrackedItem num).

Lemma calculateTotals_fold (l : list (TrackedItem num)) acc :
  let step := λ (totals : DailyNutrition num) item,
    {| dn_calories := plus (dn_calories totals) (ti_calories item);
       dn_protein := plus (dn_protein totals) (ti_protein item);
       dn_carbs := plus (dn_carbs totals) (ti_carbs item);
       dn_fat := plus (dn_fat totals) (ti_fat item);
       dn_fiber := plus (dn_fiber totals) (ti_fiber item);
       dn_sugar := plus (dn_sugar totals) (ti_sugar item);
       dn_sodium := plus (dn_sodium totals) (ti_sodium item) |} in
  let sumFrom := λ (field : TrackedItem num → num) (start : num),
    fold_left (λ a item, plus a (field item)) l start in
  fold_left step l acc =
    {| dn_calories := sumFrom ti_calories (dn_calories acc);
       dn_protein := sumFrom ti_protein (dn_protein acc);
       dn_carbs := sumFrom ti_carbs (dn_carbs acc);
       dn_fat := sumFrom ti_fat (dn_fat acc);
       dn_fiber := sumFrom ti_fiber (dn_fiber acc);
       dn_sugar := sumFrom ti_sugar (dn_sugar acc);
       dn_sodium := sumFrom ti_sodium (dn_sodium acc) |}.
Proof.
  revert acc. induction l as [|item l IH]; intros acc; simpl.
  - by destruct acc.
  - by rewrite IH.
Qed.

Lemma calculateTotals_sums date l :
  totalsAreSums {| date := date; items := l; totals := calculateTotals l |}.
Proof.
  unfold totalsAreSums, calculateTotals, sumOf. simpl.
  rewrite calculateTotals_fold. simpl. done.
Qed.

Lemma pushItem_sums log item : totalsAreSums (pushItem log item).
Proof. apply calculateTotals_sums. Qed.

Lemma dropItem_sums log itemId : totalsAreSums (dropItem log itemId).
Proof. apply calculateTotals_sums. Qed.

(** The quick-access service never touches the tracker. *)
Lemma addOrUpdateFastAccessItem_tracker item env s :
  nutritionTracker (addOrUpdateFastAccessItem item env s).2 =
  nutritionTracker s.
Proof.
  unfold addOrUpdateFastAccessItem, loadFastAccessItems. run.
  repeat (case_match; simplify_eq/=); done.
Qed.

Lemma saveAndRecord_dailyLog log item env s :
  dailyLog (nutritionTracker s) = Some log →
  dailyLog (nutritionTracker (saveAndRecord log item env s).2) = Some log.
Proof.
  intros Hlog. unfold saveAndRecord. run.
  destruct (faults env _); simpl; [done|].
  match goal with |- context [addOrUpdateFastAccessItem item env ?s1] =>
    pose proof (addOrUpdateFastAccessItem_tracker item env s1) as Hfa;
    destruct (addOrUpdateFastAccessItem item env s1) as [[[]|e] s2]
  end; simpl in *; by rewrite Hfa.
Qed.

(** What one operation leaves in the cache, whether its write succeeds
    or fails: the log [loadTodaysLog] returned with the new item pushed
    at its end, or with the items of the given id filtered out, the
    others in their order. *)
Lemma perform_log op env s :
  ∃ log,
    (loadTodaysLog env s).1 = Resolved log ∧
    match op with
    | OpRemoveItem itemId =>
        dailyLog (nutritionTracker (perform op env s).2)
        = Some (dropItem log itemId)
    | _ =>
        ∃ item, dailyLog (nutritionTracker (perform op env s).2)
                = Some (pushItem log item)
    end.
Proof.
  destruct (loadTodaysLog_resolves env s)
    as (log & s1 & Hload & Hlog & _).
  exists log. split; [by rewrite Hload|].
  destruct op as [menuItem place|customMeal|itemId]; simpl.
  - unfold addMenuItem, extractNutritionFromMenuItem. run.
    rewrite Hload. simpl. eexists. by apply saveAndRecord_dailyLog.
  - unfold addCustomMeal. run. rewrite Hload. simpl.
    eexists. by apply saveAndRecord_dailyLog.
  - unfold removeItem. run. rewrite Hload. simpl.
    by destruct (faults env _).
Qed.

(** Whatever the state, the clock and the faults of the storage, one
    operation leaves a log whose totals are the sums of its items. *)
Lemma perform_totals op env s : totalsInvariant (perform op env s).2.
Proof.
  destruct (perform_log op env s) as (log & _ & Hafter).
  destruct op as [menuItem place|customMeal|itemId].
  - destruct Hafter as [item Hafter].
    eexists. split; [exact Hafter|apply pushItem_sums].
  - destruct Hafter as [item Hafter].
    eexists. split; [exact Hafter|apply pushItem_sums].
  - eexists. split; [exact Hafter|apply dropItem_sums].
Qed.

(** C1 (totals invariant).  For every sequence of [addMenuItem],
    [addCustomMeal] and [removeItem] calls, from every state and with
    every clock and storage behaviour, the state after each call holds
    a log whose every total (calories, protein, carbs, fat, fiber,
    sugar, sodium) is the sum of that field over the log's items,
    taken from the left in the order of the list, which is the order
    of insertion of the items still there. *)
Theorem totals_invariant (ops : list (Env * LogOp)) (s : App num) :
  Forall totalsInvariant (runLog ops s).
Proof.
  revert s. induction ops as [|[env op] ops IH]; intros s; simpl.
  - constructor.
  - constructor; [apply perform_totals | apply IH].
Qed.

End Totals.

Section Rollover.
Context `{Number num}.
Implicit Types (s : App num) (env : Env) (log : DailyLog num).

Lemma dateObjLt_irrefl a : dateObjLt a a = false.
Proof.
  unfold dateObjLt. destruct (dateTime a); [|done].
  apply bool_decide_eq_false. lia.
Qed.

Lemma dateObjLt_asym a b : dateObjLt a b = true → dateObjLt b a = false.
Proof.
  unfold dateObjLt. destruct (dateTime a), (dateTime b); try done.
  intros ?%bool_decide_eq_true. apply bool_decide_eq_false. lia.
Qed.

Lemma dateObjLt_ne a b : dateObjLt a b = true → a ≠ b.
Proof. intros Hlt ->. by rewrite dateObjLt_irrefl in Hlt. Qed.

Lemma logKey_inj a b : logKey a = logKey b → a = b.
Proof. unfold logKey. intros Heq. by simplify_eq/=. Qed.

Lemma notifyAll_run callbacks env s :
  notifyAll callbacks env s =
    (Resolved (),
     {| nutritionTracker := nutritionTracker s;
        fastAccessService := fastAccessService s;
        storage := storage s;
        effects := effects s ++ notifications callbacks |}).
Proof.
  revert s. induction callbacks as [|c callbacks IH]; intros s; simpl.
  - run. rewrite app_nil_r. by destruct s.
  - unfold andThen at 1. unfold tryCatch, call. run.
    destruct (cb_throws c); simpl; rewrite IH; simpl;
      by rewrite <- !app_assoc.
Qed.

Lemma invocations_app l1 l2 :
  invocations (l1 ++ l2) = (invocations l1 ++ invocations l2)%list.
Proof. apply omap_app. Qed.

Lemma invocations_notifications callbacks :
  invocations (notifications callbacks) = cb_id <$> callbacks.
Proof.
  induction callbacks as [|c callbacks IH]; [done|].
  simpl. destruct (cb_throws c); simpl; by rewrite IH.
Qed.

Lemma subscribeAll_callbacks callbacks env s :
  dateChangeCallbacks (nutritionTracker (subscribeAll callbacks env s)) =
    (dateChangeCallbacks (nutritionTracker s) ++ callbacks)%list.
Proof.
  revert s. induction callbacks as [|c callbacks IH]; intros s; simpl.
  - by rewrite app_nil_r.
  - rewrite IH. simpl. by rewrite <- app_assoc.
Qed.

Lemma subscribeAll_frame callbacks env s :
  let s1 := subscribeAll callbacks env s in
  currentDate (nutritionTracker s1) = currentDate (nutritionTracker s) ∧
  dailyLog (nutritionTracker s1) = dailyLog (nutritionTracker s) ∧
  storage s1 = storage s.
Proof.
  revert s. induction callbacks as [|c callbacks IH]; intros s; [done|].
  change (subscribeAll (c :: callbacks) env s)
    with (subscribeAll callbacks env (onDateChange c env s).2).
  destruct (IH (onDateChange c env s).2) as (IH1 & IH2 & IH3).
  simpl in *. by rewrite IH1, IH2, IH3.
Qed.

(** The forward branch of the rollover check, in one equation. *)
Lemma checkForDateChange_forward env s :
  let today := formatDateFromDate (clock env) in
  let old := currentDate (nutritionTracker s) in
  old ≠ today →
  dateObjLt today old = false →
  checkForDateChange env s =
    (Resolved true,
     {| nutritionTracker :=
          {| currentDate := today; dailyLog := None;
             dateChangeCallbacks := dateChangeCallbacks (nutritionTracker s) |};
        fastAccessService := fastAccessService s;
        storage := (archive old env s).1;
        effects :=
          effects s ++ (archive old env s).2 ++
          notifications (dateChangeCallbacks (nutritionTracker s)) |}).
Proof.
  intros today old Hne Hge.
  unfold checkForDateChange, saveCurrentDayToHistory, archive. run.
  fold today old. rewrite bool_decide_true by done. rewrite Hge.
  destruct (dailyLog (nutritionTracker s)) as [log|]; simpl;
    [destruct (bool_decide (0 < length (items log))%nat); simpl;
     [destruct (faults env (SetItem (logKey old))); simpl|]|];
    rewrite notifyAll_run; simpl; by rewrite <- ?app_assoc.
Qed.

(** Reading today's log when nothing is cached. *)
Lemma loadTodaysLog_uncached env s :
  let today := formatDateFromDate (clock env) in
  dailyLog (nutritionTracker s) = None →
  (loadTodaysLog env s).1 =
    Resolved
      (if faults env (GetItem (logKey today)) then emptyLog today
       else match storage s !! logKey today with
            | Some (JLog log) => log
            | _ => emptyLog today
            end).
Proof.
  intros today Hnone. unfold loadTodaysLog. run. fold today.
  destruct (bool_decide (currentDate (nutritionTracker s) ≠ today)); simpl;
    rewrite ?Hnone; simpl;
    destruct (faults env (GetItem (logKey today))); simpl; try done;
    destruct (storage s !! logKey today) as [[log|l|[|c t]]|]; simpl; done.
Qed.

(** C2 (forward rollover), as the code has it.  When the day the
    clock shows is later than [currentDate], by any number of days,
    the rollover check answers [true], sets [currentDate] to the day
    shown and empties the cache.  A cached log with at least one item
    is written under the key of the old day, with the old day as its
    date, when the write does not fail; in every other case the
    storage is left as it was.  The next read of today's log, on the
    same day, then goes to the storage: it is the empty log with zero
    totals when the storage held nothing under the new day's key
    before the rollover, and the log held there when there was one
    and the read does not fail. *)
Theorem forward_rollover env s :
  let today := formatDateFromDate (clock env) in
  let old := currentDate (nutritionTracker s) in
  dateObjLt old today = true →
  (checkForDateChange env s).1 = Resolved true ∧
  let s' := (checkForDateChange env s).2 in
  currentDate (nutritionTracker s') = today ∧
  dailyLog (nutritionTracker s') = None ∧
  (∀ log,
     dailyLog (nutritionTracker s) = Some log →
     items log ≠ [] →
     faults env (SetItem (logKey old)) = false →
     storage s' =
       <[logKey old :=
           JLog {| date := old; items := items log; totals := totals log |}]>
         (storage s)) ∧
  ((∀ log, dailyLog (nutritionTracker s) = Some log → items log = []) →
     storage s' = storage s) ∧
  (∀ env',
     formatDateFromDate (clock env') = today →
     (storage s !! logKey today = None →
        (loadTodaysLog env' s').1 = Resolved (emptyLog today)) ∧
     (∀ log,
        storage s !! logKey today = Some (JLog log) →
        faults env' (GetItem (logKey today)) = false →
        (loadTodaysLog env' s').1 = Resolved log)).
Proof.
  intros today old Hlt.
  rewrite (checkForDateChange_forward env s)
    by eauto using dateObjLt_ne, dateObjLt_asym.
  fold today old. simpl.
  assert (Hkey : logKey old ≠ logKey today).
  { intros Heq%logKey_inj. by apply (dateObjLt_ne _ _ Hlt). }
  assert (Hsame : (archive old env s).1 !! logKey today =
                  storage s !! logKey today).
  { unfold archive. repeat case_match; simpl; try done.
    by apply lookup_insert_ne. }
  split_and!; try done.
  - intros log Hlog Hitems Hok. unfold archive. rewrite Hlog, Hok.
    rewrite bool_decide_true; [done|].
    destruct (items log); [done|simpl; lia].
  - intros Hempty. unfold archive.
    destruct (dailyLog (nutritionTracker s)) as [log|]; [|done].
    rewrite (Hempty log eq_refl). done.
  - intros env' Hday. split.
    + intros Hnone. rewrite loadTodaysLog_uncached by done. simpl.
      rewrite Hday, Hsame, Hnone. by destruct (faults env' _).
    + intros log Hsome Hok. rewrite loadTodaysLog_uncached by done. simpl.
      by rewrite Hday, Hsame, Hsome, Hok.
Qed.

(** C3 (backward clock).  When the day the clock shows is earlier
    than [currentDate], the rollover check moves [currentDate] to the
    day shown and does nothing else: nothing is written to the
    storage, the cached log stays as it is with its items, no callback
    is called, nothing is logged, and the check answers [false]. *)
Theorem backward_clock_resync env s :
  dateObjLt (formatDateFromDate (clock env))
    (currentDate (nutritionTracker s)) = true →
  (checkForDateChange env s).1 = Resolved false ∧
  let s' := (checkForDateChange env s).2 in
  currentDate (nutritionTracker s') = formatDateFromDate (clock env) ∧
  dailyLog (nutritionTracker s') = dailyLog (nutritionTracker s) ∧
  dateChangeCallbacks (nutritionTracker s') =
    dateChangeCallbacks (nutritionTracker s) ∧
  storage s' = storage s ∧
  fastAccessService s' = fastAccessService s ∧
  effects s' = effects s.
Proof.
  intros Hlt. pose proof (dateObjLt_ne _ _ Hlt) as Hne.
  unfold checkForDateChange. run.
  rewrite bool_decide_true by done. rewrite Hlt. simpl. done.
Qed.

(** The backward branch of the rollover check, in one equation. *)
Lemma checkForDateChange_backward env s :
  dateObjLt (formatDateFromDate (clock env))
    (currentDate (nutritionTracker s)) = true →
  checkForDateChange env s =
    (Resolved false,
     {| nutritionTracker :=
          {| currentDate := formatDateFromDate (clock env);
             dailyLog := dailyLog (nutritionTracker s);
             dateChangeCallbacks := dateChangeCallbacks (nutritionTracker s) |};
        fastAccessService := fastAccessService s;
        storage := storage s;
        effects := effects s |}).
Proof.
  intros Hlt. pose proof (dateObjLt_ne _ _ Hlt) as Hne.
  unfold checkForDateChange. run.
  rewrite bool_decide_true by done. by rewrite Hlt.
Qed.

(** After the rollover check [currentDate] is the day the clock
    shows, whichever branch was taken. *)
Lemma checkForDateChange_currentDate env s :
  currentDate (nutritionTracker (checkForDateChange env s).2) =
  formatDateFromDate (clock env).
Proof.
  destruct (decide (currentDate (nutritionTracker s) =
                    formatDateFromDate (clock env))) as [Heq|Hne].
  - unfold checkForDateChange. run.
    rewrite bool_decide_false by (by intros []). done.
  - destruct (dateObjLt (formatDateFromDate (clock env))
                (currentDate (nutritionTracker s))) eqn:Hlt.
    + by rewrite checkForDateChange_backward.
    + by rewrite checkForDateChange_forward.
Qed.

Lemma checkForDateChange_same_day env s :
  currentDate (nutritionTracker s) = formatDateFromDate (clock env) →
  checkForDateChange env s = (Resolved false, s).
Proof.
  intros Heq. unfold checkForDateChange. run.
  rewrite bool_decide_false by (by intros []). done.
Qed.

(** C7 (idempotent rollover).  A second rollover check on the same
    day as the first, whatever the first one did and whatever the
    storage does, answers [false] and leaves the whole state as the
    first check left it: [currentDate], the cache, every stored
    record, and the effects, so nothing is written and no callback is
    called a second time. *)
Theorem rollover_check_idempotent env env' s :
  formatDateFromDate (clock env') = formatDateFromDate (clock env) →
  let s1 := (checkForDateChange env s).2 in
  checkForDateChange env' s1 = (Resolved false, s1).
Proof.
  intros Hday s1. apply checkForDateChange_same_day.
  rewrite Hday. apply checkForDateChange_currentDate.
Qed.

(** C8 (listener isolation).  Callbacks registered one after the
    other, behind those already there, are all called by a forward
    rollover, each once and in the order of registration, whichever
    of them throw (a callback, as modelled, returns or throws and does
    not call back into the store while it runs); and the rollover is
    carried out as without them: the check answers [true],
    [currentDate] is the day shown, the cache is empty, and a cached
    log with items has been written under the old day's key when the
    write did not fail. *)
Theorem listeners_isolated callbacks env0 env s :
  let s1 := subscribeAll callbacks env0 s in
  let today := formatDateFromDate (clock env) in
  let old := currentDate (nutritionTracker s) in
  dateObjLt old today = true →
  (checkForDateChange env s1).1 = Resolved true ∧
  let s' := (checkForDateChange env s1).2 in
  (∃ logged,
     effects s' = (effects s1 ++ logged)%list ∧
     invocations logged =
       cb_id <$> (dateChangeCallbacks (nutritionTracker s) ++ callbacks)%list) ∧
  currentDate (nutritionTracker s') = today ∧
  dailyLog (nutritionTracker s') = None ∧
  (∀ log,
     dailyLog (nutritionTracker s) = Some log →
     items log ≠ [] →
     faults env (SetItem (logKey old)) = false →
     storage s' !! logKey old =
       Some (JLog {| date := old; items := items log; totals := totals log |})).
Proof.
  intros s1 today old Hlt.
  assert (Hframe : currentDate (nutritionTracker s1) = old ∧
                   dailyLog (nutritionTracker s1) = dailyLog (nutritionTracker s) ∧
                   storage s1 = storage s).
  { apply subscribeAll_frame. }
  destruct Hframe as (Hcur & Hlog & Hsto).
  pose proof (subscribeAll_callbacks callbacks env0 s) as Hcbs.
  fold s1 in Hcbs. clearbody s1.
  rewrite (checkForDateChange_forward env s1)
    by (rewrite Hcur; eauto using dateObjLt_ne, dateObjLt_asym).
  simpl. split_and!; try done.
  - eexists. split; [done|].
    rewrite invocations_app, invocations_notifications.
    rewrite Hcbs.
    replace (invocations _) with (@nil nat); [done|].
    unfold archive. by repeat case_match.
  - intros log Hsome Hitems Hok. unfold archive.
    rewrite Hcur, Hlog, Hsome, Hok, Hsto.
    rewrite bool_decide_true by (destruct (items log); [done|simpl; lia]).
    simpl. by rewrite lookup_insert_eq.
Qed.

End Rollover.

Lemma StronglySorted_weaken {A} (R1 R2 : relation A) (l : list A) :
  (∀ a b, R1 a b → R2 a b) → StronglySorted R1 l → StronglySorted R2 l.
Proof.
  intros Himpl. induction 1 as [|x l Hl IH Hx]; constructor; [done|].
  eapply Forall_impl; [exact Hx|]. intros y. apply Himpl.
Qed.

Section SortFacts.
Context {A : Type} (cmp : A → A → Z).
Implicit Types (x y : A) (l : list A).

Lemma insertSorted_perm x l : insertSorted cmp x l ≡ₚ x :: l.
Proof.
  induction l as [|y l IH]; simpl; [done|].
  case_bool_decide; [done|]. rewrite IH. apply Permutation_swap.
Qed.

Lemma sort_perm l : sort cmp l ≡ₚ l.
Proof.
  induction l as [|x l IH]; simpl; [done|].
  by rewrite insertSorted_perm, IH.
Qed.

Lemma sort_length l : length (sort cmp l) = length l.
Proof. by rewrite sort_perm. Qed.

Lemma sort_elem x l : x ∈ sort cmp l ↔ x ∈ l.
Proof. by rewrite sort_perm. Qed.

(** An element that goes strictly before every other one comes out
    first. *)
Lemma sort_head l1 x l2 :
  (∀ y, y ∈ (l1 ++ l2)%list → cmp x y ≤ 0 ∧ 0 < cmp y x) →
  head (sort cmp (l1 ++ x :: l2)) = Some x.
Proof.
  induction l1 as [|a l1 IH]; simpl; intros Hfirst.
  - destruct (sort cmp l2) as [|y r] eqn:Hsort; simpl; [done|].
    rewrite bool_decide_true; [done|].
    apply Hfirst, (sort_elem y l2). rewrite Hsort. left.
  - assert (Hhead : head (sort cmp (l1 ++ x :: l2)) = Some x).
    { apply IH. intros y Hy. apply Hfirst. by right. }
    destruct (sort cmp (l1 ++ x :: l2)) as [|y r]; simplify_eq/=.
    rewrite bool_decide_false; [done|].
    assert (0 < cmp a x) by (apply Hfirst; left). lia.
Qed.

(** The output is in order when the comparator is a total preorder. *)
Section Sorted.
Hypothesis cmp_trans : ∀ x y z, cmp x y ≤ 0 → cmp y z ≤ 0 → cmp x z ≤ 0.
Hypothesis cmp_total : ∀ x y, cmp x y ≤ 0 ∨ cmp y x ≤ 0.

Lemma insertSorted_sorted x l :
  StronglySorted (λ a b, cmp a b ≤ 0) l →
  StronglySorted (λ a b, cmp a b ≤ 0) (insertSorted cmp x l).
Proof.
  induction 1 as [|y l Hl IH Hy]; simpl.
  - repeat constructor.
  - case_bool_decide as Hxy.
    + constructor; [by constructor|].
      constructor; [done|].
      eapply Forall_impl; [exact Hy|]. intros z Hz. by eapply cmp_trans.
    + constructor; [done|].
      rewrite insertSorted_perm. constructor; [|done].
      destruct (cmp_total x y); [done|lia].
Qed.

Lemma sort_sorted l : StronglySorted (λ a b, cmp a b ≤ 0) (sort cmp l).
Proof.
  induction l as [|x l IH]; simpl; [constructor|].
  by apply insertSorted_sorted.
Qed.
End Sorted.

(** A list already in order is left as it is. *)
Lemma sort_sorted_id l :
  StronglySorted (λ a b, cmp a b ≤ 0) l → sort cmp l = l.
Proof.
  induction 1 as [|x l Hl IH Hx]; simpl; [done|].
  rewrite IH. destruct l as [|y l]; simpl; [done|].
  rewrite bool_decide_true; [done|]. by inversion Hx.
Qed.

End SortFacts.

Section QuickAccess.
Context `{Number num}.
Implicit Types (a b item : FastAccessItem num) (t : TrackedItem num)
  (l : list (FastAccessItem num)) (s : App num) (env : Env).

Lemma byRecency_le a b : byRecency a b ≤ 0 ↔ recencyOrder a b.
Proof.
  unfold byRecency, recencyOrder. case_bool_decide; [lia|].
  split; [intros; right; split; [done|lia] | intros [|[]]; lia].
Qed.

Lemma byRecency_trans a b c :
  byRecency a b ≤ 0 → byRecency b c ≤ 0 → byRecency a c ≤ 0.
Proof. rewrite !byRecency_le. unfold recencyOrder. lia. Qed.

Lemma byRecency_total a b : byRecency a b ≤ 0 ∨ byRecency b a ≤ 0.
Proof. rewrite !byRecency_le. unfold recencyOrder. lia. Qed.

Lemma sort_byRecency_sorted l :
  StronglySorted recencyOrder (sort byRecency l).
Proof.
  eapply StronglySorted_weaken;
    [|apply sort_sorted; [apply byRecency_trans|apply byRecency_total]].
  intros a b. apply byRecency_le.
Qed.

Lemma recordUse_unfold t now l :
  recordUse t now l =
    sort byRecency (take maxItems (updatedList t now l)).
Proof.
  unfold recordUse, updatedList. case_bool_decide as Hlen; [done|].
  rewrite take_ge; [done|lia].
Qed.

Lemma updatedList_length_pos t now l : (0 < length (updatedList t now l))%nat.
Proof.
  unfold updatedList. destruct (list_find _ l) as [[i item]|] eqn:Hfind.
  - apply list_find_Some in Hfind as (Hi%lookup_lt_Some & _).
    rewrite length_insert. lia.
  - simpl. lia.
Qed.

Lemma recordUse_length t now l :
  length (recordUse t now l) =
    (maxItems `min` length (updatedList t now l))%nat.
Proof. by rewrite recordUse_unfold, sort_length, length_take. Qed.

Lemma recordUse_nonempty t now l : recordUse t now l ≠ [].
Proof.
  intros Hnil%(f_equal length). rewrite recordUse_length in Hnil.
  pose proof (updatedList_length_pos t now l). unfold maxItems in *.
  cbn [length] in Hnil. lia.
Qed.

Lemma recordUse_sorted t now l :
  StronglySorted recencyOrder (recordUse t now l).
Proof. rewrite recordUse_unfold. apply sort_byRecency_sorted. Qed.

Lemma recordUse_refresh t now l i item :
  list_find (sameFood t) l = Some (i, item) →
  (length l ≤ maxItems)%nat →
  recordUse t now l ≡ₚ <[i := refreshed item t now]> l.
Proof.
  intros Hfind Hlen. rewrite recordUse_unfold. unfold updatedList.
  rewrite Hfind, take_ge by (rewrite length_insert; lia).
  apply sort_perm.
Qed.

Lemma recordUse_refresh_head t now l i item :
  list_find (sameFood t) l = Some (i, item) →
  (length l ≤ maxItems)%nat →
  (∀ j other, l !! j = Some other → j ≠ i → lastUsed other < now) →
  head (recordUse t now l) = Some (refreshed item t now).
Proof.
  intros Hfind Hlen Holder. rewrite recordUse_unfold. unfold updatedList.
  rewrite Hfind, take_ge by (rewrite length_insert; lia).
  apply list_find_Some in Hfind as (Hi & _ & _).
  rewrite insert_take_drop by by eapply lookup_lt_Some.
  apply sort_head. intros other Hother.
  assert (lastUsed other < now) as Hlt.
  { apply elem_of_app in Hother as [Hin|Hin].
    - apply elem_of_take in Hin as (j & Hj & Hlt). apply (Holder j); [done|lia].
    - apply list_elem_of_lookup in Hin as [j Hj].
      rewrite lookup_drop in Hj. apply (Holder _ _ Hj). lia. }
  unfold byRecency. simpl.
  rewrite !bool_decide_true by lia. lia.
Qed.

(** What one recorded use leaves in memory and in the storage.  The
    stored list is read only when nothing is in memory. *)
Lemma addOrUpdateFastAccessItem_cache t env s :
  fastAccessItems (fastAccessService s) ≠ [] ∨
    storage s !! fastAccessKey = None →
  let l' := recordUse t (now env) (fastAccessItems (fastAccessService s)) in
  let s' := (addOrUpdateFastAccessItem t env s).2 in
  fastAccessItems (fastAccessService s') = l' ∧
  (faults env (SetItem fastAccessKey) = false →
     (addOrUpdateFastAccessItem t env s).1 = Resolved () ∧
     storage s' !! fastAccessKey = Some (JFast l')).
Proof.
  intros Hpre. unfold addOrUpdateFastAccessItem, loadFastAccessItems. run.
  destruct (fastAccessItems (fastAccessService s)) as [|e l] eqn:Hl; simpl.
  - destruct Hpre as [|Hnone]; [done|].
    destruct (faults env (GetItem fastAccessKey)); simpl;
      rewrite ?Hnone; simpl; rewrite ?Hl;
      destruct (faults env (SetItem fastAccessKey)); simpl;
      rewrite ?lookup_insert_eq; split_and!; auto; done.
  - destruct (faults env (SetItem fastAccessKey)); simpl;
      rewrite ?lookup_insert_eq, ?Hl; split_and!; auto; done.
Qed.

Lemma recordAll_cache uses s :
  fastAccessItems (fastAccessService s) ≠ [] ∨
    storage s !! fastAccessKey = None →
  fastAccessItems (fastAccessService (recordAll uses s)) =
    recordUses uses (fastAccessItems (fastAccessService s)).
Proof.
  revert s. induction uses as [|[env t] uses IH]; intros s Hpre; [done|].
  change (recordAll ((env, t) :: uses) s)
    with (recordAll uses (addOrUpdateFastAccessItem t env s).2).
  destruct (addOrUpdateFastAccessItem_cache t env s Hpre) as (Hc & _).
  rewrite IH.
  - simpl. by rewrite Hc.
  - left. rewrite Hc. apply recordUse_nonempty.
Qed.

Lemma recordUses_sorted uses l :
  uses ≠ [] → StronglySorted recencyOrder (recordUses uses l).
Proof.
  destruct uses as [|use uses _] using rev_ind; [done|]. intros _.
  unfold recordUses. rewrite foldl_snoc. apply recordUse_sorted.
Qed.

(** *** Any eleven different pairs fill the list *)

Lemma updatedList_length t now l :
  (length l ≤ length (updatedList t now l))%nat.
Proof.
  unfold updatedList. destruct (list_find _ l) as [[i item]|].
  - by rewrite length_insert.
  - simpl. lia.
Qed.

(** One recorded use leaves at most [maxItems] entries; short of that,
    nothing was cut: every pair of the list is still there, and so is
    the recorded pair. *)
Lemma recordUse_keeps_pairs t now l :
  let l' := recordUse t now l in
  (length l' ≤ maxItems)%nat ∧
  (length l' = maxItems ∨
   (∀ item, item ∈ l → ∃ item', item' ∈ l' ∧ pairOf item' = pairOf item) ∧
   (∃ item', item' ∈ l' ∧ pairOf item' = foodOf t)).
Proof.
  intros l'. subst l'. rewrite recordUse_length. split; [lia|].
  destruct (decide (maxItems ≤ length (updatedList t now l))%nat) as [|Hshort].
  { left. lia. }
  right. rewrite recordUse_unfold, take_ge by lia.
  setoid_rewrite sort_elem. unfold updatedList.
  destruct (list_find _ l) as [[i found]|] eqn:Hfind.
  - apply list_find_Some in Hfind as (Hi & [Hname Hplace] & _).
    assert (Hin : refreshed found t now ∈ <[i := refreshed found t now]> l).
    { eapply list_elem_of_lookup_2, list_lookup_insert_eq.
      by eapply lookup_lt_Some. }
    split; [|exists (refreshed found t now); split; [done|]].
    + intros item [j Hj]%list_elem_of_lookup.
      destruct (decide (i = j)) as [->|Hne].
      * exists (refreshed found t now). split; [done|]. by simplify_eq.
      * exists item. split; [|done].
        eapply list_elem_of_lookup_2. by rewrite list_lookup_insert_ne.
    + unfold pairOf, foodOf. simpl. by rewrite Hname, Hplace.
  - split.
    + intros item Hitem. exists item. split; [by right|done].
    + exists (fresh t now). split; [left|done].
Qed.

Lemma recordUse_stays_full t now l :
  (maxItems ≤ length l)%nat → length (recordUse t now l) = maxItems.
Proof.
  intros Hfull. rewrite recordUse_length.
  pose proof (updatedList_length t now l). lia.
Qed.

Lemma recordUses_snoc uses use l :
  recordUses (uses ++ [use]) l = recordUse use.2 (now use.1) (recordUses uses l).
Proof. unfold recordUses. by rewrite foldl_snoc. Qed.

Lemma recordUses_keeps_pairs uses l :
  uses ≠ [] →
  let l' := recordUses uses l in
  (length l' ≤ maxItems)%nat ∧
  (length l' = maxItems ∨
   ∀ t, t ∈ uses.*2 → ∃ item', item' ∈ l' ∧ pairOf item' = foodOf t).
Proof.
  induction uses as [|[env t] uses IH] using rev_ind; [done|]. intros _ l'.
  subst l'. rewrite recordUses_snoc. simpl.
  destruct (recordUse_keeps_pairs t (now env) (recordUses uses l))
    as (Hle & [Hfull|[Hold Hnew]]); (split; [done|]); [by left|].
  destruct uses as [|use uses'] eqn:Huses.
  { right. intros t' Ht'. simpl in Ht'.
    apply list_elem_of_singleton in Ht' as ->. exact Hnew. }
  rewrite <- Huses in *.
  destruct IH as (Hle' & [Hfull'|Hpairs]); [by rewrite Huses|..].
  { left. apply recordUse_stays_full. lia. }
  right. intros t' Ht'. rewrite fmap_app in Ht'.
  apply elem_of_app in Ht' as [Ht'|Ht'].
  - destruct (Hpairs t' Ht') as (item & Hitem & Hpair).
    destruct (Hold item Hitem) as (item' & Hitem' & Hpair').
    exists item'. split; [done|congruence].
  - simpl in Ht'. apply list_elem_of_singleton in Ht' as ->. exact Hnew.
Qed.

(** More different pairs than there are places leave the list full,
    whatever it held before. *)
Lemma recordUses_full uses l :
  NoDup (foodOf <$> uses.*2) →
  (maxItems < length uses)%nat →
  length (recordUses uses l) = maxItems.
Proof.
  intros Hnodup Hmany.
  assert (Hne : uses ≠ []) by (intros ->; simpl in Hmany; lia).
  destruct (recordUses_keeps_pairs uses l Hne) as (Hle & [Hfull|Hpairs]);
    [done|].
  assert (foodOf <$> uses.*2 ⊆+ pairOf <$> recordUses uses l) as Hsub.
  { apply NoDup_submseteq; [done|]. intros pair Hpair.
    apply list_elem_of_fmap in Hpair as (t & -> & Ht).
    destruct (Hpairs t Ht) as (item & Hitem & <-).
    by apply list_elem_of_fmap_2. }
  apply submseteq_length in Hsub. rewrite !length_fmap in Hsub. lia.
Qed.

(** Whatever the state, the list a recorded use leaves in memory is
    [recordUse] of some list: the one in memory, or the stored one when
    nothing was in memory. *)
Lemma addOrUpdateFastAccessItem_some_list t env s :
  ∃ l, fastAccessItems (fastAccessService (addOrUpdateFastAccessItem t env s).2)
       = recordUse t (now env) l.
Proof.
  unfold addOrUpdateFastAccessItem, loadFastAccessItems. run.
  destruct (fastAccessItems (fastAccessService s)) as [|e l] eqn:Hl; simpl.
  - destruct (faults env (GetItem fastAccessKey)); simpl.
    { rewrite Hl. exists []. by destruct (faults env (SetItem _)). }
    destruct (storage s !! fastAccessKey) as [[log|stored|[|c text]]|]; simpl;
      rewrite ?Hl; try (exists []; by destruct (faults env (SetItem _))).
    exists (sort byRecency stored). by destruct (faults env (SetItem _)).
  - rewrite Hl. exists (e :: l). by destruct (faults env (SetItem _)).
Qed.

Lemma recordAll_some_list use uses s :
  ∃ l, fastAccessItems (fastAccessService (recordAll (use :: uses) s))
       = recordUses (use :: uses) l.
Proof.
  destruct (addOrUpdateFastAccessItem_some_list use.2 use.1 s) as [l Hl].
  exists l.
  change (recordAll (use :: uses) s)
    with (recordAll uses (addOrUpdateFastAccessItem use.2 use.1 s).2).
  rewrite recordAll_cache by (left; rewrite Hl; apply recordUse_nonempty).
  by rewrite Hl.
Qed.

(** Cutting before sorting and sorting before cutting agree as long
    as the list is in order and the instant of the call is later than
    every [lastUsed] in it. *)
Lemma recordUse_as_specified t now l :
  StronglySorted recencyOrder l →
  (∀ item, item ∈ l → lastUsed item < now) →
  list_find (sameFood t) l = None →
  recordUse t now l = truncateAsSpecified (updatedList t now l).
Proof.
  intros Hsorted Hnewest Hfind.
  unfold recordUse, truncateAsSpecified, updatedList. rewrite Hfind.
  assert (Hall : StronglySorted (λ a b, byRecency a b ≤ 0)
                   (fresh t now :: l)).
  { constructor.
    - eapply StronglySorted_weaken; [|exact Hsorted].
      intros a b. apply byRecency_le.
    - apply Forall_forall. intros item Hitem. apply byRecency_le.
      left. simpl. by apply Hnewest. }
  case_bool_decide; [|done].
  rewrite (sort_sorted_id _ (fresh t now :: l)) by done.
  apply sort_sorted_id.
  rewrite <- (take_drop maxItems (fresh t now :: l)) in Hall.
  by apply StronglySorted_app_1_l in Hall.
Qed.

(** C6 (deduplication and cap), as the code has it.  An entry is
    found by name and restaurant, whatever the id of the recorded
    item.  Recording a use of a pair that is in the list (of at most
    [maxItems] entries) changes that entry in place and adds none: it
    keeps its id, name, restaurant and type, its [useCount] goes up by
    one, its [lastUsed] becomes the instant of the call and its
    nutrition fields and serving size are those of the recorded item;
    the list is then sorted, which puts the entry first when every
    other entry was last used before that instant.  Recording eleven
    pairwise distinct pairs one after the other, from any state, leaves
    exactly ten entries, in order of [lastUsed] descending (ties by
    [useCount] descending). *)
Theorem quick_access_refresh_and_cap :
  (∀ t env s i item,
     let l := fastAccessItems (fastAccessService s) in
     let l' := fastAccessItems
                 (fastAccessService (addOrUpdateFastAccessItem t env s).2) in
     list_find (sameFood t) l = Some (i, item) →
     (length l ≤ maxItems)%nat →
     ∃ item',
       l' ≡ₚ <[i := item']> l ∧
       length l' = length l ∧
       fa_id item' = fa_id item ∧
       fa_name item' = fa_name item ∧
       fa_restaurant item' = fa_restaurant item ∧
       fa_type item' = fa_type item ∧
       useCount item' = useCount item + 1 ∧
       lastUsed item' = now env ∧
       fa_calories item' = ti_calories t ∧
       fa_protein item' = ti_protein t ∧
       fa_carbs item' = ti_carbs t ∧
       fa_fat item' = ti_fat t ∧
       fa_fiber item' = ti_fiber t ∧
       fa_sugar item' = ti_sugar t ∧
       fa_sodium item' = ti_sodium t ∧
       fa_serving_size item' = ti_serving_size t ∧
       ((∀ j other, l !! j = Some other → j ≠ i → lastUsed other < now env) →
          head l' = Some item')) ∧
  (∀ uses s,
     let l' := fastAccessItems (fastAccessService (recordAll uses s)) in
     NoDup (foodOf <$> uses.*2) →
     length uses = 11%nat →
     length l' = 10%nat ∧ StronglySorted recencyOrder l').
Proof.
  split.
  - intros t env s i item l l' Hfind Hlen.
    assert (Hne : l ≠ []).
    { intros Hnil. rewrite Hnil in Hfind. discriminate. }
    destruct (addOrUpdateFastAccessItem_cache t env s (or_introl Hne))
      as [Hc _].
    fold l in Hc. subst l'. simpl in Hc. rewrite Hc.
    exists (refreshed item t (now env)).
    pose proof (recordUse_refresh t (now env) l i item Hfind Hlen) as Hperm.
    split_and!; try done.
    + by rewrite Hperm, length_insert.
    + intros Holder. by apply (recordUse_refresh_head t (now env) l i).
  - intros uses s l' Hnodup Hlen. subst l'.
    destruct uses as [|use uses]; [done|].
    destruct (recordAll_some_list use uses s) as [l ->]. split.
    + apply recordUses_full; [done|]. rewrite Hlen. unfold maxItems. lia.
    + by apply recordUses_sorted.
Qed.

(** C10 (removal does not read the storage).  [removeFastAccessItem]
    filters the list in memory and writes the result over whatever is
    stored, without any read of the storage: with a working write it
    resolves, the stored value becomes the filtered list in memory
    for every value stored before, and nothing is logged.  With
    nothing in memory the stored value becomes the empty list. *)
Theorem remove_overwrites_without_reading itemId env s :
  faults env (SetItem fastAccessKey) = false →
  let kept := filter (λ item, fa_id item ≠ itemId)
                (fastAccessItems (fastAccessService s)) in
  let s' := (removeFastAccessItem itemId env s).2 in
  (removeFastAccessItem itemId env s).1 = Resolved () ∧
  fastAccessItems (fastAccessService s') = kept ∧
  storage s' = <[fastAccessKey := JFast kept]> (storage s) ∧
  effects s' = effects s ∧
  nutritionTracker s' = nutritionTracker s ∧
  (fastAccessItems (fastAccessService s) = [] →
     storage s' !! fastAccessKey = Some (JFast [])).
Proof.
  intros Hok. unfold removeFastAccessItem. run. rewrite Hok. simpl.
  split_and!; try done.
  intros ->. by rewrite lookup_insert_eq.
Qed.

End QuickAccess.

Section Persistence.
Context `{Number num}.
Implicit Types (s : App num) (env : Env) (log : DailyLog num).

(** The quick-access service writes under its own key only. *)
Lemma addOrUpdateFastAccessItem_storage item env s key :
  key ≠ fastAccessKey →
  storage (addOrUpdateFastAccessItem item env s).2 !! key = storage s !! key.
Proof.
  intros Hkey. unfold addOrUpdateFastAccessItem, loadFastAccessItems. run.
  repeat (case_match; simplify_eq/=); rewrite ?lookup_insert_ne; done.
Qed.

Lemma fastAccessKey_not_log d : logKey d ≠ fastAccessKey.
Proof. done. Qed.

(** C9 (a failed write rejects).  For each of [addMenuItem],
    [addCustomMeal], [removeItem] and [clearTodaysLog]: when the call
    of the storage that persists the change throws, the operation
    rejects with that error, and the storage is as it was. *)
Theorem failed_write_rejects (m : Mutation) env s :
  let today := formatDateFromDate (clock env) in
  faults env (writeOf m today) = true →
  (mutate m env s).1 = Rejected (StorageError (writeOf m today)) ∧
  storage (mutate m env s).2 = storage s.
Proof.
  intros today Hfault.
  destruct (loadTodaysLog_resolves env s)
    as (log & s1 & Hload & Hlog & Hcur & _ & Hsto & _).
  destruct m as [[menuItem place|customMeal|itemId]|]; simpl in *.
  - unfold addMenuItem, extractNutritionFromMenuItem, saveAndRecord. run.
    rewrite Hload. simpl. rewrite Hcur. fold today. by rewrite Hfault.
  - unfold addCustomMeal, saveAndRecord. run.
    rewrite Hload. simpl. rewrite Hcur. fold today. by rewrite Hfault.
  - unfold removeItem. run.
    rewrite Hload. simpl. rewrite Hcur. fold today. by rewrite Hfault.
  - unfold clearTodaysLog. run. fold today. by rewrite Hfault.
Qed.


End Persistence.

Section History.
Context `{Number num}.
Implicit Types (s : App num) (env : Env) (log : DailyLog num).

(** The loop over the keys resolves, changes nothing but the effects,
    and collects only logs stored under the keys it is given. *)
Lemma readLogs_resolves keep keys acc env s :
  ∃ logs s',
    readLogs keep keys acc env s = (Resolved logs, s') ∧
    storage s' = storage s ∧
    nutritionTracker s' = nutritionTracker s ∧
    ∀ log, log ∈ logs →
      log ∈ acc ∨ ∃ key, key ∈ keys ∧ storage s !! key = Some (JLog log).
Proof.
  revert acc s. induction keys as [|key keys IH]; intros acc s.
  { eexists _, _. split_and!; [done..|]. intros log Hin. by left. }
  cbn [readLogs]. unfold andThen at 1.
  assert (∃ acc' s1,
    tryCatch
      (let* stored := AsyncStorage.getItem key in
       match stored with
       | Some v =>
           if nonEmpty v then
             let* log := parseLog v in
             resolve (if keep log then (acc ++ [log])%list else acc)
           else resolve acc
       | None => resolve acc
       end)
      (λ _, console_error "Error loading log for key" ;;; resolve acc)
      env s = (Resolved acc', s1) ∧
    storage s1 = storage s ∧ nutritionTracker s1 = nutritionTracker s ∧
    ∀ log, log ∈ acc' → log ∈ acc ∨ storage s !! key = Some (JLog log))
    as (acc' & s1 & -> & Hsto & Htr & Hacc).
  { run. destruct (faults env (GetItem key)); simpl.
    { eexists _, _. split_and!; [done..|]. by left. }
    destruct (storage s !! key) as [[log|l|[|c t]]|] eqn:Hkey; simpl;
      try (eexists _, _; split_and!; [by destruct s|done..|by left]).
    eexists _, _. split_and!; [by destruct s|done..|].
    intros log'. destruct (keep log); [|by left].
    rewrite elem_of_app, list_elem_of_singleton.
    intros [? | ->]; [by left|by right]. }
  destruct (IH acc' s1) as (logs & s' & -> & Hsto' & Htr' & Hlogs).
  eexists _, _. split_and!; [done|congruence..|].
  intros log Hin. destruct (Hlogs log Hin) as [Hin'|(key' & Hk & Hlook)].
  - destruct (Hacc log Hin') as [|Hlook]; [by left|].
    right. exists key. split; [left|done].
  - right. exists key'. split; [by right|]. by rewrite <- Hsto.
Qed.

Lemma historicalKeys_elem keys today key :
  key ∈ historicalKeys keys today →
  key ≠ logKey today ∧ isLogKey key = true.
Proof.
  unfold historicalKeys. rewrite !list_elem_of_filter.
  intros (Hne & Hlog & _). split; [done|]. by apply Is_true_true.
Qed.

Lemma slice0_elem {A} (count : Z) (l : list A) x :
  x ∈ slice0 count l → x ∈ l.
Proof. unfold slice0. case_bool_decide; apply subseteq_take. Qed.

(** Both readers resolve, and every log they return is stored under a
    key of the daily-log namespace other than today's. *)
Lemma history_sources env s count :
  let today := formatDateFromDate (clock env) in
  ∃ all recent,
    (getAllHistoricalLogs env s).1 = Resolved all ∧
    (getMostRecentLogs count env s).1 = Resolved recent ∧
    ∀ log, log ∈ all ∨ log ∈ recent →
      ∃ key, key ≠ logKey today ∧ isLogKey key = true ∧
             storage s !! key = Some (JLog log).
Proof.
  intros today.
  assert (Hsrc : ∀ keep logs s',
    readLogs keep (historicalKeys (map_to_list (storage s)).*1 today) []
      env s = (Resolved logs, s') →
    ∀ log, log ∈ logs →
      ∃ key, key ≠ logKey today ∧ isLogKey key = true ∧
             storage s !! key = Some (JLog log)).
  { intros keep logs s' Hrun log Hin.
    destruct (readLogs_resolves keep
                (historicalKeys (map_to_list (storage s)).*1 today) [] env s)
      as (logs' & s'' & Hrun' & _ & _ & Hlogs).
    rewrite Hrun in Hrun'. simplify_eq.
    destruct (Hlogs log Hin) as [Hnil|(key & Hkey & Hlook)].
    { by apply elem_of_nil in Hnil. }
    apply historicalKeys_elem in Hkey as [? ?]. eauto. }
  unfold getAllHistoricalLogs, getMostRecentLogs. run. fold today.
  destruct (faults env GetAllKeys); simpl.
  { exists [], []. split_and!; [done..|].
    intros log [Hin|Hin]; by apply elem_of_nil in Hin. }
  destruct (readLogs (λ _, true) _ [] env s) as [[all|e] s1] eqn:Hall;
    [|destruct (readLogs_resolves (λ _, true)
        (historicalKeys (map_to_list (storage s)).*1 today) [] env s)
        as (? & ? & ? & _); congruence].
  destruct (readLogs (λ log, bool_decide (0 < length (items log))%nat) _ []
              env s) as [[recent|e] s2] eqn:Hrecent;
    [|destruct (readLogs_resolves
        (λ log, bool_decide (0 < length (items log))%nat)
        (historicalKeys (map_to_list (storage s)).*1 today) [] env s)
        as (? & ? & ? & _); congruence].
  simpl. eexists _, _. split_and!; [done..|].
  intros log [Hin|Hin].
  - apply sort_elem in Hin. by eapply (Hsrc _ all).
  - apply slice0_elem, sort_elem in Hin. by eapply (Hsrc _ recent).
Qed.

(** C5 (history excludes today), as the code has it.  Both readers
    leave out the key of the day the clock shows.  With the stored
    logs keyed by their own date, as the writes of the store keep
    them, no log that [getAllHistoricalLogs] or
    [getMostRecentLogs count] returns has the clock's day as its
    date, for any [count] and whether or not today's log is stored;
    hence none has [currentDate] as its date when [currentDate] is the
    clock's day. *)
Theorem history_excludes_today env s count :
  let today := formatDateFromDate (clock env) in
  keyedByDate (storage s) →
  ∃ all recent,
    (getAllHistoricalLogs env s).1 = Resolved all ∧
    (getMostRecentLogs count env s).1 = Resolved recent ∧
    ∀ log, log ∈ all ∨ log ∈ recent →
      date log ≠ today ∧
      (currentDate (nutritionTracker s) = today →
         date log ≠ currentDate (nutritionTracker s)).
Proof.
  intros today Hkeyed.
  destruct (history_sources env s count) as (all & recent & Ha & Hr & Hsrc).
  exists all, recent. split_and!; [done..|].
  intros log Hin. destruct (Hsrc log Hin) as (key & Hne & Hlog & Hlook).
  assert (date log ≠ today) as Hdate.
  { intros Heq. apply Hne. rewrite (Hkeyed key log Hlook Hlog).
    by rewrite Heq. }
  split; [done|]. by intros ->.
Qed.

(** *** The store keeps its logs keyed by their date *)

Lemma keyedByDate_empty : keyedByDate (∅ : gmap string (Stored num)).
Proof. intros key log Hlook. by rewrite lookup_empty in Hlook. Qed.

Lemma keyedByDate_agree (m m' : gmap string (Stored num)) :
  (∀ key, isLogKey key = true → m' !! key = m !! key) →
  keyedByDate m → keyedByDate m'.
Proof.
  intros Hagree Hm key log Hlook Hkey. apply Hm; [|done].
  by rewrite <- Hagree.
Qed.

Lemma keyedByDate_insert (m : gmap string (Stored num)) log :
  keyedByDate m → keyedByDate (<[logKey (date log) := JLog log]> m).
Proof.
  intros Hm key log' Hlook Hkey.
  destruct (decide (key = logKey (date log))) as [->|Hne].
  - rewrite lookup_insert_eq in Hlook. by simplify_eq.
  - rewrite lookup_insert_ne in Hlook by done. by apply Hm.
Qed.

Lemma keyedByDate_delete (m : gmap string (Stored num)) key :
  keyedByDate m → keyedByDate (delete key m).
Proof.
  intros Hm key' log Hlook Hkey. apply Hm; [|done].
  by apply lookup_delete_Some in Hlook as [_ ?].
Qed.

Lemma keyedByDate_addOrUpdateFastAccessItem item env s :
  keyedByDate (storage s) →
  keyedByDate (storage (addOrUpdateFastAccessItem item env s).2).
Proof.
  apply keyedByDate_agree. intros key Hkey.
  apply addOrUpdateFastAccessItem_storage. by intros ->.
Qed.

Lemma isLogKey_logKey d : isLogKey (logKey d) = true.
Proof. unfold isLogKey, logKey. simpl. by destruct d. Qed.

(** The log [loadTodaysLog] returns carries today's date. *)
Lemma loadTodaysLog_date env s log s' :
  keyedByDate (storage s) →
  loadTodaysLog env s = (Resolved log, s') →
  date log = formatDateFromDate (clock env).
Proof.
  intros Hkeyed Hload.
  destruct (loadTodaysLog_resolves env s)
    as (log' & s'' & Hload' & _ & _ & _ & _ & _ & [Hdate|Hlook]).
  - congruence.
  - rewrite Hload in Hload'. simplify_eq.
    symmetry. apply logKey_inj, (Hkeyed _ _ Hlook), isLogKey_logKey.
Qed.

Lemma keyedByDate_mutate (m : Mutation) env s :
  keyedByDate (storage s) → keyedByDate (storage (mutate m env s).2).
Proof.
  intros Hkeyed.
  destruct (loadTodaysLog_resolves env s)
    as (log & s1 & Hload & Hlog & Hcur & _ & Hsto & _).
  pose proof (loadTodaysLog_date env s log s1 Hkeyed Hload) as Hdate.
  destruct m as [[menuItem place|customMeal|itemId]|]; simpl in *.
  - unfold addMenuItem, extractNutritionFromMenuItem, saveAndRecord. run.
    rewrite Hload. simpl. rewrite Hcur, Hsto.
    destruct (faults env (SetItem _)); simpl; [done|].
    match goal with |- context [addOrUpdateFastAccessItem ?i env ?s2] =>
      pose proof (keyedByDate_addOrUpdateFastAccessItem i env s2) as Hfa;
      destruct (addOrUpdateFastAccessItem i env s2) as [[[]|e] s3]
    end; simpl in *; apply Hfa; rewrite <- Hdate;
      by apply (keyedByDate_insert _ (pushItem log _)).
  - unfold addCustomMeal, saveAndRecord. run.
    rewrite Hload. simpl. rewrite Hcur, Hsto.
    destruct (faults env (SetItem _)); simpl; [done|].
    match goal with |- context [addOrUpdateFastAccessItem ?i env ?s2] =>
      pose proof (keyedByDate_addOrUpdateFastAccessItem i env s2) as Hfa;
      destruct (addOrUpdateFastAccessItem i env s2) as [[[]|e] s3]
    end; simpl in *; apply Hfa; rewrite <- Hdate;
      by apply (keyedByDate_insert _ (pushItem log _)).
  - unfold removeItem. run.
    rewrite Hload. simpl. rewrite Hcur, Hsto.
    destruct (faults env (SetItem _)); simpl; [done|].
    rewrite <- Hdate. by apply (keyedByDate_insert _ (dropItem log itemId)).
  - unfold clearTodaysLog. run.
    destruct (faults env (RemoveItem _)); simpl; [done|].
    by apply keyedByDate_delete.
Qed.

Lemma keyedByDate_checkForDateChange env s :
  keyedByDate (storage s) →
  keyedByDate (storage (checkForDateChange env s).2).
Proof.
  intros Hkeyed.
  destruct (decide (currentDate (nutritionTracker s) =
                    formatDateFromDate (clock env))) as [Heq|Hne].
  { by rewrite checkForDateChange_same_day. }
  destruct (dateObjLt (formatDateFromDate (clock env))
              (currentDate (nutritionTracker s))) eqn:Hlt.
  { by rewrite checkForDateChange_backward. }
  rewrite checkForDateChange_forward by done. simpl. unfold archive.
  repeat case_match; simpl; try done.
  by apply (keyedByDate_insert _
    {| date := currentDate (nutritionTracker s); items := _; totals := _ |}).
Qed.

End History.

(** * The properties on the scenarios *)

Import Examples Scenarios.

Lemma twoMeals_total :
  (λ log, (ti_name <$> items log, dn_calories (totals log)))
    <$> dailyLog (nutritionTracker twoMeals) = Some (["Oats"; "Rice"], 500).
Proof. vm_compute. reflexivity. Qed.

(** C2, as it is written, fails after a clock that was set back: the
    rollover to 2024-03-12 is a forward one, and the next read of
    today's log returns the log stored on the first 2024-03-12, with its
    meal and its 300 calories, not an empty log. *)
Lemma forward_rollover_finds_stored_log :
  dateObjLt (currentDate (nutritionTracker loggedOnTheTenth))
    (formatDateFromDate (clock (envAt 2024 3 12 4000))) = true ∧
  (checkForDateChange (envAt 2024 3 12 4000) loggedOnTheTenth).1
    = Resolved true ∧
  (λ log, (ti_name <$> items log, dn_calories (totals log)))
    <$> resolved (loadTodaysLog mar12 backOnTheTwelfth).1
    = Some (["Oats"], 300).
Proof. split_and!; vm_compute; reflexivity. Qed.

Lemma forward_rollover_witness :
  dateObjLt (currentDate (nutritionTracker twoMeals))
    (formatDateFromDate (clock mar12)) = true ∧
  (checkForDateChange mar12 twoMeals).1 = Resolved true ∧
  currentDate (nutritionTracker (after checkForDateChange mar12 twoMeals))
    = "2024-03-12" ∧
  dailyLog (nutritionTracker (after checkForDateChange mar12 twoMeals))
    = None ∧
  storage (after checkForDateChange mar12 twoMeals)
    = <["nutrition_log_2024-03-10" :=
          JLog {| date := "2024-03-10"; items := items twoMealsLog;
                  totals := totals twoMealsLog |}]> (storage twoMeals) ∧
  (loadTodaysLog mar12 (after checkForDateChange mar12 twoMeals)).1
    = Resolved (emptyLog "2024-03-12").
Proof.
  assert (Hlater : dateObjLt (currentDate (nutritionTracker twoMeals))
                     (formatDateFromDate (clock mar12)) = true)
    by (vm_compute; reflexivity).
  destruct (forward_rollover mar12 twoMeals Hlater)
    as (Hanswer & Hday & Hcache & Harchive & _ & Hnext).
  split; [exact Hlater|]. split; [exact Hanswer|].
  split; [exact Hday|]. split; [exact Hcache|]. split.
  - apply (Harchive twoMealsLog).
    + vm_compute. reflexivity.
    + vm_compute. discriminate.
    + reflexivity.
  - apply (proj1 (Hnext mar12 eq_refl)). vm_compute. reflexivity.
Defined.

Lemma backward_clock_resync_witness :
  dateObjLt (formatDateFromDate (clock mar09))
    (currentDate (nutritionTracker oneMeal)) = true ∧
  (checkForDateChange mar09 oneMeal).1 = Resolved false ∧
  currentDate (nutritionTracker (after checkForDateChange mar09 oneMeal))
    = "2024-03-09" ∧
  dailyLog (nutritionTracker (after checkForDateChange mar09 oneMeal))
    = dailyLog (nutritionTracker oneMeal) ∧
  storage (after checkForDateChange mar09 oneMeal) = storage oneMeal.
Proof.
  assert (Hearlier : dateObjLt (formatDateFromDate (clock mar09))
                       (currentDate (nutritionTracker oneMeal)) = true)
    by (vm_compute; reflexivity).
  destruct (backward_clock_resync mar09 oneMeal Hearlier)
    as (Hanswer & Hday & Hcache & _ & Hstored & _).
  split; [exact Hearlier|]. split; [exact Hanswer|].
  split; [exact Hday|]. split; [exact Hcache|exact Hstored].
Defined.

Lemma rollover_check_idempotent_witness :
  formatDateFromDate (clock (failing (SetItem "nutrition_log_2024-03-10") mar12))
    = formatDateFromDate (clock mar12) ∧
  checkForDateChange (failing (SetItem "nutrition_log_2024-03-10") mar12)
    (after checkForDateChange mar12 twoMeals)
  = (Resolved false, after checkForDateChange mar12 twoMeals).
Proof.
  split; [reflexivity|].
  apply (rollover_check_idempotent mar12
           (failing (SetItem "nutrition_log_2024-03-10") mar12) twoMeals).
  reflexivity.
Defined.

Lemma listeners_isolated_witness :
  dateObjLt (currentDate (nutritionTracker twoMeals))
    (formatDateFromDate (clock mar12)) = true ∧
  ∃ logged,
    effects (after checkForDateChange mar12
               (subscribeAll [reloadSummary; reloadHistory] mar09 twoMeals))
    = (effects (subscribeAll [reloadSummary; reloadHistory] mar09 twoMeals)
         ++ logged)%list ∧
    invocations logged = [1%nat; 2%nat].
Proof.
  assert (Hlater : dateObjLt (currentDate (nutritionTracker twoMeals))
                     (formatDateFromDate (clock mar12)) = true)
    by (vm_compute; reflexivity).
  split; [exact Hlater|].
  destruct (listeners_isolated [reloadSummary; reloadHistory] mar09 mar12
              twoMeals Hlater) as (_ & (logged & Heffects & Hcalls) & _).
  exists logged. split; [exact Heffects|exact Hcalls].
Defined.

(** C5, as it is written, fails when the clock has passed midnight and
    no rollover check has run yet: [currentDate] is still 2024-03-10,
    the clock shows 2024-03-11, and both readers return the stored log
    of 2024-03-10. *)
Lemma history_returns_log_of_currentDate :
  currentDate (nutritionTracker twoMeals) = "2024-03-10" ∧
  (λ logs : list (DailyLog Z), date <$> logs)
    <$> resolved (getAllHistoricalLogs mar11 twoMeals).1
    = Some ["2024-03-10"] ∧
  (λ logs : list (DailyLog Z), date <$> logs)
    <$> resolved (getMostRecentLogs 3 mar11 twoMeals).1
    = Some ["2024-03-10"].
Proof. split_and!; vm_compute; reflexivity. Qed.

Lemma history_excludes_today_witness :
  keyedByDate (storage backOnTheTwelfth) ∧
  ∃ all recent,
    (getAllHistoricalLogs mar12 backOnTheTwelfth).1 = Resolved all ∧
    (getMostRecentLogs 3 mar12 backOnTheTwelfth).1 = Resolved recent ∧
    ∀ log, log ∈ all ∨ log ∈ recent →
      date log ≠ "2024-03-12" ∧
      date log ≠ currentDate (nutritionTracker backOnTheTwelfth).
Proof.
  assert (Hkeyed : keyedByDate (storage backOnTheTwelfth)).
  { apply keyedByDate_checkForDateChange.
    apply (keyedByDate_mutate (Log (OpAddCustomMeal (meal "Rice" 200)))).
    apply keyedByDate_checkForDateChange.
    apply (keyedByDate_mutate (Log (OpAddCustomMeal (meal "Oats" 300)))).
    apply keyedByDate_empty. }
  split; [exact Hkeyed|].
  destruct (history_excludes_today mar12 backOnTheTwelfth 3 Hkeyed)
    as (all & recent & Hall & Hrecent & Hdates).
  exists all, recent. split; [exact Hall|]. split; [exact Hrecent|].
  intros log Hlog. destruct (Hdates log Hlog) as [Hclock Hcurrent].
  split; [exact Hclock|]. apply Hcurrent. vm_compute. reflexivity.
Defined.

(** C6, as it is written, fails when the clock does not move forward:
    rice is used again one second before the instant at which oats were
    last used (the clock was set back); its entry is refreshed, with a
    use count of 2, and the sort leaves it second. *)
Lemma refreshed_entry_not_first :
  fst <$> list_find (sameFood (tracked "Rice" 250))
            (fastAccessItems (fastAccessService riceThenOats)) = Some 1%nat ∧
  (λ item, (fa_name item, lastUsed item, useCount item))
    <$> fastAccessItems (fastAccessService
          (after (addOrUpdateFastAccessItem (tracked "Rice" 250))
             (envAt 2024 3 10 4000) riceThenOats))
    = [("Oats", 5000, 1); ("Rice", 4000, 2)].
Proof. split; vm_compute; reflexivity. Qed.

Lemma quick_access_refresh_and_cap_witness :
  (list_find (sameFood (tracked "Rice" 250))
     (fastAccessItems (fastAccessService riceThenOats))
     = Some (1%nat, fresh (tracked "Rice" 200) 3000) ∧
   ∃ item',
     head (fastAccessItems (fastAccessService
             (after (addOrUpdateFastAccessItem (tracked "Rice" 250))
                (envAt 2024 3 10 6000) riceThenOats))) = Some item' ∧
     fa_id item' = "Rice_id" ∧ useCount item' = 2 ∧ lastUsed item' = 6000 ∧
     fa_calories item' = 250) ∧
  (NoDup (foodOf <$> elevenMeals.*2) ∧
   length (fastAccessItems (fastAccessService (recordAll elevenMeals morning)))
     = 10%nat).
Proof.
  destruct (quick_access_refresh_and_cap (num := Z)) as [Hrefresh Hcap].
  split.
  - assert (Hfound : list_find (sameFood (tracked "Rice" 250))
                       (fastAccessItems (fastAccessService riceThenOats))
                     = Some (1%nat, fresh (tracked "Rice" 200) 3000))
      by (vm_compute; reflexivity).
    split; [exact Hfound|].
    destruct (Hrefresh (tracked "Rice" 250) (envAt 2024 3 10 6000)
                riceThenOats 1%nat (fresh (tracked "Rice" 200) 3000) Hfound)
      as (item' & _ & _ & Hid & _ & _ & _ & Hcount & Hused & Hkcal & _ & _ &
          _ & _ & _ & _ & _ & Hfirst).
    { vm_compute. lia. }
    exists item'. split; [|by split_and!].
    apply Hfirst. intros [|[|[|j]]] other; vm_compute; intros Hother Hj;
      try discriminate Hother; [| by destruct Hj].
    by injection Hother as <-.
  - assert (Hdistinct : NoDup (foodOf <$> elevenMeals.*2))
      by (apply (bool_decide_unpack _); vm_compute; exact I).
    split; [exact Hdistinct|].
    apply (Hcap elevenMeals morning); [exact Hdistinct|reflexivity].
Defined.

(** C4 on the failing input.  Ten entries were last used at instants
    1001 to 1010; the clock is set back and an eleventh pair is
    recorded at instant 500.  The code cuts the unsorted list before it
    sorts: the tail entry "m01", last used at 1001, is evicted and the
    new entry, ranking lowest with 500, is kept.  Sorting the whole
    collection first and keeping the first ten, as specified, keeps
    "m01" and evicts the new entry. *)
Theorem eviction_cuts_before_sorting :
  fa_name <$> fastAccessItems (fastAccessService
                (after (addOrUpdateFastAccessItem late) clockSetBack tenMeals))
    = ["m10"; "m09"; "m08"; "m07"; "m06"; "m05"; "m04"; "m03"; "m02"; "late"] ∧
  fa_name <$> truncateAsSpecified
                (updatedList late (now clockSetBack)
                   (fastAccessItems (fastAccessService tenMeals)))
    = ["m10"; "m09"; "m08"; "m07"; "m06"; "m05"; "m04"; "m03"; "m02"; "m01"].
Proof. split; vm_compute; reflexivity. Qed.

Lemma failed_write_rejects_witness :
  faults brokenWrite (writeOf soup (formatDateFromDate (clock brokenWrite)))
    = true ∧
  (mutate soup brokenWrite twoMeals).1
    = Rejected (StorageError (SetItem "nutrition_log_2024-03-10")) ∧
  storage (mutate soup brokenWrite twoMeals).2 = storage twoMeals.
Proof.
  assert (Hfails : faults brokenWrite
                     (writeOf soup (formatDateFromDate (clock brokenWrite)))
                   = true)
    by (vm_compute; reflexivity).
  split; [exact Hfails|].
  exact (failed_write_rejects soup brokenWrite twoMeals Hfails).
Defined.

Lemma remove_overwrites_without_reading_witness :
  faults mar12 (SetItem fastAccessKey) = false ∧
  storage notLoaded !! fastAccessKey
    = Some (JFast [fresh (tracked "Rice" 200) 3000;
                   fresh (tracked "Oats" 300) 2000]) ∧
  (removeFastAccessItem "Oats_id" mar12 notLoaded).1 = Resolved () ∧
  storage (after (removeFastAccessItem "Oats_id") mar12 notLoaded)
    !! fastAccessKey = Some (JFast []).
Proof.
  assert (Hworks : faults mar12 (SetItem fastAccessKey) = false)
    by reflexivity.
  destruct (remove_overwrites_without_reading "Oats_id" mar12 notLoaded Hworks)
    as (Hanswer & _ & _ & _ & _ & Hempty).
  split; [exact Hworks|]. split; [vm_compute; reflexivity|].
  split; [exact Hanswer|]. apply Hempty. reflexivity.
Defined.


(** * Further properties of the daily log *)

Section TodaysLog.
Context `{Number num}.
Implicit Types (s : App num) (env : Env) (log : DailyLog num)
  (item : TrackedItem num).

(** With today's log in the cache the read returns it and touches
    nothing, not even the storage. *)
Lemma loadTodaysLog_cached env s log :
  currentDate (nutritionTracker s) = formatDateFromDate (clock env) →
  dailyLog (nutritionTracker s) = Some log →
  date log = formatDateFromDate (clock env) →
  loadTodaysLog env s = (Resolved log, s).
Proof.
  intros Hcur Hlog Hdate. unfold loadTodaysLog. run.
  rewrite bool_decide_false by (by intros []). simpl.
  rewrite Hlog. rewrite bool_decide_true by done. done.
Qed.

Lemma saveAndRecord_currentDate log item env s :
  currentDate (nutritionTracker (saveAndRecord log item env s).2)
  = currentDate (nutritionTracker s).
Proof.
  unfold saveAndRecord. run.
  destruct (faults env _); simpl; [done|].
  match goal with |- context [addOrUpdateFastAccessItem item env ?s1] =>
    pose proof (addOrUpdateFastAccessItem_tracker item env s1) as Hfa;
    destruct (addOrUpdateFastAccessItem item env s1) as [[[]|e] s2]
  end; simpl in *; by rewrite Hfa.
Qed.

(** After any of the three operations [currentDate] is the day of the
    call and the cached log carries the date of the log that was
    read. *)
Lemma perform_tracker op env s :
  ∃ log log',
    (loadTodaysLog env s).1 = Resolved log ∧
    dailyLog (nutritionTracker (perform op env s).2) = Some log' ∧
    date log' = date log ∧
    currentDate (nutritionTracker (perform op env s).2)
    = formatDateFromDate (clock env).
Proof.
  destruct (perform_log op env s) as (log & Hread & Hafter).
  destruct (loadTodaysLog_resolves env s)
    as (log0 & s1 & Hload & _ & Hcur & _).
  assert (Hday : currentDate (nutritionTracker (perform op env s).2)
                 = formatDateFromDate (clock env)).
  { destruct op as [menuItem place|customMeal|itemId]; simpl.
    - unfold addMenuItem, extractNutritionFromMenuItem. run.
      rewrite Hload. simpl. by rewrite saveAndRecord_currentDate.
    - unfold addCustomMeal. run. rewrite Hload. simpl.
      by rewrite saveAndRecord_currentDate.
    - unfold removeItem. run. rewrite Hload. simpl.
      by destruct (faults env _). }
  destruct op as [menuItem place|customMeal|itemId].
  - destruct Hafter as [item Hafter]. by exists log, (pushItem log item).
  - destruct Hafter as [item Hafter]. by exists log, (pushItem log item).
  - by exists log, (dropItem log itemId).
Qed.

(** X2.  Reading today's log twice on the same day gives the same log,
    and the second read leaves the state as the first left it, whatever
    the storage would answer; neither read writes to the storage: a day
    that is only looked at is not persisted. *)
Theorem loadTodaysLog_twice env env' s :
  keyedByDate (storage s) →
  formatDateFromDate (clock env') = formatDateFromDate (clock env) →
  loadTodaysLog env' (loadTodaysLog env s).2 = loadTodaysLog env s ∧
  storage (loadTodaysLog env s).2 = storage s.
Proof.
  intros Hkeyed Hday.
  destruct (loadTodaysLog_resolves env s)
    as (log & s1 & Hload & Hlog & Hcur & _ & Hsto & _).
  pose proof (loadTodaysLog_date env s log s1 Hkeyed Hload) as Hdate.
  rewrite Hload. simpl. split; [|done].
  apply loadTodaysLog_cached; [by rewrite Hday..|done|by rewrite Hday].
Qed.

(** X1.  Removing an id that no item of today's log has leaves the
    items as they are, recomputes the totals from them, and resolves
    when the write works. *)
Theorem removeItem_absent_id itemId env s log :
  (loadTodaysLog env s).1 = Resolved log →
  Forall (λ item, ti_id item ≠ itemId) (items log) →
  faults env (SetItem (logKey (formatDateFromDate (clock env)))) = false →
  (removeItem itemId env s).1 = Resolved () ∧
  dailyLog (nutritionTracker (removeItem itemId env s).2)
  = Some {| date := date log; items := items log;
            totals := calculateTotals (items log) |}.
Proof.
  intros Hread Habsent Hworks.
  destruct (loadTodaysLog_resolves env s)
    as (log0 & s1 & Hload & _ & Hcur & _).
  rewrite Hload in Hread. simpl in Hread. simplify_eq.
  assert (Hsame : filter (λ item, ti_id item ≠ itemId) (items log) = items log).
  { clear -Habsent. induction Habsent as [|item l Hitem _ IH]; [done|].
    rewrite filter_cons_True by done. by rewrite IH. }
  unfold removeItem. run. rewrite Hload. simpl. rewrite Hcur, Hworks. simpl.
  unfold dropItem. by rewrite Hsame.
Qed.

(** What [addCustomMeal] leaves in the cache: the log that was read
    with one more item at its end, carrying the generated id, the name
    of the meal and the restaurant "Custom Meal". *)
Lemma addCustomMeal_cache customMeal env s log :
  (loadTodaysLog env s).1 = Resolved log →
  ∃ item,
    ti_id item = pretty (now env) +:+ "_" +:+ random env ∧
    ti_name item = cm_name customMeal ∧
    ti_restaurant item = "Custom Meal" ∧
    ti_calories item = cm_calories customMeal ∧
    dailyLog (nutritionTracker (addCustomMeal customMeal env s).2)
    = Some (pushItem log item).
Proof.
  intros Hread.
  destruct (loadTodaysLog_resolves env s) as (log0 & s1 & Hload & _).
  rewrite Hload in Hread. simpl in Hread. simplify_eq.
  unfold addCustomMeal. run. rewrite Hload. simpl.
  eexists. split_and!; [..|by apply saveAndRecord_dailyLog]; done.
Qed.

(** X3.  Adding a custom meal and then removing the item with the id
    it was given brings the items of today's log back to what they
    were, whether or not the writes succeed, as long as no item had
    that id before. *)
Theorem add_then_remove customMeal env env' s log :
  let id := pretty (now env) +:+ "_" +:+ random env in
  keyedByDate (storage s) →
  (loadTodaysLog env s).1 = Resolved log →
  Forall (λ item, ti_id item ≠ id) (items log) →
  formatDateFromDate (clock env') = formatDateFromDate (clock env) →
  dailyLog (nutritionTracker
              (removeItem id env' (addCustomMeal customMeal env s).2).2)
  = Some {| date := date log; items := items log;
            totals := calculateTotals (items log) |}.
Proof.
  intros id Hkeyed Hread Hfresh Hday.
  destruct (addCustomMeal_cache customMeal env s log Hread)
    as (item & Hid & _ & _ & _ & Hcache).
  destruct (perform_tracker (OpAddCustomMeal customMeal) env s)
    as (log0 & log1 & Hread0 & Hcache1 & Hdate & Hcur).
  simpl in Hcache1, Hcur. clear log0 log1 Hread0 Hcache1 Hdate.
  destruct (loadTodaysLog_resolves env s) as (log1 & s1 & Hload & _).
  rewrite Hload in Hread. simpl in Hread. injection Hread as ->.
  pose proof (loadTodaysLog_date env s log s1 Hkeyed Hload) as Htoday.
  assert (Hsame : filter (λ i, ti_id i ≠ id) (items log ++ [item])%list
                  = items log).
  { rewrite filter_app, filter_cons_False, filter_nil, app_nil_r
      by (intros Hne; by apply Hne).
    clear -Hfresh. induction Hfresh as [|i l Hi _ IH]; [done|].
    rewrite filter_cons_True by done. by rewrite IH. }
  unfold removeItem. run.
  rewrite (loadTodaysLog_cached env' _ (pushItem log item))
    by (rewrite ?Hday; done).
  simpl. unfold dropItem. simpl. rewrite Hsame.
  by destruct (faults env' _).
Qed.


(** X5.  After a clear that resolved, today's log read on that day
    is the empty log with zero totals, from any state and whatever the
    storage answers. *)
Theorem cleared_log_is_empty env env' s :
  (clearTodaysLog env s).1 = Resolved () →
  formatDateFromDate (clock env') = formatDateFromDate (clock env) →
  (loadTodaysLog env' (clearTodaysLog env s).2).1
  = Resolved (emptyLog (formatDateFromDate (clock env))).
Proof.
  intros Hres Hday. revert Hres. unfold clearTodaysLog. run.
  destruct (faults env _) eqn:Hfault; simpl; [done|]. intros _.
  destruct (decide (currentDate (nutritionTracker s)
                    = formatDateFromDate (clock env))) as [Hcur|Hcur].
  - by rewrite (loadTodaysLog_cached env' _
                  (emptyLog (formatDateFromDate (clock env))))
      by (rewrite ?Hday; done).
  - unfold loadTodaysLog. run. rewrite Hday.
    rewrite bool_decide_true by done. simpl.
    destruct (faults env' _); simpl; [done|].
    by rewrite lookup_delete_eq.
Qed.

(** X6.  A failed write leaves the cache ahead of the storage: the
    add rejects and nothing is written, but the new item is in the
    cached log, and the next read of today's log on that day returns
    it. *)
Theorem failed_add_stays_in_cache customMeal env env' s log :
  keyedByDate (storage s) →
  (loadTodaysLog env s).1 = Resolved log →
  faults env (SetItem (logKey (formatDateFromDate (clock env)))) = true →
  formatDateFromDate (clock env') = formatDateFromDate (clock env) →
  storage (addCustomMeal customMeal env s).2 = storage s ∧
  ∃ item,
    ti_name item = cm_name customMeal ∧
    (getTodaysItems env' (addCustomMeal customMeal env s).2).1
    = Resolved (items log ++ [item])%list.
Proof.
  intros Hkeyed Hread Hfault Hday.
  destruct (addCustomMeal_cache customMeal env s log Hread)
    as (item & _ & Hname & _ & _ & Hcache).
  destruct (perform_tracker (OpAddCustomMeal customMeal) env s)
    as (log0 & log1 & Hread0 & Hcache1 & Hdate & Hcur).
  simpl in Hcache1, Hcur. clear log0 log1 Hread0 Hcache1 Hdate.
  destruct (loadTodaysLog_resolves env s)
    as (log1 & s1 & Hload & _ & Hcur1 & _ & Hsto & _).
  rewrite Hload in Hread. simpl in Hread. injection Hread as ->.
  pose proof (loadTodaysLog_date env s log s1 Hkeyed Hload) as Htoday.
  split.
  - unfold addCustomMeal, saveAndRecord. run. rewrite Hload. simpl.
    rewrite Hcur1, Hfault. done.
  - exists item. split; [done|]. unfold getTodaysItems. run.
    by rewrite (loadTodaysLog_cached env' _ (pushItem log item))
      by (rewrite ?Hday; done).
Qed.

(** X7.  The add also rejects when the log was written and only the
    quick-access list could not be: the item is then both cached and
    stored, although the caller is told the add failed. *)
Theorem rejected_add_may_be_saved customMeal env s :
  faults env (SetItem (logKey (formatDateFromDate (clock env)))) = false →
  faults env (SetItem fastAccessKey) = true →
  (addCustomMeal customMeal env s).1
  = Rejected (StorageError (SetItem fastAccessKey)) ∧
  ∃ log item,
    (loadTodaysLog env s).1 = Resolved log ∧
    ti_name item = cm_name customMeal ∧
    dailyLog (nutritionTracker (addCustomMeal customMeal env s).2)
    = Some (pushItem log item) ∧
    storage (addCustomMeal customMeal env s).2
      !! logKey (formatDateFromDate (clock env))
    = Some (JLog (pushItem log item)).
Proof.
  intros Hlog Hfast.
  destruct (loadTodaysLog_resolves env s)
    as (log & s1 & Hload & _ & Hcur & _).
  unfold addCustomMeal, saveAndRecord. run. rewrite Hload. simpl.
  rewrite Hcur, Hlog. simpl.
  unfold addOrUpdateFastAccessItem, loadFastAccessItems. run.
  destruct (fastAccessItems (fastAccessService s1)) as [|e l]; simpl;
    [destruct (faults env (GetItem fastAccessKey)); simpl;
     [|destruct (_ !! fastAccessKey) as [[?|?|[|? ?]]|]; simpl]|];
    rewrite Hfast; simpl; (split; [done|]);
    eexists _, _; split_and!; try done;
    try (by rewrite lookup_insert_eq); done.
Qed.

End TodaysLog.

(** * Further properties of the rollover *)

Section Callbacks.
Context {num : Type}.
Implicit Types (s : App num) (env : Env) (c : Callback).

Lemma removeFirst_absent id (l : list Callback) :
  id ∉ cb_id <$> l → removeFirst id l = l.
Proof.
  induction l as [|c l IH]; [done|]. simpl. intros Hnot.
  apply not_elem_of_cons in Hnot as [Hne Hnot].
  rewrite bool_decide_false by done. by rewrite IH.
Qed.

Lemma removeFirst_first id (l1 l2 : list Callback) c :
  cb_id c = id → id ∉ cb_id <$> l1 →
  removeFirst id (l1 ++ c :: l2) = (l1 ++ l2)%list.
Proof.
  intros Hid. induction l1 as [|c1 l1 IH]; simpl; intros Hnot.
  - by rewrite bool_decide_true.
  - apply not_elem_of_cons in Hnot as [Hne Hnot].
    rewrite bool_decide_false by done. by rewrite IH.
Qed.

(** X8.  Unsubscribing takes out one registration of the callback,
    the earliest, and leaves every other callback in its place; for a
    callback that is not registered (or no longer is) it changes
    nothing, so it can be called any number of times; and subscribing
    then unsubscribing leaves the whole state as it was. *)
Theorem unsubscribe_removes_one c env s :
  let callbacks := dateChangeCallbacks (nutritionTracker s) in
  let s' := (unsubscribe (num := num) c env s).2 in
  (∀ l1 l2 c0,
     callbacks = (l1 ++ c0 :: l2)%list →
     cb_id c0 = cb_id c → cb_id c ∉ cb_id <$> l1 →
     dateChangeCallbacks (nutritionTracker s') = (l1 ++ l2)%list) ∧
  (cb_id c ∉ cb_id <$> callbacks →
     s' = s ∧ (unsubscribe c env (onDateChange c env s).2).2 = s).
Proof.
  intros callbacks s'. subst callbacks s'. unfold unsubscribe, onDateChange.
  run. split.
  - intros l1 l2 c0 -> Hid Hnot. by apply removeFirst_first.
  - intros Hnot. rewrite removeFirst_absent by done.
    rewrite (removeFirst_first (cb_id c) _ [] c) by done.
    rewrite app_nil_r. by destruct s as [[] ? ? ?].
Qed.

End Callbacks.

Section RolloverFrame.
Context `{Number num}.
Implicit Types (s : App num) (env : Env) (log : DailyLog num).

Lemma checkForDateChange_resolves env s :
  ∃ changed, (checkForDateChange env s).1 = Resolved changed.
Proof.
  destruct (decide (currentDate (nutritionTracker s) =
                    formatDateFromDate (clock env))) as [Heq|Hne].
  { rewrite checkForDateChange_same_day by done. eauto. }
  destruct (dateObjLt (formatDateFromDate (clock env))
              (currentDate (nutritionTracker s))) eqn:Hlt.
  { rewrite checkForDateChange_backward by done. simpl. eauto. }
  rewrite checkForDateChange_forward by done. simpl. eauto.
Qed.

Lemma checkForDateChange_other_keys env s key :
  isLogKey key = false →
  storage (checkForDateChange env s).2 !! key = storage s !! key.
Proof.
  intros Hkey.
  destruct (decide (currentDate (nutritionTracker s) =
                    formatDateFromDate (clock env))) as [Heq|Hne].
  { by rewrite checkForDateChange_same_day. }
  destruct (dateObjLt (formatDateFromDate (clock env))
              (currentDate (nutritionTracker s))) eqn:Hlt.
  { by rewrite checkForDateChange_backward. }
  rewrite checkForDateChange_forward by done. simpl. unfold archive.
  repeat case_match; simpl; try done.
  apply lookup_insert_ne. intros <-. by rewrite isLogKey_logKey in Hkey.
Qed.

(** X9.  The rollover check never rejects, and whatever branch it
    takes it leaves alone the quick-access list, the registered
    callbacks, and every stored value outside the daily-log keys:
    whatever else the device stores survives every rollover. *)
Theorem rollover_touches_logs_only env s :
  let s' := (checkForDateChange env s).2 in
  (∃ changed, (checkForDateChange env s).1 = Resolved changed) ∧
  fastAccessService s' = fastAccessService s ∧
  dateChangeCallbacks (nutritionTracker s')
  = dateChangeCallbacks (nutritionTracker s) ∧
  ∀ key, isLogKey key = false → storage s' !! key = storage s !! key.
Proof.
  intros s'. subst s'.
  split; [apply checkForDateChange_resolves|].
  split_and!; [| |intros key; apply checkForDateChange_other_keys].
  all: destruct (decide (currentDate (nutritionTracker s) =
                         formatDateFromDate (clock env))) as [Heq|Hne];
    [by rewrite checkForDateChange_same_day|];
    destruct (dateObjLt (formatDateFromDate (clock env))
                (currentDate (nutritionTracker s))) eqn:Hlt;
    [by rewrite checkForDateChange_backward
    |by rewrite checkForDateChange_forward].
Qed.


End RolloverFrame.

Section ForegroundCheck.
Context `{Number num}.
Implicit Types (s : App num) (env : Env).

(** The rollover check does the same from two such states. *)
Lemma checkForDateChange_sameButConsole env s s' :
  sameButConsole s s' →
  (checkForDateChange env s').1 = (checkForDateChange env s).1 ∧
  sameButConsole (checkForDateChange env s).2 (checkForDateChange env s').2.
Proof.
  intros (Htr & Hfa & Hsto & Hinv).
  destruct (decide (currentDate (nutritionTracker s) =
                    formatDateFromDate (clock env))) as [Heq|Hne].
  { rewrite !checkForDateChange_same_day by (by rewrite ?Htr). done. }
  destruct (dateObjLt (formatDateFromDate (clock env))
              (currentDate (nutritionTracker s))) eqn:Hlt.
  { rewrite !checkForDateChange_backward by (by rewrite ?Htr).
    rewrite Htr. done. }
  rewrite !checkForDateChange_forward by (by rewrite ?Htr).
  assert (Harch : archive (currentDate (nutritionTracker s')) env s'
                  = archive (currentDate (nutritionTracker s)) env s).
  { unfold archive. by rewrite Htr, Hsto. }
  rewrite Harch, Htr. split; [done|]. split_and!; simpl; try done.
  rewrite !invocations_app. by rewrite Hinv.
Qed.

(** X11.  The check made when the app comes back to the foreground
    never rejects, and it amounts to one rollover check: the tracker,
    the quick-access list, the stored values (the background timestamp
    apart) and the callbacks called are those of a single
    [checkForDateChange], whatever the timestamp holds and whichever
    calls of the storage fail; no callback is called twice. *)
Theorem foreground_check_is_one_check env s :
  let s1 := (checkForDateChange env s).2 in
  let s2 := (checkForDateChangeFromBackground env s).2 in
  (checkForDateChangeFromBackground env s).1 = Resolved () ∧
  nutritionTracker s2 = nutritionTracker s1 ∧
  fastAccessService s2 = fastAccessService s1 ∧
  (∀ key, key ≠ backgroundKey → storage s2 !! key = storage s1 !! key) ∧
  invocations (effects s2) = invocations (effects s1).
Proof.
  intros s1 s2. subst s1 s2.
  (* the check, run once more in the handler, from the state a check left *)
  assert (Hagain : ∀ s0 s0',
    sameButConsole (checkForDateChange env s0).2 s0' →
    (∃ b, (checkForDateChange env s0').1 = Resolved b) ∧
    sameButConsole (checkForDateChange env s0).2 (checkForDateChange env s0').2).
  { intros s0 s0' Hsame.
    rewrite (checkForDateChange_same_day env s0').
    - split; [by eexists|done].
    - destruct Hsame as (-> & _). apply checkForDateChange_currentDate. }
  (* the check, run in the handler from the start *)
  assert (Hfirst : ∀ s0',
    sameButConsole s s0' →
    (∃ b, (checkForDateChange env s0').1 = Resolved b) ∧
    sameButConsole (checkForDateChange env s).2 (checkForDateChange env s0').2).
  { intros s0' Hsame.
    destruct (checkForDateChange_sameButConsole env s s0' Hsame) as [Hr Hs].
    split; [|done]. rewrite Hr.
    apply checkForDateChange_resolves. }
  unfold checkForDateChangeFromBackground, toISODay. run.
  destruct (faults env (GetItem backgroundKey)) eqn:Hget; simpl.
  { match goal with |- context [checkForDateChange env ?s0] =>
      destruct (Hfirst s0) as ([b Hb] & Htr & Hfa & Hsto & Hinv);
        [by split_and!; simpl; rewrite ?invocations_app, ?app_nil_r|];
      destruct (checkForDateChange env s0) as [[?|?] ?]; simplify_eq/=
    end. split_and!; try done. intros key _. by rewrite Hsto. }
  destruct (checkForDateChange_resolves env s) as [b Hb].
  destruct (storage s !! backgroundKey) as [v|] eqn:Hstored; simpl;
    [destruct (nonEmpty v); simpl|].
  - destruct (storedTimestamp v ≫= isoDay) as [day|]; simpl;
      [destruct (isoDay (now env)) as [today|]; simpl|].
    + destruct (bool_decide (day ≠ today));
        destruct (checkForDateChange env s) as [[b0|e0] s1] eqn:Hcheck;
        simplify_eq/=;
        (destruct (faults env (RemoveItem backgroundKey)) eqn:Hrem; simpl;
         [ match goal with |- context [checkForDateChange env ?s0] =>
             destruct (Hagain s s0) as ([b1 Hb1] & Htr & Hfa & Hsto & Hinv);
               [rewrite Hcheck; by split_and!; simpl;
                  rewrite ?invocations_app, ?app_nil_r|];
             rewrite Hcheck in Htr, Hfa, Hsto, Hinv;
             destruct (checkForDateChange env s0) as [[?|?] ?]; simplify_eq/=
           end; split_and!; try done; intros key _; by rewrite Hsto
         | split_and!; try done; intros key Hkey;
           by rewrite lookup_delete_ne ]).
    + match goal with |- context [checkForDateChange env ?s0] =>
        destruct (Hfirst s0) as ([b1 Hb1] & Htr & Hfa & Hsto & Hinv);
          [by split_and!; simpl; rewrite ?invocations_app, ?app_nil_r|];
        destruct (checkForDateChange env s0) as [[?|?] ?]; simplify_eq/=
      end. split_and!; try done. intros key _. by rewrite Hsto.
    + match goal with |- context [checkForDateChange env ?s0] =>
        destruct (Hfirst s0) as ([b1 Hb1] & Htr & Hfa & Hsto & Hinv);
          [by split_and!; simpl; rewrite ?invocations_app, ?app_nil_r|];
        destruct (checkForDateChange env s0) as [[?|?] ?]; simplify_eq/=
      end. split_and!; try done. intros key _. by rewrite Hsto.
  - destruct (checkForDateChange env s) as [[b0|e0] s1]; simplify_eq/=. done.
  - destruct (checkForDateChange env s) as [[b0|e0] s1]; simplify_eq/=. done.
Qed.

(** X12.  With a working storage the foreground check uses up the
    background timestamp: a stored timestamp that reads as an instant
    is removed.  One that does not (the text is not a number, or the
    number is out of the range of dates) is never removed: the check
    logs the error, runs the rollover check and leaves the value where
    it is. *)
Theorem background_timestamp_is_consumed env s v :
  let s2 := (checkForDateChangeFromBackground env s).2 in
  storage s !! backgroundKey = Some v →
  nonEmpty v = true →
  faults env (GetItem backgroundKey) = false →
  faults env (RemoveItem backgroundKey) = false →
  is_Some (isoDay (now env)) →
  (is_Some (storedTimestamp v ≫= isoDay) →
     storage s2 !! backgroundKey = None) ∧
  (storedTimestamp v ≫= isoDay = None →
     storage s2 !! backgroundKey = Some v).
Proof.
  intros s2 Hstored Htext Hget Hrem [today Htoday]. subst s2.
  unfold checkForDateChangeFromBackground, toISODay. run.
  rewrite Hget. simpl. rewrite Hstored, Htext. simpl. split.
  - intros [day Hday]. rewrite Hday. simpl. rewrite Htoday. simpl.
    destruct (checkForDateChange_resolves env s) as [b Hb].
    destruct (bool_decide (day ≠ today)); simpl;
      destruct (checkForDateChange env s) as [r s1]; simpl in Hb; subst r;
      simpl; rewrite Hrem; simpl; apply lookup_delete_eq.
  - intros Hbad. rewrite Hbad. simpl.
    match goal with |- context [checkForDateChange env ?s0] =>
      pose proof (checkForDateChange_other_keys env s0 backgroundKey eq_refl)
        as Hkeep;
      destruct (checkForDateChange env s0) as [[?|?] ?]
    end; simpl in *; by rewrite Hkeep.
Qed.

End ForegroundCheck.

(** * Further properties of the history *)

Section SortedOn.
Context {A : Type} (cmp : A → A → Z) (P : A → Prop).
Hypothesis cmp_trans : ∀ x y z,
  P x → P y → P z → cmp x y ≤ 0 → cmp y z ≤ 0 → cmp x z ≤ 0.
Hypothesis cmp_total : ∀ x y, P x → P y → cmp x y ≤ 0 ∨ cmp y x ≤ 0.

Lemma insertSorted_sorted_on x l :
  P x → Forall P l →
  StronglySorted (λ a b, cmp a b ≤ 0) l →
  StronglySorted (λ a b, cmp a b ≤ 0) (insertSorted cmp x l).
Proof.
  intros Hx HP Hsorted. induction Hsorted as [|y l Hl IH Hy]; simpl.
  - repeat constructor.
  - apply Forall_cons in HP as [Hpy HP]. case_bool_decide as Hxy.
    + constructor; [by constructor|]. constructor; [done|].
      rewrite Forall_forall in Hy, HP. apply Forall_forall. intros z Hz.
      apply (cmp_trans x y z); auto.
    + constructor; [by apply IH|].
      rewrite insertSorted_perm. constructor; [|done].
      destruct (cmp_total x y); [done..|lia|done].
Qed.

Lemma sort_sorted_on l :
  Forall P l → StronglySorted (λ a b, cmp a b ≤ 0) (sort cmp l).
Proof.
  induction 1 as [|x l Hx HP IH]; simpl; [constructor|].
  apply insertSorted_sorted_on; [done| |done].
  apply Forall_forall. intros y Hy%sort_elem.
  by apply (proj1 (Forall_forall _ _) HP).
Qed.

End SortedOn.

Section HistoryContents.
Context `{Number num}.
Implicit Types (s : App num) (env : Env) (log : DailyLog num).

(** What the loop over the keys collects, exactly: what it started
    with, and the logs stored under its keys that could be read and
    that [keep] accepts. *)
Lemma readLogs_exact keep keys acc env s :
  ∃ logs s',
    readLogs keep keys acc env s = (Resolved logs, s') ∧
    (length logs ≤ length acc + length keys)%nat ∧
    ∀ log, log ∈ logs ↔
      log ∈ acc ∨
      ∃ key, key ∈ keys ∧ storage s !! key = Some (JLog log) ∧
             faults env (GetItem key) = false ∧ keep log = true.
Proof.
  revert acc s. induction keys as [|key keys IH]; intros acc s.
  { eexists _, _. split_and!; [done|simpl; lia|].
    intros log. split; [by left|]. intros [|(key & Hk & _)]; [done|].
    by apply elem_of_nil in Hk. }
  cbn [readLogs]. unfold andThen at 1.
  assert (∃ acc' s1,
    tryCatch
      (let* stored := AsyncStorage.getItem key in
       match stored with
       | Some v =>
           if nonEmpty v then
             let* log := parseLog v in
             resolve (if keep log then (acc ++ [log])%list else acc)
           else resolve acc
       | None => resolve acc
       end)
      (λ _, console_error "Error loading log for key" ;;; resolve acc)
      env s = (Resolved acc', s1) ∧
    storage s1 = storage s ∧
    (length acc' ≤ S (length acc))%nat ∧
    ∀ log, log ∈ acc' ↔
      log ∈ acc ∨ (storage s !! key = Some (JLog log) ∧
                   faults env (GetItem key) = false ∧ keep log = true))
    as (acc' & s1 & -> & Hsto & Hlen & Hacc).
  { run. destruct (faults env (GetItem key)) eqn:Hfault; simpl.
    { eexists _, _. split_and!; [done..|lia|]. intuition congruence. }
    destruct (storage s !! key) as [[log|l|[|c t]]|] eqn:Hkey; simpl;
      try (eexists _, _;
           split_and!; [by destruct s|done|lia|intuition congruence]).
    destruct (keep log) eqn:Hkeep.
    - eexists _, _.
      split_and!; [by destruct s|done|rewrite length_app; simpl; lia|].
      intros log'. rewrite elem_of_app, list_elem_of_singleton.
      intuition congruence.
    - eexists _, _. split_and!; [by destruct s|done|lia|].
      intuition congruence. }
  destruct (IH acc' s1) as (logs & s' & -> & Hlen' & Hlogs).
  eexists _, _. split_and!; [done|simpl; lia|].
  intros log. rewrite Hlogs, Hacc, Hsto. setoid_rewrite elem_of_cons. split.
  - intros [[?|(? & ? & ?)]|(k & ? & ? & ? & ?)];
      [by left|right; exists key; auto|right; exists k; auto].
  - intros [?|(k & [->|?] & ? & ? & ?)];
      [by left; left|left; right; auto|right; exists k; auto].
Qed.




Lemma byDate_le (a b : DailyLog num) ta tb :
  dateTime (date a) = Some ta → dateTime (date b) = Some tb →
  byDate a b ≤ 0 ↔ tb ≤ ta.
Proof. intros Ha Hb. unfold byDate. rewrite Ha, Hb. lia. Qed.

(** X15.  When the date of every stored log reads as a day, both
    readers return their logs most recent day first. *)
Theorem history_most_recent_first env s count :
  map_Forall (λ _ v, hasValidDate v = true) (storage s) →
  ∃ all recent,
    (getAllHistoricalLogs env s).1 = Resolved all ∧
    (getMostRecentLogs count env s).1 = Resolved recent ∧
    StronglySorted notOlder all ∧ StronglySorted notOlder recent.
Proof.
  intros Hvalid.
  assert (Hsorted : ∀ keep logs s',
    readLogs keep (historicalKeys (map_to_list (storage s)).*1
                     (formatDateFromDate (clock env))) [] env s
    = (Resolved logs, s') →
    StronglySorted notOlder (sort byDate logs)).
  { intros keep logs s' Hrun.
    destruct (readLogs_exact keep
                (historicalKeys (map_to_list (storage s)).*1
                   (formatDateFromDate (clock env))) [] env s)
      as (logs' & s'' & Hrun' & _ & Hlogs).
    rewrite Hrun in Hrun'. injection Hrun' as <- <-.
    set (valid := λ log : DailyLog num, is_Some (dateTime (date log))).
    assert (Hall : Forall valid logs).
    { apply Forall_forall. intros log [Hnil|(key & _ & Hlook & _)]%Hlogs;
        [by apply elem_of_nil in Hnil|].
      apply Hvalid in Hlook. simpl in Hlook.
      by apply bool_decide_eq_true in Hlook. }
    assert (Hvalids : Forall valid (sort byDate logs)).
    { apply Forall_forall. intros log Hin%sort_elem.
      by apply (proj1 (Forall_forall _ _) Hall). }
    pose proof (sort_sorted_on byDate valid) as Hs.
    assert (Hbase : StronglySorted (λ a b, byDate a b ≤ 0) (sort byDate logs)).
    { apply Hs; [| |done].
      - intros x y z [tx Hx] [ty Hy] [tz Hz].
        rewrite (byDate_le x y tx ty), (byDate_le y z ty tz),
          (byDate_le x z tx tz) by done. lia.
      - intros x y [tx Hx] [ty Hy].
        rewrite (byDate_le x y tx ty), (byDate_le y x ty tx) by done. lia. }
    clear -Hbase Hvalids.
    induction Hbase as [|a l Hl IH Ha]; [constructor|].
    apply Forall_cons in Hvalids as [[ta Hta] Hvalids].
    constructor; [by apply IH|].
    rewrite Forall_forall in Ha, Hvalids. apply Forall_forall.
    intros b Hb. destruct (Hvalids b Hb) as [tb Htb].
    exists ta, tb. split_and!; [done..|].
    by apply (byDate_le a b ta tb), Ha. }
  unfold getAllHistoricalLogs, getMostRecentLogs. run.
  destruct (faults env GetAllKeys); simpl.
  { exists [], []. split_and!; [done..|constructor|constructor]. }
  destruct (readLogs (λ _, true) _ [] env s) as [[all|e] s1] eqn:Hall;
    [|destruct (readLogs_exact (λ _, true)
        (historicalKeys (map_to_list (storage s)).*1
           (formatDateFromDate (clock env))) [] env s)
        as (? & ? & ? & _); congruence].
  destruct (readLogs (λ log, bool_decide (0 < length (items log))%nat) _ []
              env s) as [[recent|e] s2] eqn:Hrecent;
    [|destruct (readLogs_exact
        (λ log, bool_decide (0 < length (items log))%nat)
        (historicalKeys (map_to_list (storage s)).*1
           (formatDateFromDate (clock env))) [] env s)
        as (? & ? & ? & _); congruence].
  simpl. eexists _, _. split_and!; [done..|by eapply Hsorted|].
  pose proof (Hsorted _ _ _ Hrecent) as Hs.
  unfold slice0. case_bool_decide.
  - match goal with |- StronglySorted _ (take ?n _) =>
      rewrite <- (take_drop n (sort byDate recent)) in Hs end.
    by apply StronglySorted_app_1_l in Hs.
  - rewrite <- (take_drop (Z.to_nat count) (sort byDate recent)) in Hs.
    by apply StronglySorted_app_1_l in Hs.
Qed.

End HistoryContents.

(** * Further properties of the quick-access list *)

Section QuickAccessList.
Context `{Number num}.
Implicit Types (s : App num) (env : Env) (t : TrackedItem num)
  (item : FastAccessItem num) (l : list (FastAccessItem num)).

Lemma tidy_nil : tidy ([] : list (FastAccessItem num)).
Proof. split_and!; [constructor|constructor|simpl; lia]. Qed.

Lemma tidy_perm l l' : l ≡ₚ l' → tidy l → tidy l'.
Proof.
  intros Hperm (Hnodup & Htyped & Hlen).
  split_and!.
  - eapply NoDup_Permutation_proper; [|exact Hnodup].
    symmetry. by apply fmap_Permutation.
  - apply Forall_forall. intros x Hx. rewrite <- Hperm in Hx.
    by apply (proj1 (Forall_forall _ _) Htyped).
  - by rewrite <- Hperm.
Qed.

Lemma tidy_sort l : tidy l → tidy (sort byRecency l).
Proof. apply tidy_perm. symmetry. apply sort_perm. Qed.

Lemma tidy_sublist l l' : l' `sublist_of` l → tidy l → tidy l'.
Proof.
  intros Hsub (Hnodup & Htyped & Hlen). split_and!.
  - eapply sublist_NoDup; [done|]. by apply fmap_sublist.
  - apply Forall_forall. intros x Hx.
    apply (proj1 (Forall_forall _ _) Htyped). by eapply elem_of_sublist.
  - apply sublist_length in Hsub. lia.
Qed.

Lemma wellTyped_fresh t now : wellTyped (fresh t now).
Proof. unfold wellTyped, fresh. simpl. by case_bool_decide. Qed.

(** The entry a pair is found at, in a list without duplicates. *)
Lemma list_find_unique t item l :
  NoDup (pairOf <$> l) → item ∈ l → sameFood t item →
  ∃ i, list_find (sameFood t) l = Some (i, item).
Proof.
  intros Hnodup Hin Hsame.
  destruct (list_find_elem_of (sameFood t) l item Hin Hsame)
    as [[i found] Hfind].
  exists i. rewrite Hfind. do 2 f_equal.
  apply list_find_Some in Hfind as (Hi & [Hname Hplace] & _).
  apply list_elem_of_lookup in Hin as [j Hj].
  destruct Hsame as [Hname' Hplace'].
  assert (i = j) as ->; [|congruence].
  eapply NoDup_lookup; [exact Hnodup|..].
  - rewrite list_lookup_fmap, Hi. done.
  - rewrite list_lookup_fmap, Hj. simpl. unfold pairOf. congruence.
Qed.

Lemma tidy_recordUse t now l : tidy l → tidy (recordUse t now l).
Proof.
  intros (Hnodup & Htyped & Hlen). rewrite recordUse_unfold.
  apply tidy_sort.
  assert (Hupdated : NoDup (pairOf <$> updatedList t now l) ∧
                     Forall wellTyped (updatedList t now l)).
  { unfold updatedList.
    destruct (list_find _ l) as [[i found]|] eqn:Hfind.
    - apply list_find_Some in Hfind as (Hi & _ & _). split.
      + rewrite list_fmap_insert, list_insert_id; [done|].
        by rewrite list_lookup_fmap, Hi.
      + apply Forall_insert; [done|].
        by apply (proj1 (Forall_lookup _ _) Htyped i found).
    - apply list_find_None in Hfind. split.
      + rewrite fmap_cons. constructor; [|done].
        intros (item & Hpair & Hitem)%list_elem_of_fmap.
        rewrite Forall_forall in Hfind. apply (Hfind item Hitem).
        unfold pairOf, sameFood in *. simpl in Hpair. by simplify_eq.
      + constructor; [apply wellTyped_fresh|done]. }
  destruct Hupdated as [Hnodup' Htyped']. split_and!.
  - eapply sublist_NoDup; [exact Hnodup'|].
    apply fmap_sublist, sublist_take.
  - by apply Forall_take.
  - rewrite length_take. lia.
Qed.

(** The list a recorded use starts from: the one in memory, or, with
    nothing in memory, the stored one sorted, or nothing.  The use is
    recorded in memory, and in the storage when the call resolves. *)
Lemma addOrUpdateFastAccessItem_lists t env s :
  let s' := (addOrUpdateFastAccessItem t env s).2 in
  ∃ l,
    (l = fastAccessItems (fastAccessService s) ∨ l = [] ∨
     ∃ l0, storage s !! fastAccessKey = Some (JFast l0) ∧
           l = sort byRecency l0) ∧
    fastAccessItems (fastAccessService s') = recordUse t (now env) l ∧
    (storage s' = storage s ∨
     storage s' = <[fastAccessKey := JFast (recordUse t (now env) l)]>
                    (storage s)) ∧
    ((addOrUpdateFastAccessItem t env s).1 = Resolved () →
     storage s' !! fastAccessKey = Some (JFast (recordUse t (now env) l))).
Proof.
  unfold addOrUpdateFastAccessItem, loadFastAccessItems. run.
  destruct (fastAccessItems (fastAccessService s)) as [|e l] eqn:Hl; simpl.
  - destruct (faults env (GetItem fastAccessKey)); simpl.
    { rewrite Hl. exists [].
      destruct (faults env (SetItem fastAccessKey)); simpl;
        rewrite ?lookup_insert_eq; split_and!; auto; done. }
    destruct (storage s !! fastAccessKey) as [[log|l0|[|c txt]]|] eqn:Hkey;
      simpl; rewrite ?Hl;
      try (exists [];
           destruct (faults env (SetItem fastAccessKey)); simpl;
           rewrite ?lookup_insert_eq; split_and!; auto; done).
    exists (sort byRecency l0).
    destruct (faults env (SetItem fastAccessKey)); simpl;
      rewrite ?lookup_insert_eq; split_and!; eauto; done.
  - exists (e :: l).
    destruct (faults env (SetItem fastAccessKey)); simpl;
      rewrite ?lookup_insert_eq, ?Hl; split_and!; auto; done.
Qed.

Lemma getFastAccessItems_lists env s :
  ∃ l s',
    getFastAccessItems env s = (Resolved l, s') ∧
    fastAccessItems (fastAccessService s') = l ∧
    storage s' = storage s ∧
    nutritionTracker s' = nutritionTracker s ∧
    (l = fastAccessItems (fastAccessService s) ∨
     ∃ l0, fastAccessItems (fastAccessService s) = [] ∧
           faults env (GetItem fastAccessKey) = false ∧
           storage s !! fastAccessKey = Some (JFast l0) ∧
           l = sort byRecency l0).
Proof.
  unfold getFastAccessItems, loadFastAccessItems. run.
  destruct (fastAccessItems (fastAccessService s)) as [|e l] eqn:Hl; simpl.
  - destruct (faults env (GetItem fastAccessKey)) eqn:Hget; simpl.
    { rewrite Hl. eexists _, _. split_and!; [done..|by left]. }
    destruct (storage s !! fastAccessKey) as [[log|l0|[|c txt]]|] eqn:Hkey;
      simpl; rewrite ?Hl; eexists _, _;
      (split_and!; [done..|]); try (by left).
    right. by exists l0.
  - rewrite Hl. eexists _, _. split_and!; [done..|by left].
Qed.

(** X16.  The quick-access list stays tidy.  When the list in memory
    and the stored list have no two entries with the same name and
    restaurant, have type [custom] exactly on the entries of the
    restaurant "Custom Meal" and have at most [maxItems] entries, the
    same holds after a recorded use, after a removal, after a clear and
    after a read, whether their storage calls succeed or fail. *)
Theorem quick_access_stays_tidy t itemId env s :
  tidyState s →
  tidyState (addOrUpdateFastAccessItem t env s).2 ∧
  tidyState (removeFastAccessItem itemId env s).2 ∧
  tidyState (clearAllFastAccessItems env s).2 ∧
  tidyState (getFastAccessItems env s).2.
Proof.
  intros [Hmem Hstored]. split_and!.
  - destruct (addOrUpdateFastAccessItem_lists t env s)
      as (l & Hl & Hmem' & Hsto' & _).
    assert (Htidy : tidy (recordUse t (now env) l)).
    { apply tidy_recordUse.
      destruct Hl as [->|[->|(l0 & Hl0 & ->)]];
        [done|apply tidy_nil|by apply tidy_sort, Hstored]. }
    split; [by rewrite Hmem'|]. intros l1.
    destruct Hsto' as [->| ->]; [apply Hstored|].
    rewrite lookup_insert_eq. intros ?; by simplify_eq.
  - assert (Htidy : tidy (filter (λ item, fa_id item ≠ itemId)
                            (fastAccessItems (fastAccessService s)))).
    { eapply tidy_sublist; [apply sublist_filter|done]. }
    unfold removeFastAccessItem. run.
    destruct (faults env _); simpl; (split; [done|]); [done|].
    intros l1. simpl. rewrite lookup_insert_eq. intros ?; by simplify_eq.
  - unfold clearAllFastAccessItems. run.
    destruct (faults env _); simpl; (split; [apply tidy_nil|]); [done|].
    intros l1. simpl. by rewrite lookup_delete_eq.
  - destruct (getFastAccessItems_lists env s)
      as (l & s' & Hget & Hmem' & Hsto' & _ & Hl).
    rewrite Hget. simpl. split; [|by rewrite Hsto'].
    rewrite Hmem'. destruct Hl as [->|(l0 & _ & _ & Hl0 & ->)]; [done|].
    by apply tidy_sort, Hstored.
Qed.


(** X18.  A clear whose storage call fails rejects and empties the
    list in memory only: the next read finds the stored list again.
    A clear that resolves leaves nothing to read. *)
Theorem clear_then_read env env' s :
  let s' := (clearAllFastAccessItems env s).2 in
  (faults env (RemoveItem fastAccessKey) = false →
     (clearAllFastAccessItems env s).1 = Resolved () ∧
     (getFastAccessItems env' s').1 = Resolved []) ∧
  (faults env (RemoveItem fastAccessKey) = true →
     (clearAllFastAccessItems env s).1
     = Rejected (StorageError (RemoveItem fastAccessKey)) ∧
     fastAccessItems (fastAccessService s') = [] ∧
     ∀ l, storage s !! fastAccessKey = Some (JFast l) →
          faults env' (GetItem fastAccessKey) = false →
          (getFastAccessItems env' s').1 = Resolved (sort byRecency l)).
Proof.
  intros s'. subst s'. unfold clearAllFastAccessItems. run. split.
  - intros ->. simpl. split; [done|].
    unfold getFastAccessItems, loadFastAccessItems. run.
    destruct (faults env' _); simpl; [done|].
    by rewrite lookup_delete_eq.
  - intros ->. simpl. split_and!; [done..|].
    intros l Hl Hread.
    unfold getFastAccessItems, loadFastAccessItems. run.
    by rewrite Hread; simpl; rewrite Hl.
Qed.

End QuickAccessList.

(** * Logging an entry of the quick-access list again *)

Section Relogging.
Context `{Number num}.
Implicit Types (s : App num) (env : Env) (t : TrackedItem num)
  (item : FastAccessItem num) (log : DailyLog num).

(** With both writes working and a list in memory, the block the two
    add methods share resolves: the log is stored and cached, and the
    use is recorded on the list in memory. *)
Lemma saveAndRecord_ok log t env s :
  faults env (SetItem (logKey (currentDate (nutritionTracker s)))) = false →
  faults env (SetItem fastAccessKey) = false →
  fastAccessItems (fastAccessService s) ≠ [] →
  ∃ s',
    saveAndRecord log t env s = (Resolved (), s') ∧
    dailyLog (nutritionTracker s') = Some log ∧
    currentDate (nutritionTracker s') = currentDate (nutritionTracker s) ∧
    storage s' !! logKey (currentDate (nutritionTracker s))
    = Some (JLog log) ∧
    fastAccessItems (fastAccessService s')
    = recordUse t (now env) (fastAccessItems (fastAccessService s)).
Proof.
  intros Hlog Hfast Hne. unfold saveAndRecord. run. rewrite Hlog. simpl.
  match goal with |- context [addOrUpdateFastAccessItem t env ?s2] =>
    pose proof (addOrUpdateFastAccessItem_tracker t env s2) as Htr;
    pose proof (addOrUpdateFastAccessItem_storage t env s2
                  (logKey (currentDate (nutritionTracker s)))
                  (fastAccessKey_not_log _)) as Hst;
    destruct (addOrUpdateFastAccessItem_cache t env s2 (or_introl Hne))
      as [Hc Hw];
    destruct (Hw Hfast) as [Hres _];
    destruct (addOrUpdateFastAccessItem t env s2) as [r s3]
  end.
  simpl in *. subst r. eexists. split; [done|].
  rewrite Htr, Hst, Hc. simpl. by rewrite lookup_insert_eq.
Qed.

(** With today's log in the cache, the refresh of the hook reads it
    and changes nothing. *)
Lemma loadData_cached env s log :
  currentDate (nutritionTracker s) = formatDateFromDate (clock env) →
  dailyLog (nutritionTracker s) = Some log →
  date log = formatDateFromDate (clock env) →
  useNutritionTracker.loadData env s = (Resolved (), s).
Proof.
  intros Hcur Hlog Hdate.
  unfold useNutritionTracker.loadData, getTodaysNutrition, getTodaysItems.
  run. by rewrite !(loadTodaysLog_cached env s log).
Qed.

(** X19.  Pressing an entry of a tidy quick-access list logs it
    again and refreshes that very entry.  With the two writes working,
    the handler resolves, today's log gets one more item with the name
    and the restaurant of the entry, stored and cached, and the list
    keeps its entries, the pressed one refreshed in place before the
    sort.  A restaurant entry goes through the menu-item path, where a
    falsy amount is read as zero; a custom entry keeps its amounts. *)
Theorem press_relogs_entry item env s :
  let today := formatDateFromDate (clock env) in
  let l := fastAccessItems (fastAccessService s) in
  let s' := (handleFastAccessItemPress item env s).2 in
  keyedByDate (storage s) →
  tidy l → item ∈ l →
  faults env (SetItem (logKey today)) = false →
  faults env (SetItem fastAccessKey) = false →
  ∃ log t i,
    (loadTodaysLog env s).1 = Resolved log ∧
    (handleFastAccessItemPress item env s).1 = Resolved () ∧
    dailyLog (nutritionTracker s') = Some (pushItem log t) ∧
    storage s' !! logKey today = Some (JLog (pushItem log t)) ∧
    ti_name t = fa_name item ∧
    ti_restaurant t = fa_restaurant item ∧
    ti_calories t = (if bool_decide (fa_type item = custom)
                     then fa_calories item else orZero (fa_calories item)) ∧
    l !! i = Some item ∧
    fastAccessItems (fastAccessService s')
    ≡ₚ <[i := refreshed item t (now env)]> l.
Proof.
  intros today l s' Hkeyed (Hnodup & Htyped & Hlen) Hin Hlog Hfast.
  subst s'.
  destruct (loadTodaysLog_resolves env s)
    as (log & s1 & Hload & Hcache & Hcur & _ & Hsto & Hfa & _).
  pose proof (loadTodaysLog_date env s log s1 Hkeyed Hload) as Hdate.
  assert (Hne : l ≠ []) by (intros Hnil; rewrite Hnil in Hin; inversion Hin).
  assert (Hpress : ∀ t (m : Async num unit) msg,
    ti_name t = fa_name item → ti_restaurant t = fa_restaurant item →
    m env s = saveAndRecord (pushItem log t) t env
                (setDailyLog (Some (pushItem log t)) env s1).2 →
    ∃ s3 i,
      tryCatch (m ;;; useNutritionTracker.loadData)
        (λ error, console_error msg ;;; throw error) env s
      = (Resolved (), s3) ∧
      dailyLog (nutritionTracker s3) = Some (pushItem log t) ∧
      storage s3 !! logKey today = Some (JLog (pushItem log t)) ∧
      l !! i = Some item ∧
      fastAccessItems (fastAccessService s3)
      ≡ₚ <[i := refreshed item t (now env)]> l).
  { intros t m msg Hname Hplace Hm.
    destruct (saveAndRecord_ok (pushItem log t) t env
                (setDailyLog (Some (pushItem log t)) env s1).2)
      as (s3 & Hsave & Hlog3 & Hcur3 & Hsto3 & Hfa3).
    - simpl. by rewrite Hcur.
    - done.
    - simpl. by rewrite Hfa.
    - simpl in Hcur3, Hsto3, Hfa3. rewrite Hcur in Hcur3, Hsto3.
      rewrite Hfa in Hfa3.
      destruct (list_find_unique t item l Hnodup Hin) as [i Hfind];
        [by split|].
      exists s3, i. unfold andThen, tryCatch. rewrite Hm, Hsave.
      rewrite (loadData_cached env s3 (pushItem log t)) by done.
      split_and!; try done.
      + by apply list_find_Some in Hfind as (? & _).
      + rewrite Hfa3. by apply recordUse_refresh. }
  destruct (decide (fa_type item = custom)) as [Htype|Htype].
  - pose proof (proj1 (proj1 (Forall_forall _ _) Htyped item Hin) Htype)
      as Hplace.
    destruct (Hpress
      {| ti_id := pretty (now env) +:+ "_" +:+ random env;
         ti_name := fa_name item; ti_restaurant := "Custom Meal";
         ti_calories := fa_calories item; ti_protein := fa_protein item;
         ti_carbs := fa_carbs item; ti_fat := fa_fat item;
         ti_fiber := fa_fiber item; ti_sugar := fa_sugar item;
         ti_sodium := fa_sodium item;
         ti_serving_size := fa_serving_size item;
         ti_timestamp := now env |}
      (addCustomMeal
         {| cm_name := fa_name item; cm_calories := fa_calories item;
            cm_protein := fa_protein item; cm_carbs := fa_carbs item;
            cm_fat := fa_fat item; cm_fiber := fa_fiber item;
            cm_sugar := fa_sugar item; cm_sodium := fa_sodium item;
            cm_serving_size := fa_serving_size item |})
      "Error adding custom meal:" eq_refl (eq_sym Hplace))
      as (s3 & i & Hrun & Hlog3 & Hsto3 & Hi & Hperm).
    { unfold addCustomMeal, generateItemId. run. rewrite Hload. simpl.
      reflexivity. }
    assert (Heq : handleFastAccessItemPress item env s = (Resolved (), s3)).
    { unfold handleFastAccessItemPress, fastAccessItemToTrackedItem.
      unfold tryCatch at 1. unfold andThen at 1. unfold getEnv at 1.
      unfold andThen at 1. unfold resolve at 1.
      rewrite bool_decide_true by done.
      unfold useNutritionTracker.addCustomMeal. by rewrite Hrun. }
    eexists _, _, i. rewrite Heq, Hload, bool_decide_true by done.
    simpl. by split_and!.
  - destruct (Hpress
      {| ti_id := pretty (now env) +:+ "_" +:+ random env;
         ti_name := fa_name item; ti_restaurant := fa_restaurant item;
         ti_calories := orZero (fa_calories item);
         ti_protein := orZero (fa_protein item);
         ti_carbs := orZero (fa_carbs item);
         ti_fat := orZero (fa_fat item);
         ti_fiber := orZero (fa_fiber item);
         ti_sugar := orZero (fa_sugar item);
         ti_sodium := orZero (fa_sodium item);
         ti_serving_size := fa_serving_size item;
         ti_timestamp := now env |}
      (addMenuItem (simulatedMenuItem item) (fa_restaurant item))
      "Error adding item:" eq_refl eq_refl)
      as (s3 & i & Hrun & Hlog3 & Hsto3 & Hi & Hperm).
    { unfold addMenuItem, extractNutritionFromMenuItem, generateItemId. run.
      rewrite Hload. simpl. reflexivity. }
    assert (Heq : handleFastAccessItemPress item env s = (Resolved (), s3)).
    { unfold handleFastAccessItemPress, fastAccessItemToTrackedItem.
      unfold tryCatch at 1. unfold andThen at 1. unfold getEnv at 1.
      unfold andThen at 1. unfold resolve at 1.
      rewrite bool_decide_false by done.
      unfold useNutritionTracker.addItem. by rewrite Hrun. }
    eexists _, _, i. rewrite Heq, Hload, bool_decide_false by done.
    simpl. by split_and!.
Qed.

End Relogging.

(** * The background timestamp *)

Section Decimal.

(** The value of a decimal digit as [parseInt] reads it. *)
Lemma digitIn_pretty_N_char (x : N) :
  (x < 10)%N → digitIn 10 (pretty_N_char x) = Some (Z.of_N x).
Proof.
  intros Hx.
  assert (x = 0 ∨ x = 1 ∨ x = 2 ∨ x = 3 ∨ x = 4 ∨ x = 5 ∨ x = 6 ∨ x = 7
          ∨ x = 8 ∨ x = 9)%N as Hcases by lia.
  destruct_or!; subst; done.
Qed.

(** The digits of a positive number start with a digit that is not
    zero, and are read back as the number, after whatever was read
    before. *)
Lemma pretty_N_go_read (x : N) :
  (0 < x)%N →
  ∃ k : nat, ∀ s a,
    (∃ c rest,
       pretty_N_go x s = String c rest ∧
       c ∈ ["1"; "2"; "3"; "4"; "5"; "6"; "7"; "8"; "9"]%char) ∧
    readDigits 10 (pretty_N_go x s) a
    = readDigits 10 s (Some (default 0 a * 10 ^ Z.of_nat k + Z.of_N x)).
Proof.
  induction (N.lt_wf_0 x) as [x _ IH]. intros Hpos.
  destruct (decide (x < 10)%N) as [Hsmall|Hbig].
  - exists 1%nat. intros s a. rewrite pretty_N_go_step by done.
    rewrite N.div_small, N.mod_small, pretty_N_go_0 by done. split.
    + eexists _, _. split; [done|].
      assert (x = 1 ∨ x = 2 ∨ x = 3 ∨ x = 4 ∨ x = 5 ∨ x = 6 ∨ x = 7
              ∨ x = 8 ∨ x = 9)%N as Hcases by lia.
      destruct_or!; subst; simpl;
        repeat (first [by constructor 1|constructor 2]).
    + cbn [readDigits]. rewrite digitIn_pretty_N_char by done.
      do 2 f_equal; lia.
  - destruct (IH (x `div` 10)%N) as [k Hk].
    + apply N.div_lt; lia.
    + apply N.div_str_pos. lia.
    + exists (S k). intros s a. rewrite pretty_N_go_step by done.
      destruct (Hk (String (pretty_N_char (x `mod` 10)) s) a)
        as [Hhead Hread].
      split; [done|]. rewrite Hread. cbn [readDigits].
      rewrite digitIn_pretty_N_char by (apply N.mod_lt; lia).
      do 2 f_equal. simpl default.
      rewrite Nat2Z.inj_succ, Z.pow_succ_r by lia.
      rewrite N2Z.inj_div, N2Z.inj_mod.
      pose proof (Z.div_mod (Z.of_N x) 10). lia.
Qed.

(** [parseInt(n.toString())] is [n]. *)
Lemma parseIntZ_pretty (n : Z) : parseIntZ (pretty n) = Some n.
Proof.
  assert (Hpos : ∀ p,
    ∃ c rest,
      pretty (N.pos p) = String c rest ∧
      c ∈ ["1"; "2"; "3"; "4"; "5"; "6"; "7"; "8"; "9"]%char ∧
      readDigits 10 (String c rest) None = Some (Z.pos p)).
  { intros p. destruct (pretty_N_go_read (N.pos p)) as [k Hk]; [lia|].
    destruct (Hk EmptyString None) as [(c & rest & Hs & Hc) Hread].
    exists c, rest. unfold pretty, pretty_N. rewrite decide_False by done.
    split_and!; [done..|]. rewrite <- Hs, Hread. simpl. f_equal; lia. }
  destruct n as [|p|p]; [done|..].
  - destruct (Hpos p) as (c & rest & Hs & Hc & Hread).
    change (pretty (Z.pos p)) with (pretty (N.pos p)). rewrite Hs.
    set_unfold. destruct_or!; try done; subst c;
      unfold parseIntZ; cbn [skipWhiteSpace isWhiteSpace]; simpl;
      simpl in Hread; rewrite Hread; simpl; f_equal; lia.
  - destruct (Hpos p) as (c & rest & Hs & Hc & Hread).
    change (pretty (Z.neg p)) with ("-" +:+ pretty (N.pos p)). rewrite Hs.
    set_unfold. destruct_or!; try done; subst c;
      unfold parseIntZ; cbn [skipWhiteSpace isWhiteSpace]; simpl;
      simpl in Hread; rewrite Hread; simpl; f_equal; lia.
Qed.

End Decimal.

Section BackgroundTimestamp.
Context `{Number num}.
Implicit Types (s : App num) (env : Env).

(** A stored timestamp that reads as an instant is removed by the
    foreground check, when the storage works. *)
Lemma checkForDateChangeFromBackground_removes env s v :
  storage s !! backgroundKey = Some v →
  nonEmpty v = true →
  faults env (GetItem backgroundKey) = false →
  faults env (RemoveItem backgroundKey) = false →
  is_Some (isoDay (now env)) →
  is_Some (storedTimestamp v ≫= isoDay) →
  storage (checkForDateChangeFromBackground env s).2 !! backgroundKey = None.
Proof.
  intros Hstored Htext Hget Hrem [today Htoday] [day Hday].
  unfold checkForDateChangeFromBackground, toISODay. run.
  rewrite Hget. simpl. rewrite Hstored, Htext. simpl.
  rewrite Hday. simpl. rewrite Htoday. simpl.
  destruct (checkForDateChange_resolves env s) as [b Hb].
  destruct (bool_decide (day ≠ today)); simpl;
    destruct (checkForDateChange env s) as [r s1]; simpl in Hb; subst r;
    simpl; rewrite Hrem; simpl; apply lookup_delete_eq.
Qed.

(** X20.  The timestamp written when the app goes to the background
    is the decimal text of the instant, which the foreground check
    reads back as that instant; with a working storage the check then
    removes it, so that the next return to the foreground finds
    none. *)
Theorem background_timestamp_round_trip env env' s :
  let s1 := (saveBackgroundTimestamp env s).2 in
  let s2 := (checkForDateChangeFromBackground env' s1).2 in
  faults env (SetItem backgroundKey) = false →
  faults env' (GetItem backgroundKey) = false →
  faults env' (RemoveItem backgroundKey) = false →
  is_Some (isoDay (now env)) →
  is_Some (isoDay (now env')) →
  (saveBackgroundTimestamp env s).1 = Resolved () ∧
  storedTimestamp <$> storage s1 !! backgroundKey = Some (Some (now env)) ∧
  storage s2 !! backgroundKey = None.
Proof.
  intros s1 s2 Hset Hget Hrem Hthen Hnow.
  assert (Hsaved : (saveBackgroundTimestamp env s).1 = Resolved () ∧
                   storage s1 !! backgroundKey
                   = Some (JText (pretty (now env)))).
  { subst s1. unfold saveBackgroundTimestamp. run. rewrite Hset. simpl.
    by rewrite lookup_insert_eq. }
  destruct Hsaved as [Hres Hsaved]. split_and!; [done|..].
  - rewrite Hsaved. simpl. by rewrite parseIntZ_pretty.
  - subst s2.
    apply (checkForDateChangeFromBackground_removes env' s1 _ Hsaved);
      try done.
    + pose proof (parseIntZ_pretty (now env)) as Hparse.
      simpl. by destruct (pretty (now env)).
    + simpl. by rewrite parseIntZ_pretty.
Qed.

End BackgroundTimestamp.

(** * The day strings *)

Section DayStrings.

Lemma digitValue_pretty_N_char (x : N) :
  (x < 10)%N → digitValue (pretty_N_char x) = Some (Z.of_N x).
Proof.
  intros Hx.
  assert (x = 0 ∨ x = 1 ∨ x = 2 ∨ x = 3 ∨ x = 4 ∨ x = 5 ∨ x = 6 ∨ x = 7
          ∨ x = 8 ∨ x = 9)%N as Hcases by lia.
  destruct_or!; subst; done.
Qed.

(** A year of four digits is written with its four digits. *)
Lemma pretty_year (y : Z) :
  1000 ≤ y ≤ 9999 →
  ∃ a b c e,
    pretty y = String a (String b (String c (String e EmptyString))) ∧
    digitValue a = Some (y `div` 1000) ∧
    digitValue b = Some ((y `div` 100) `mod` 10) ∧
    digitValue c = Some ((y `div` 10) `mod` 10) ∧
    digitValue e = Some (y `mod` 10).
Proof.
  intros Hy. destruct y as [|p|p]; [lia| |lia].
  change (pretty (Z.pos p)) with (pretty (N.pos p)).
  unfold pretty, pretty_N. rewrite decide_False by done.
  set (x := N.pos p). assert (1000 ≤ x ≤ 9999)%N as Hx by lia.
  assert (Hz : Z.pos p = Z.of_N x) by done. rewrite Hz. clearbody x. clear Hz.
  assert (0 < x `div` 10 ∧ 0 < (x `div` 10) `div` 10 ∧
          0 < ((x `div` 10) `div` 10) `div` 10 ∧
          (((x `div` 10) `div` 10) `div` 10) `div` 10 = 0)%N as (H1 & H2 & H3 & H4).
  { rewrite !N.Div0.div_div. simpl.
    split_and!; try apply N.div_str_pos; try apply N.div_small; lia. }
  rewrite (pretty_N_go_step x) by lia.
  rewrite (pretty_N_go_step (x `div` 10)) by done.
  rewrite (pretty_N_go_step ((x `div` 10) `div` 10)) by done.
  rewrite (pretty_N_go_step (((x `div` 10) `div` 10) `div` 10)) by done.
  rewrite H4, pretty_N_go_0.
  eexists _, _, _, _. split; [done|].
  rewrite !digitValue_pretty_N_char by (apply N.mod_lt; lia).
  rewrite !N2Z.inj_mod, !N2Z.inj_div. simpl Z.of_N.
  split_and!; f_equal; Z.to_euclidean_division_equations; lia.
Qed.

(** A month or a day of the month is written with two digits. *)
Lemma padStart2_pretty (n : Z) :
  1 ≤ n ≤ 99 →
  ∃ a b,
    padStart2 (pretty n) = String a (String b EmptyString) ∧
    digitValue a = Some (n `div` 10) ∧
    digitValue b = Some (n `mod` 10).
Proof.
  intros Hn. destruct n as [|p|p]; [lia| |lia].
  change (pretty (Z.pos p)) with (pretty (N.pos p)).
  unfold pretty, pretty_N. rewrite decide_False by done.
  set (x := N.pos p). assert (1 ≤ x ≤ 99)%N as Hx by lia.
  assert (Hz : Z.pos p = Z.of_N x) by done. rewrite Hz. clearbody x. clear Hz.
  rewrite (pretty_N_go_step x) by lia.
  destruct (decide (x < 10)%N) as [Hsmall|Hbig].
  - rewrite N.div_small, N.mod_small, pretty_N_go_0 by done. simpl.
    eexists _, _. split; [done|].
    rewrite digitValue_pretty_N_char by done.
    rewrite Z.div_small, Z.mod_small by lia. done.
  - rewrite (pretty_N_go_step (x `div` 10))
      by (apply N.div_str_pos; lia).
    replace ((x `div` 10) `div` 10)%N with 0%N
      by (symmetry; rewrite N.Div0.div_div; apply N.div_small; lia).
    rewrite pretty_N_go_0. simpl.
    eexists _, _. split; [done|].
    rewrite !digitValue_pretty_N_char by (apply N.mod_lt; lia).
    rewrite !N2Z.inj_mod, !N2Z.inj_div. simpl Z.of_N.
    split; f_equal; Z.to_euclidean_division_equations; lia.
Qed.

(** The string of a day of the calendar is read as that day. *)
Lemma dateTime_formatDateFromDate (d : LocalDate) :
  isCalendarDay d = true →
  dateTime (formatDateFromDate d)
  = Some (daysFromCivil (getFullYear d) (getMonth d + 1) (getDate d)
          * 86400000).
Proof.
  intros (Hy & Hm & Hd)%bool_decide_eq_true.
  assert (daysInMonth (getFullYear d) (getMonth d) ≤ 31) as Hlen.
  { unfold daysInMonth. repeat case_match; lia. }
  destruct (pretty_year (getFullYear d) Hy)
    as (a & b & c & e & Hyear & Ha & Hb & Hc & He).
  destruct (padStart2_pretty (getMonth d + 1))
    as (f & g & Hmonth & Hf & Hg); [lia|].
  destruct (padStart2_pretty (getDate d))
    as (h & i & Hday & Hh & Hi); [lia|].
  unfold formatDateFromDate. rewrite Hyear, Hmonth, Hday. simpl.
  rewrite Ha, Hb, Hc, He, Hf, Hg, Hh, Hi. simpl.
  rewrite bool_decide_true
    by (Z.to_euclidean_division_equations; lia).
  do 3 f_equal; Z.to_euclidean_division_equations; lia.
Qed.

Lemma daysFromCivil_day y m d :
  daysFromCivil y m d = daysFromCivil y m 1 + (d - 1).
Proof. unfold daysFromCivil. Z.to_euclidean_division_equations; lia. Qed.

Lemma daysFromCivil_next_month y m :
  0 ≤ m ≤ 10 →
  daysFromCivil y (m + 2) 1 = daysFromCivil y (m + 1) 1 + daysInMonth y m.
Proof.
  intros Hm.
  assert (m = 0 ∨ m = 1 ∨ m = 2 ∨ m = 3 ∨ m = 4 ∨ m = 5 ∨ m = 6 ∨ m = 7
          ∨ m = 8 ∨ m = 9 ∨ m = 10) as Hcases by lia.
  destruct_or!; subst;
    unfold daysFromCivil, daysInMonth, isLeapYear; simpl;
    repeat case_bool_decide; Z.to_euclidean_division_equations; lia.
Qed.

Lemma daysInMonth_pos y m : 28 ≤ daysInMonth y m.
Proof. unfold daysInMonth. repeat case_match; lia. Qed.

(** A later month of the same year starts after the earlier month
    ends. *)
Lemma daysFromCivil_later_month y m1 (n : nat) :
  0 ≤ m1 → m1 + 1 + Z.of_nat n ≤ 11 →
  daysFromCivil y (m1 + 1) 1 + daysInMonth y m1
  ≤ daysFromCivil y (m1 + 1 + Z.of_nat n + 1) 1.
Proof.
  intros Hm1. induction n as [|n IH]; intros Hm2.
  - replace (m1 + 1 + Z.of_nat 0 + 1) with (m1 + 2) by lia.
    rewrite daysFromCivil_next_month by lia. lia.
  - replace (m1 + 1 + Z.of_nat (S n) + 1)
      with (m1 + 1 + Z.of_nat n + 2) by lia.
    rewrite daysFromCivil_next_month by lia.
    pose proof (daysInMonth_pos y (m1 + 1 + Z.of_nat n)).
    specialize (IH ltac:(lia)). lia.
Qed.

Lemma daysFromCivil_next_year y1 y2 :
  y1 < y2 → daysFromCivil y1 12 31 < daysFromCivil y2 1 1.
Proof.
  intros Hy. unfold daysFromCivil. simpl.
  Z.to_euclidean_division_equations; lia.
Qed.

(** The days of the calendar are counted in their order. *)
Lemma daysFromCivil_earlier (a b : LocalDate) :
  isCalendarDay a = true → isCalendarDay b = true →
  earlier a b →
  daysFromCivil (getFullYear a) (getMonth a + 1) (getDate a)
  < daysFromCivil (getFullYear b) (getMonth b + 1) (getDate b).
Proof.
  intros (_ & Hma & Hda)%bool_decide_eq_true
         (_ & Hmb & Hdb)%bool_decide_eq_true.
  destruct a as [ya ma da], b as [yb mb db]. simpl in *.
  assert (Hmonths : ∀ y m1 m2 d1 d2,
    0 ≤ m1 → m1 < m2 ≤ 11 → d1 ≤ daysInMonth y m1 → 1 ≤ d2 →
    daysFromCivil y (m1 + 1) d1 < daysFromCivil y (m2 + 1) d2).
  { intros y m1 m2 d1 d2 H1 H2 Hd1 Hd2.
    pose proof (daysFromCivil_later_month y m1 (Z.to_nat (m2 - m1 - 1)) H1
                  ltac:(lia)) as Hlater.
    replace (m1 + 1 + Z.of_nat (Z.to_nat (m2 - m1 - 1)) + 1)
      with (m2 + 1) in Hlater by lia.
    rewrite (daysFromCivil_day y (m1 + 1) d1),
      (daysFromCivil_day y (m2 + 1) d2). lia. }
  assert (Hfirst : ∀ y m d,
    0 ≤ m ≤ 11 → 1 ≤ d → daysFromCivil y 1 1 ≤ daysFromCivil y (m + 1) d).
  { intros y m d Hm Hd. destruct (decide (m = 0)) as [->|Hne].
    - change (0 + 1) with 1. rewrite (daysFromCivil_day y 1 d). lia.
    - pose proof (Hmonths y 0 m 1 d ltac:(lia) ltac:(lia)
                    ltac:(pose proof (daysInMonth_pos y 0); lia) Hd) as Hlt.
      change (0 + 1) with 1 in Hlt. lia. }
  assert (Hlast : ∀ y m d,
    0 ≤ m ≤ 11 → d ≤ daysInMonth y m →
    daysFromCivil y (m + 1) d ≤ daysFromCivil y 12 31).
  { intros y m d Hm Hd. destruct (decide (m = 11)) as [->|Hne].
    - change (11 + 1) with 12.
      rewrite (daysFromCivil_day y 12 d), (daysFromCivil_day y 12 31).
      unfold daysInMonth in Hd. simpl in Hd. lia.
    - pose proof (Hmonths y m 11 d 31 ltac:(lia) ltac:(lia) Hd ltac:(lia))
        as Hlt.
      change (11 + 1) with 12 in Hlt. lia. }
  unfold earlier. simpl. intros [Hyear|[-> [Hmonth|[-> Hday]]]].
  - pose proof (Hlast ya ma da Hma ltac:(lia)).
    pose proof (Hfirst yb mb db Hmb ltac:(lia)).
    pose proof (daysFromCivil_next_year ya yb Hyear). lia.
  - apply Hmonths; lia.
  - rewrite (daysFromCivil_day yb (mb + 1) da),
      (daysFromCivil_day yb (mb + 1) db). lia.
Qed.

(** X21.  The string [getTodayString] builds from a clock is read
    back by [new Date] as the day of the clock: for days of the
    calendar in years of four digits, two clocks give the same string
    exactly when they read the same day, and the comparison of the
    rollover check holds exactly when the first day is before the
    second. *)
Theorem day_strings_follow_the_calendar (a b : LocalDate) :
  isCalendarDay a = true → isCalendarDay b = true →
  (formatDateFromDate a = formatDateFromDate b ↔ a = b) ∧
  (dateObjLt (formatDateFromDate a) (formatDateFromDate b) = true
   ↔ earlier a b).
Proof.
  intros Ha Hb.
  pose proof (dateTime_formatDateFromDate a Ha) as Hta.
  pose proof (dateTime_formatDateFromDate b Hb) as Htb.
  assert (Hcases : earlier a b ∨ a = b ∨ earlier b a).
  { destruct a as [ya ma da], b as [yb mb db]. unfold earlier. simpl.
    destruct (decide (ya = yb ∧ ma = mb ∧ da = db))
      as [(-> & -> & ->)|Hne]; [by right; left|].
    destruct (decide (ya < yb ∨ ya = yb ∧ (ma < mb ∨ ma = mb ∧ da < db)));
      [by left|right; right; lia]. }
  assert (Hirrefl : ∀ c, ¬ earlier c c) by (unfold earlier; intros c; lia).
  assert (Hasym : earlier a b → earlier b a → False)
    by (unfold earlier; lia).
  split.
  - split; [|by intros ->]. intros Heq.
    destruct Hcases as [Hlt|[?|Hlt]]; [|done|].
    + pose proof (daysFromCivil_earlier a b Ha Hb Hlt).
      rewrite Heq in Hta. rewrite Hta in Htb. simplify_eq. lia.
    + pose proof (daysFromCivil_earlier b a Hb Ha Hlt).
      rewrite Heq in Hta. rewrite Hta in Htb. simplify_eq. lia.
  - unfold dateObjLt. rewrite Hta, Htb. rewrite bool_decide_eq_true.
    split.
    + intros Hlt. destruct Hcases as [?|[->|Hgt]]; [done|lia|].
      pose proof (daysFromCivil_earlier b a Hb Ha Hgt). lia.
    + intros Hlt. pose proof (daysFromCivil_earlier a b Ha Hb Hlt). lia.
Qed.

End DayStrings.

(** * The hook and the views *)

Section HookOutcome.
Context `{Number num}.
Implicit Types (s : App num) (env : Env).

(** The refresh of the hook reads today's log twice and nothing else:
    it resolves and leaves the storage alone. *)
Lemma loadData_resolves env s :
  ∃ s', useNutritionTracker.loadData env s = (Resolved (), s') ∧
        storage s' = storage s.
Proof.
  unfold useNutritionTracker.loadData, getTodaysNutrition, getTodaysItems.
  unfold tryCatch, andThen.
  destruct (loadTodaysLog_resolves env s)
    as (log & s1 & -> & _ & _ & _ & Hsto1 & _).
  unfold resolve at 1.
  destruct (loadTodaysLog_resolves env s1)
    as (log' & s2 & -> & _ & _ & _ & Hsto2 & _).
  unfold resolve. eexists. split; [done|]. congruence.
Qed.

(** A call of the service followed by the refresh, in the [try] of the
    hook: the outcome and the storage are those of the call. *)
Lemma hook_outcome (call : Async num unit) msg env s :
  let wrapped :=
    tryCatch (call ;;; useNutritionTracker.loadData)
      (λ error, console_error msg ;;; throw error) in
  (wrapped env s).1 = (call env s).1 ∧
  storage (wrapped env s).2 = storage (call env s).2.
Proof.
  unfold tryCatch, andThen.
  destruct (call env s) as [[[]|e] s1]; simpl; [|done].
  by destruct (loadData_resolves env s1) as (s2 & -> & Hsto).
Qed.

(** X22.  Each of the four functions the hook hands to the views
    ends as the method of the service it calls: it resolves when the
    method resolves and rejects with the same error when the method
    rejects, and it leaves the storage as the method left it.  The
    refresh that follows a success never turns it into a failure. *)
Theorem hook_reports_the_service_outcome menuItem place customMeal itemId
    env s :
  ((useNutritionTracker.addItem menuItem place env s).1
   = (addMenuItem menuItem place env s).1 ∧
   storage (useNutritionTracker.addItem menuItem place env s).2
   = storage (addMenuItem menuItem place env s).2) ∧
  ((useNutritionTracker.addCustomMeal customMeal env s).1
   = (addCustomMeal customMeal env s).1 ∧
   storage (useNutritionTracker.addCustomMeal customMeal env s).2
   = storage (addCustomMeal customMeal env s).2) ∧
  ((useNutritionTracker.removeItem itemId env s).1
   = (removeItem itemId env s).1 ∧
   storage (useNutritionTracker.removeItem itemId env s).2
   = storage (removeItem itemId env s).2) ∧
  ((useNutritionTracker.clearAll env s).1 = (clearTodaysLog env s).1 ∧
   storage (useNutritionTracker.clearAll env s).2
   = storage (clearTodaysLog env s).2).
Proof.
  split_and!.
  - apply (hook_outcome (addMenuItem menuItem place)).
  - apply (hook_outcome (addMenuItem menuItem place)).
  - apply (hook_outcome (addCustomMeal customMeal)).
  - apply (hook_outcome (addCustomMeal customMeal)).
  - apply (hook_outcome (removeItem itemId)).
  - apply (hook_outcome (removeItem itemId)).
  - apply (hook_outcome clearTodaysLog).
  - apply (hook_outcome clearTodaysLog).
Qed.

(** X23.  In a tidy state the two views of the quick-access list
    split it by restaurant: [getCustomMeals] returns the entries filed
    under "Custom Meal", [getRecentRestaurantItems] the others, each in
    the order of the list [getFastAccessItems] returns. *)
Theorem quick_access_views_split env s :
  tidyState s →
  ∃ l,
    (getFastAccessItems env s).1 = Resolved l ∧
    (getCustomMeals env s).1
    = Resolved (filter (λ item, fa_restaurant item = "Custom Meal") l) ∧
    (getRecentRestaurantItems env s).1
    = Resolved (filter (λ item, fa_restaurant item ≠ "Custom Meal") l).
Proof.
  intros [Hmem Hstored].
  destruct (getFastAccessItems_lists env s)
    as (l & s' & Hget & _ & _ & _ & Hl).
  assert (Htyped : Forall wellTyped l).
  { destruct Hl as [->|(l0 & _ & _ & Hl0 & ->)]; [apply Hmem|].
    apply (tidy_sort l0), Hstored, Hl0. }
  exists l. unfold getCustomMeals, getRecentRestaurantItems, andThen.
  rewrite Hget. simpl. unfold resolve. simpl.
  clear -Htyped. split_and!; [done|..]; f_equal.
  - induction Htyped as [|item l Hitem _ IH]; [done|].
    rewrite !filter_cons, IH.
    destruct (decide (fa_type item = custom)) as [Hc|Hc],
      (decide (fa_restaurant item = "Custom Meal")) as [Hr|Hr];
      try done; by destruct Hitem as [??]; exfalso; auto.
  - induction Htyped as [|item l Hitem _ IH]; [done|].
    rewrite !filter_cons, IH.
    destruct (decide (fa_type item = restaurant)) as [Hc|Hc],
      (decide (fa_restaurant item ≠ "Custom Meal")) as [Hr|Hr];
      try done; destruct Hitem as [H1 H2]; exfalso.
    + apply dec_stable in Hr. specialize (H2 Hr). congruence.
    + destruct (fa_type item); [|done]. by apply Hr, H1.
Qed.

End HookOutcome.

Section Expansion.
Context {num : Type}.
Implicit Types (days : list (HistoryDay num)).

(** X24.  Toggling the expansion of a date twice gives the list of
    days back.  One toggle keeps the days, their order, dates and logs;
    it flips [isExpanded] on every day of that date and on no other. *)
Theorem toggleDayExpansion_twice dateString days :
  toggleDayExpansion dateString (toggleDayExpansion dateString days) = days ∧
  Forall2 (λ day day',
             hd_date day' = hd_date day ∧
             displayDate day' = displayDate day ∧
             hd_log day' = hd_log day ∧
             isExpanded day' =
               (if bool_decide (hd_date day = dateString)
                then negb (isExpanded day) else isExpanded day))
    days (toggleDayExpansion dateString days).
Proof.
  unfold toggleDayExpansion. split.
  - rewrite <- list_fmap_compose. rewrite <- (list_fmap_id days) at 2.
    apply list_fmap_ext. intros i [d dd log b] _. simpl.
    unfold compose. simpl.
    destruct (decide (d = dateString)) as [Hd|Hd].
    + rewrite (bool_decide_true (d = dateString)) by done. simpl.
      rewrite bool_decide_true by done. by rewrite negb_involutive.
    + rewrite (bool_decide_false (d = dateString)) by done. simpl.
      by rewrite bool_decide_false.
  - apply Forall2_fmap_r, Forall_Forall2_diag, Forall_forall.
    intros day _. simpl.
    destruct (decide (hd_date day = dateString)) as [Hd|Hd];
      [rewrite !(bool_decide_true (hd_date day = dateString)) by done
      |rewrite !(bool_decide_false (hd_date day = dateString)) by done];
      done.
Qed.

End Expansion.

(** * The further properties on the scenarios *)

Import MoreScenarios.

Lemma keyedByDate_twoMeals : keyedByDate (storage twoMeals).
Proof.
  apply (keyedByDate_mutate (Log (OpAddCustomMeal (meal "Rice" 200)))).
  apply (keyedByDate_mutate (Log (OpAddCustomMeal (meal "Oats" 300)))).
  apply keyedByDate_empty.
Qed.

Lemma tidyState_twoMeals : tidyState twoMeals.
Proof.
  assert (Hstored : storage twoMeals !! fastAccessKey
                    = Some (JFast (fastAccessItems (fastAccessService twoMeals))))
    by (vm_compute; reflexivity).
  assert (Htidy : tidy (fastAccessItems (fastAccessService twoMeals)))
    by (apply (bool_decide_unpack _); vm_compute; exact I).
  split; [exact Htidy|]. intros l Hl. rewrite Hstored in Hl.
  assert (Heq : fastAccessItems (fastAccessService twoMeals) = l)
    by exact (f_equal (λ o, match o with
                            | Some (JFast l') => l'
                            | _ => l
                            end) Hl).
  rewrite <- Heq. exact Htidy.
Qed.

Lemma removeItem_absent_id_witness :
  (loadTodaysLog noon twoMeals).1 = Resolved twoMealsLog ∧
  Forall (λ item, ti_id item ≠ "nobody") (items twoMealsLog) ∧
  (removeItem "nobody" noon twoMeals).1 = Resolved () ∧
  ti_name <$> items twoMealsLog = ["Oats"; "Rice"] ∧
  dailyLog (nutritionTracker (removeItem "nobody" noon twoMeals).2)
  = Some {| date := date twoMealsLog; items := items twoMealsLog;
            totals := calculateTotals (items twoMealsLog) |}.
Proof.
  assert (Hread : (loadTodaysLog noon twoMeals).1 = Resolved twoMealsLog)
    by (vm_compute; reflexivity).
  assert (Habsent : Forall (λ item, ti_id item ≠ "nobody") (items twoMealsLog))
    by (apply (bool_decide_unpack _); vm_compute; exact I).
  destruct (removeItem_absent_id "nobody" noon twoMeals twoMealsLog Hread
              Habsent eq_refl) as [Hres Hlog].
  split_and!; [exact Hread|exact Habsent|exact Hres|reflexivity|exact Hlog].
Defined.

Lemma loadTodaysLog_twice_witness :
  keyedByDate (storage twoMeals) ∧
  formatDateFromDate (clock afternoon) = formatDateFromDate (clock noon) ∧
  loadTodaysLog afternoon (loadTodaysLog noon twoMeals).2
  = loadTodaysLog noon twoMeals ∧
  storage (loadTodaysLog noon twoMeals).2 = storage twoMeals.
Proof.
  destruct (loadTodaysLog_twice noon afternoon twoMeals keyedByDate_twoMeals
              eq_refl) as [Hsame Hstorage].
  split_and!; [exact keyedByDate_twoMeals|reflexivity|exact Hsame
              |exact Hstorage].
Defined.

Lemma add_then_remove_witness :
  keyedByDate (storage twoMeals) ∧
  (loadTodaysLog noon twoMeals).1 = Resolved twoMealsLog ∧
  Forall (λ item, ti_id item ≠ "9000_k3j9x0q1z") (items twoMealsLog) ∧
  dailyLog (nutritionTracker
              (removeItem "9000_k3j9x0q1z" afternoon
                 (addCustomMeal (meal "Soup" 150) noon twoMeals).2).2)
  = Some {| date := date twoMealsLog; items := items twoMealsLog;
            totals := calculateTotals (items twoMealsLog) |}.
Proof.
  assert (Hread : (loadTodaysLog noon twoMeals).1 = Resolved twoMealsLog)
    by (vm_compute; reflexivity).
  assert (Hfresh : Forall (λ item, ti_id item ≠ "9000_k3j9x0q1z")
                     (items twoMealsLog))
    by (apply (bool_decide_unpack _); vm_compute; exact I).
  split_and!; [exact keyedByDate_twoMeals|exact Hread|exact Hfresh|].
  exact (add_then_remove (meal "Soup" 150) noon afternoon twoMeals twoMealsLog
           keyedByDate_twoMeals Hread Hfresh eq_refl).
Defined.


Lemma cleared_log_is_empty_witness :
  (clearTodaysLog noon twoMeals).1 = Resolved () ∧
  (loadTodaysLog afternoon (clearTodaysLog noon twoMeals).2).1
  = Resolved (emptyLog "2024-03-10").
Proof.
  assert (Hres : (clearTodaysLog noon twoMeals).1 = Resolved ())
    by (vm_compute; reflexivity).
  split; [exact Hres|].
  exact (cleared_log_is_empty noon afternoon twoMeals Hres eq_refl).
Defined.

Lemma failed_add_stays_in_cache_witness :
  faults brokenWrite (SetItem (logKey (formatDateFromDate (clock brokenWrite))))
    = true ∧
  storage (addCustomMeal (meal "Soup" 150) brokenWrite twoMeals).2
    = storage twoMeals ∧
  ∃ item,
    ti_name item = "Soup" ∧
    (getTodaysItems noon
       (addCustomMeal (meal "Soup" 150) brokenWrite twoMeals).2).1
    = Resolved (items twoMealsLog ++ [item])%list.
Proof.
  assert (Hfails : faults brokenWrite
            (SetItem (logKey (formatDateFromDate (clock brokenWrite)))) = true)
    by (vm_compute; reflexivity).
  assert (Hread : (loadTodaysLog brokenWrite twoMeals).1 = Resolved twoMealsLog)
    by (vm_compute; reflexivity).
  split; [exact Hfails|].
  exact (failed_add_stays_in_cache (meal "Soup" 150) brokenWrite noon twoMeals
           twoMealsLog keyedByDate_twoMeals Hread Hfails eq_refl).
Defined.

Lemma rejected_add_may_be_saved_witness :
  faults noQuickAccessWrite (SetItem fastAccessKey) = true ∧
  (addCustomMeal (meal "Soup" 150) noQuickAccessWrite twoMeals).1
  = Rejected (StorageError (SetItem fastAccessKey)) ∧
  ∃ log item,
    ti_name item = "Soup" ∧
    storage (addCustomMeal (meal "Soup" 150) noQuickAccessWrite twoMeals).2
      !! "nutrition_log_2024-03-10"
    = Some (JLog (pushItem log item)).
Proof.
  assert (Hfails : faults noQuickAccessWrite (SetItem fastAccessKey) = true)
    by (vm_compute; reflexivity).
  split; [exact Hfails|].
  destruct (rejected_add_may_be_saved (meal "Soup" 150) noQuickAccessWrite
              twoMeals eq_refl Hfails)
    as (Hrej & log & item & _ & Hname & _ & Hstored).
  split; [exact Hrej|]. exists log, item. split; [exact Hname|exact Hstored].
Defined.

Lemma unsubscribe_removes_one_witness :
  dateChangeCallbacks (nutritionTracker
                         (after (unsubscribe reloadHistory) noon subscribed))
  = [reloadSummary] ∧
  (cb_id stranger
   ∉ cb_id <$> dateChangeCallbacks (nutritionTracker subscribed)) ∧
  after (unsubscribe stranger) noon subscribed = subscribed.
Proof.
  split.
  - destruct (unsubscribe_removes_one (num := Z) reloadHistory noon subscribed)
      as [Hone _].
    apply (Hone [reloadSummary] [] reloadHistory); [reflexivity..|].
    vm_compute. intros Hin. inversion Hin as [|? ? ? Hnil]. inversion Hnil.
  - assert (Hnot : cb_id stranger ∉
                   cb_id <$> dateChangeCallbacks (nutritionTracker subscribed))
      by (apply (bool_decide_unpack _); vm_compute; exact I).
    split; [exact Hnot|].
    destruct (unsubscribe_removes_one (num := Z) stranger noon subscribed)
      as [_ Hnone].
    exact (proj1 (Hnone Hnot)).
Defined.

Lemma rollover_touches_logs_only_witness :
  isLogKey fastAccessKey = false ∧
  (∃ changed, (checkForDateChange mar12 twoMeals).1 = Resolved changed) ∧
  storage (checkForDateChange mar12 twoMeals).2 !! fastAccessKey
  = storage twoMeals !! fastAccessKey.
Proof.
  destruct (rollover_touches_logs_only mar12 twoMeals)
    as (Hres & _ & _ & Hkeys).
  split; [reflexivity|]. split; [exact Hres|].
  apply Hkeys. reflexivity.
Defined.


Lemma foreground_check_is_one_check_witness :
  (checkForDateChangeFromBackground mar12 inBackground).1 = Resolved () ∧
  nutritionTracker (checkForDateChangeFromBackground mar12 inBackground).2
  = nutritionTracker (checkForDateChange mar12 inBackground).2 ∧
  fastAccessKey ≠ backgroundKey ∧
  storage (checkForDateChangeFromBackground mar12 inBackground).2
    !! fastAccessKey
  = storage (checkForDateChange mar12 inBackground).2 !! fastAccessKey.
Proof.
  destruct (foreground_check_is_one_check mar12 inBackground)
    as (Hres & Htracker & _ & Hkeys & _).
  assert (Hne : fastAccessKey ≠ backgroundKey) by discriminate.
  split_and!; [exact Hres|exact Htracker|exact Hne|exact (Hkeys _ Hne)].
Defined.

Lemma background_timestamp_is_consumed_witness :
  (storage inBackground !! backgroundKey = Some (JText "9000") ∧
   storage (checkForDateChangeFromBackground mar12 inBackground).2
     !! backgroundKey = None) ∧
  (storage garbled !! backgroundKey = Some (JText "soon") ∧
   storage (checkForDateChangeFromBackground mar12 garbled).2
     !! backgroundKey = Some (JText "soon")).
Proof.
  split.
  - assert (Hstored : storage inBackground !! backgroundKey
                      = Some (JText "9000")) by (vm_compute; reflexivity).
    split; [exact Hstored|].
    refine (proj1 (background_timestamp_is_consumed mar12 inBackground
                     (JText "9000") Hstored eq_refl eq_refl eq_refl _) _).
    + eexists. vm_compute. reflexivity.
    + eexists. vm_compute. reflexivity.
  - assert (Hstored : storage garbled !! backgroundKey = Some (JText "soon"))
      by (vm_compute; reflexivity).
    split; [exact Hstored|].
    refine (proj2 (background_timestamp_is_consumed mar12 garbled
                     (JText "soon") Hstored eq_refl eq_refl eq_refl _) _).
    + eexists. vm_compute. reflexivity.
    + vm_compute. reflexivity.
Defined.



Lemma history_most_recent_first_witness :
  map_Forall (λ _ v, hasValidDate v = true) (storage backOnTheTwelfth) ∧
  ∃ all recent,
    (getAllHistoricalLogs mar11 backOnTheTwelfth).1 = Resolved all ∧
    (getMostRecentLogs 3 mar11 backOnTheTwelfth).1 = Resolved recent ∧
    StronglySorted notOlder all ∧ StronglySorted notOlder recent.
Proof.
  assert (Hvalid : map_Forall (λ _ v, hasValidDate v = true)
                     (storage backOnTheTwelfth))
    by (apply (bool_decide_unpack _); vm_compute; exact I).
  split; [exact Hvalid|].
  exact (history_most_recent_first mar11 backOnTheTwelfth 3 Hvalid).
Defined.

Lemma quick_access_stays_tidy_witness :
  tidyState twoMeals ∧
  tidyState (addOrUpdateFastAccessItem (tracked "Rice" 250) noon twoMeals).2 ∧
  tidyState (removeFastAccessItem "Oats_id" noon twoMeals).2 ∧
  tidyState (clearAllFastAccessItems noQuickAccessRemoval twoMeals).2 ∧
  tidyState (getFastAccessItems noon twoMeals).2.
Proof.
  split; [exact tidyState_twoMeals|].
  destruct (quick_access_stays_tidy (tracked "Rice" 250) "Oats_id" noon
              twoMeals tidyState_twoMeals) as (Hadd & Hremove & _ & Hget).
  destruct (quick_access_stays_tidy (tracked "Rice" 250) "Oats_id"
              noQuickAccessRemoval twoMeals tidyState_twoMeals)
    as (_ & _ & Hclear & _).
  split_and!; [exact Hadd|exact Hremove|exact Hclear|exact Hget].
Defined.


Lemma clear_then_read_witness :
  ((clearAllFastAccessItems noon twoMeals).1 = Resolved () ∧
   (getFastAccessItems afternoon
      (clearAllFastAccessItems noon twoMeals).2).1 = Resolved []) ∧
  (faults noQuickAccessRemoval (RemoveItem fastAccessKey) = true ∧
   (clearAllFastAccessItems noQuickAccessRemoval twoMeals).1
   = Rejected (StorageError (RemoveItem fastAccessKey)) ∧
   fa_name <$> fastAccessItems (fastAccessService twoMeals)
   = ["Rice"; "Oats"] ∧
   (getFastAccessItems afternoon
      (clearAllFastAccessItems noQuickAccessRemoval twoMeals).2).1
   = Resolved (sort byRecency (fastAccessItems (fastAccessService twoMeals)))).
Proof.
  split.
  - exact (proj1 (clear_then_read noon afternoon twoMeals) eq_refl).
  - assert (Hfails : faults noQuickAccessRemoval (RemoveItem fastAccessKey)
                     = true) by (vm_compute; reflexivity).
    destruct (proj2 (clear_then_read noQuickAccessRemoval afternoon twoMeals)
                Hfails) as (Hrej & _ & Hnext).
    split_and!; [exact Hfails|exact Hrej|reflexivity|].
    apply Hnext; [vm_compute|]; reflexivity.
Defined.

Lemma press_relogs_entry_witness :
  keyedByDate (storage twoMeals) ∧
  tidy (fastAccessItems (fastAccessService twoMeals)) ∧
  riceEntry ∈ fastAccessItems (fastAccessService twoMeals) ∧
  fa_name riceEntry = "Rice" ∧
  ∃ log t i,
    (handleFastAccessItemPress riceEntry noon twoMeals).1 = Resolved () ∧
    dailyLog (nutritionTracker
                (handleFastAccessItemPress riceEntry noon twoMeals).2)
    = Some (pushItem log t) ∧
    ti_name t = "Rice" ∧
    fastAccessItems (fastAccessService
                       (handleFastAccessItemPress riceEntry noon twoMeals).2)
    ≡ₚ <[i := refreshed riceEntry t 9000]>
         (fastAccessItems (fastAccessService twoMeals)).
Proof.
  assert (Hin : riceEntry ∈ fastAccessItems (fastAccessService twoMeals))
    by (vm_compute; constructor).
  split_and!; [exact keyedByDate_twoMeals|exact (proj1 tidyState_twoMeals)
              |exact Hin|reflexivity|].
  destruct (press_relogs_entry riceEntry noon twoMeals keyedByDate_twoMeals
              (proj1 tidyState_twoMeals) Hin eq_refl eq_refl)
    as (log & t & i & _ & Hres & Hlog & _ & Hname & _ & _ & _ & Hperm).
  exists log, t, i. split_and!; [exact Hres|exact Hlog|exact Hname|exact Hperm].
Defined.

Lemma background_timestamp_round_trip_witness :
  is_Some (isoDay (now noon)) ∧ is_Some (isoDay (now mar12)) ∧
  (saveBackgroundTimestamp noon twoMeals).1 = Resolved () ∧
  storedTimestamp
    <$> storage (saveBackgroundTimestamp noon twoMeals).2 !! backgroundKey
  = Some (Some 9000) ∧
  storage (checkForDateChangeFromBackground mar12
             (saveBackgroundTimestamp noon twoMeals).2).2 !! backgroundKey
  = None.
Proof.
  assert (Hthen : is_Some (isoDay (now noon)))
    by (eexists; vm_compute; reflexivity).
  assert (Hnow : is_Some (isoDay (now mar12)))
    by (eexists; vm_compute; reflexivity).
  split; [exact Hthen|]. split; [exact Hnow|].
  exact (background_timestamp_round_trip noon mar12 twoMeals eq_refl eq_refl
           eq_refl Hthen Hnow).
Defined.

Lemma day_strings_follow_the_calendar_witness :
  isCalendarDay (clock mar11) = true ∧ isCalendarDay (clock mar12) = true ∧
  earlier (clock mar11) (clock mar12) ∧
  dateObjLt (formatDateFromDate (clock mar11))
    (formatDateFromDate (clock mar12)) = true.
Proof.
  assert (Hbefore : earlier (clock mar11) (clock mar12))
    by (vm_compute; right; split; [reflexivity|]; right; split; reflexivity).
  split_and!; [reflexivity|reflexivity|exact Hbefore|].
  exact (proj2 (proj2 (day_strings_follow_the_calendar (clock mar11)
                         (clock mar12) eq_refl eq_refl)) Hbefore).
Defined.

Lemma quick_access_views_split_witness :
  tidyState twoMeals ∧
  ∃ l,
    (getFastAccessItems noon twoMeals).1 = Resolved l ∧
    (getCustomMeals noon twoMeals).1
    = Resolved (filter (λ item, fa_restaurant item = "Custom Meal") l) ∧
    (getRecentRestaurantItems noon twoMeals).1
    = Resolved (filter (λ item, fa_restaurant item ≠ "Custom Meal") l).
Proof.
  split; [exact tidyState_twoMeals|].
  exact (quick_access_views_split noon twoMeals tidyState_twoMeals).
Defined.
